(** * Tensor ICP registration of Open3D: a shallow embedding

    The development follows
    - [cpp/open3d/t/pipelines/registration/Registration.cpp]
      (correspondence search and metrics, the single-scale ICP loop, the
      point-to-point and point-to-plane estimations),
    - [cpp/open3d/t/pipelines/kernel/ComputePosePointToPlaneCPU.cpp] and
      [cpp/open3d/t/pipelines/kernel/ComputeTransformCUDA.cu]
      (the 27-element reduction kernels and the 6x6 solve),
    - [examples/cpp/DemoTICPOdom.cpp] (the multiscale configuration reader).

    Numbers.  Tensor entries ([float]) are modelled by the real number
    they denote, so sums and products are exact and rounding is not
    modelled.  The [double] metrics of a [RegistrationResult] are modelled
    by reals extended with the IEEE special values (infinities and NaN),
    because the code divides by counts that can be zero.  Tensor lengths
    are natural numbers (the narrowing of a length to [int] is taken to be
    the identity). *)

From Stdlib Require Import String Ascii.
From Stdlib Require Import Reals List Lia Lra ZArith Bool.
From Stdlib Require Import Psatz Permutation.
Import ListNotations.

Open Scope R_scope.

(** ** IEEE doubles up to rounding *)

Module Double.

(** A finite value, an infinity with its sign ([true] is negative), or
    NaN. *)
Inductive double : Type :=
| DFin (x : R)
| DInf (neg : bool)
| DNaN.

Definition Rltb (x y : R) : bool := if Rlt_dec x y then true else false.
Definition Rleb (x y : R) : bool := if Rle_dec x y then true else false.

(** [static_cast<double>(n)] for a count [n]. *)
Definition of_nat (n : nat) : double := DFin (INR n).

(** [a - b]. *)
Definition dsub (a b : double) : double :=
  match a, b with
  | DNaN, _ | _, DNaN => DNaN
  | DFin x, DFin y => DFin (x - y)
  | DFin _, DInf s => DInf (negb s)
  | DInf s, DFin _ => DInf s
  | DInf s, DInf s' => if Bool.eqb s s' then DNaN else DInf s
  end.

(** [a / b]; a finite zero divisor stands for [+0.0], the value a cast
    count has. *)
Definition ddiv (a b : double) : double :=
  match a, b with
  | DNaN, _ | _, DNaN => DNaN
  | DFin x, DFin y =>
      if Req_dec_T y 0
      then (if Req_dec_T x 0 then DNaN else DInf (Rltb x 0))
      else DFin (x / y)
  | DFin _, DInf _ => DFin 0
  | DInf s, DFin y => DInf (xorb s (Rltb y 0))
  | DInf _, DInf _ => DNaN
  end.

(** [std::sqrt]. *)
Definition dsqrt (a : double) : double :=
  match a with
  | DNaN => DNaN
  | DFin x => if Rltb x 0 then DNaN else DFin (sqrt x)
  | DInf false => DInf false
  | DInf true => DNaN
  end.

(** [std::abs]. *)
Definition dabs (a : double) : double :=
  match a with
  | DNaN => DNaN
  | DFin x => DFin (Rabs x)
  | DInf _ => DInf false
  end.

(** [a < b]: false as soon as one side is NaN. *)
Definition dlt (a b : double) : bool :=
  match a, b with
  | DNaN, _ | _, DNaN => false
  | DFin x, DFin y => Rltb x y
  | DFin _, DInf s => negb s
  | DInf s, DFin _ => s
  | DInf s, DInf s' => s && negb s'
  end.

(** [a <= b]: false as soon as one side is NaN. *)
Definition dle (a b : double) : bool :=
  match a, b with
  | DNaN, _ | _, DNaN => false
  | DFin x, DFin y => Rleb x y
  | DFin _, DInf s => negb s
  | DInf s, DFin _ => s
  | DInf s, DInf s' => s || negb s'
  end.

Lemma Rltb_true (x y : R) : Rltb x y = true <-> x < y.
Proof. unfold Rltb; destruct (Rlt_dec x y); split; intros; try easy. Qed.

Lemma Rltb_false (x y : R) : Rltb x y = false <-> y <= x.
Proof.
  unfold Rltb; destruct (Rlt_dec x y); split; intros; try easy; lra.
Qed.

Lemma Rleb_true (x y : R) : Rleb x y = true <-> x <= y.
Proof. unfold Rleb; destruct (Rle_dec x y); split; intros; try easy. Qed.

Lemma Rleb_false (x y : R) : Rleb x y = false <-> y < x.
Proof.
  unfold Rleb; destruct (Rle_dec x y); split; intros; try easy; lra.
Qed.

Lemma dlt_nan_l (b : double) : dlt DNaN b = false.
Proof. reflexivity. Qed.

Lemma dlt_nan_r (a : double) : dlt a DNaN = false.
Proof. destruct a; reflexivity. Qed.

Lemma dsub_nan_r (a : double) : dsub a DNaN = DNaN.
Proof. destruct a; reflexivity. Qed.

Lemma dabs_dsub_sym (a b : double) : dabs (dsub a b) = dabs (dsub b a).
Proof.
  destruct a as [x|s|], b as [y|s'|]; simpl; try reflexivity.
  - f_equal. apply Rabs_minus_sym.
  - destruct s, s'; reflexivity.
Qed.

Lemma ddiv_0_0 : ddiv (of_nat 0) (of_nat 0) = DNaN.
Proof.
  unfold of_nat, ddiv; simpl.
  destruct (Req_dec_T 0 0) as [_|H]; [reflexivity | now elim H].
Qed.

Lemma ddiv_fin (x y : R) : y <> 0 -> ddiv (DFin x) (DFin y) = DFin (x / y).
Proof.
  intros H; unfold ddiv. destruct (Req_dec_T y 0); [contradiction | easy].
Qed.

Lemma dsqrt_fin (x : R) : 0 <= x -> dsqrt (DFin x) = DFin (sqrt x).
Proof.
  intros H; unfold dsqrt.
  destruct (Rltb x 0) eqn:E; [apply Rltb_true in E; lra | reflexivity].
Qed.

End Double.
Import Double.


(** ** Small dense linear algebra: rows of a tensor as vectors *)

Module LinAlg.

Record Vec3 : Type := mkVec3 { vx : R; vy : R; vz : R }.

(** A {3,3} tensor, row major. *)
Record Mat3 : Type := mkMat3 { row0 : Vec3; row1 : Vec3; row2 : Vec3 }.

Record Vec4 : Type := mkVec4 { w0 : R; w1 : R; w2 : R; w3 : R }.

(** A {4,4} tensor, row major. *)
Record Mat4 : Type := mkMat4 { r0 : Vec4; r1 : Vec4; r2 : Vec4; r3 : Vec4 }.

Definition vzero3 : Vec3 := mkVec3 0 0 0.

Definition vadd3 (a b : Vec3) : Vec3 :=
  mkVec3 (vx a + vx b) (vy a + vy b) (vz a + vz b).

Definition vsub3 (a b : Vec3) : Vec3 :=
  mkVec3 (vx a - vx b) (vy a - vy b) (vz a - vz b).

(** Elementwise product, [Tensor::Mul_] on one row. *)
Definition vmul3 (a b : Vec3) : Vec3 :=
  mkVec3 (vx a * vx b) (vy a * vy b) (vz a * vz b).

Definition vscale3 (c : R) (a : Vec3) : Vec3 :=
  mkVec3 (c * vx a) (c * vy a) (c * vz a).

(** Sum of the three entries of a row. *)
Definition vsum3 (a : Vec3) : R := vx a + vy a + vz a.

Definition dot3 (a b : Vec3) : R := vx a * vx b + vy a * vy b + vz a * vz b.

Definition cross3 (a b : Vec3) : Vec3 :=
  mkVec3 (vy a * vz b - vz a * vy b)
         (vz a * vx b - vx a * vz b)
         (vx a * vy b - vy a * vx b).

Definition col3_0 (m : Mat3) : Vec3 :=
  mkVec3 (vx (row0 m)) (vx (row1 m)) (vx (row2 m)).
Definition col3_1 (m : Mat3) : Vec3 :=
  mkVec3 (vy (row0 m)) (vy (row1 m)) (vy (row2 m)).
Definition col3_2 (m : Mat3) : Vec3 :=
  mkVec3 (vz (row0 m)) (vz (row1 m)) (vz (row2 m)).

(** [Tensor::T] on a {3,3} tensor. *)
Definition mtrans3 (m : Mat3) : Mat3 := mkMat3 (col3_0 m) (col3_1 m) (col3_2 m).

Definition vrow_mul3 (r : Vec3) (m : Mat3) : Vec3 :=
  mkVec3 (dot3 r (col3_0 m)) (dot3 r (col3_1 m)) (dot3 r (col3_2 m)).

(** [Tensor::Matmul] on {3,3} tensors. *)
Definition mmul3 (a b : Mat3) : Mat3 :=
  mkMat3 (vrow_mul3 (row0 a) b) (vrow_mul3 (row1 a) b) (vrow_mul3 (row2 a) b).

(** A {3,3} tensor times a column. *)
Definition mvec3 (m : Mat3) (v : Vec3) : Vec3 :=
  mkVec3 (dot3 (row0 m) v) (dot3 (row1 m) v) (dot3 (row2 m) v).

(** [Tensor::Det] on a {3,3} tensor. *)
Definition det3 (m : Mat3) : R := dot3 (row0 m) (cross3 (row1 m) (row2 m)).

Definition mscale3 (c : R) (m : Mat3) : Mat3 :=
  mkMat3 (vscale3 c (row0 m)) (vscale3 c (row1 m)) (vscale3 c (row2 m)).

Definition madd3 (a b : Mat3) : Mat3 :=
  mkMat3 (vadd3 (row0 a) (row0 b)) (vadd3 (row1 a) (row1 b))
         (vadd3 (row2 a) (row2 b)).

Definition mzero3 : Mat3 := mkMat3 vzero3 vzero3 vzero3.

(** The outer product [a bT]. *)
Definition outer3 (a b : Vec3) : Mat3 :=
  mkMat3 (vscale3 (vx a) b) (vscale3 (vy a) b) (vscale3 (vz a) b).

Definition diag3 (a b c : R) : Mat3 :=
  mkMat3 (mkVec3 a 0 0) (mkVec3 0 b 0) (mkVec3 0 0 c).

(** [Tensor::Eye(3)]. *)
Definition Eye3 : Mat3 := diag3 1 1 1.

Definition dot4 (a b : Vec4) : R :=
  w0 a * w0 b + w1 a * w1 b + w2 a * w2 b + w3 a * w3 b.

Definition col4_0 (m : Mat4) : Vec4 :=
  mkVec4 (w0 (r0 m)) (w0 (r1 m)) (w0 (r2 m)) (w0 (r3 m)).
Definition col4_1 (m : Mat4) : Vec4 :=
  mkVec4 (w1 (r0 m)) (w1 (r1 m)) (w1 (r2 m)) (w1 (r3 m)).
Definition col4_2 (m : Mat4) : Vec4 :=
  mkVec4 (w2 (r0 m)) (w2 (r1 m)) (w2 (r2 m)) (w2 (r3 m)).
Definition col4_3 (m : Mat4) : Vec4 :=
  mkVec4 (w3 (r0 m)) (w3 (r1 m)) (w3 (r2 m)) (w3 (r3 m)).

Definition vrow_mul4 (r : Vec4) (m : Mat4) : Vec4 :=
  mkVec4 (dot4 r (col4_0 m)) (dot4 r (col4_1 m))
         (dot4 r (col4_2 m)) (dot4 r (col4_3 m)).

(** [Tensor::Matmul] on {4,4} tensors. *)
Definition Matmul (a b : Mat4) : Mat4 :=
  mkMat4 (vrow_mul4 (r0 a) b) (vrow_mul4 (r1 a) b)
         (vrow_mul4 (r2 a) b) (vrow_mul4 (r3 a) b).

(** [Tensor::Eye(4)]. *)
Definition Eye4 : Mat4 :=
  mkMat4 (mkVec4 1 0 0 0) (mkVec4 0 1 0 0) (mkVec4 0 0 1 0) (mkVec4 0 0 0 1).

Definition head3 (v : Vec4) : Vec3 := mkVec3 (w0 v) (w1 v) (w2 v).

(** The slice [0:3, 0:3] of a transformation. *)
Definition rotation_of (m : Mat4) : Mat3 :=
  mkMat3 (head3 (r0 m)) (head3 (r1 m)) (head3 (r2 m)).

(** The slice [0:3, 3] of a transformation. *)
Definition translation_of (m : Mat4) : Vec3 :=
  mkVec3 (w3 (r0 m)) (w3 (r1 m)) (w3 (r2 m)).

(** The bottom row of a rigid transformation is [0 0 0 1]. *)
Definition homogeneous (m : Mat4) : Prop := r3 m = mkVec4 0 0 0 1.

Definition snoc3 (v : Vec3) (c : R) : Vec4 := mkVec4 (vx v) (vy v) (vz v) c.

(** Modelled from the spec: [kernel::RtToTransformation] of
    TransformationConverter, which is not part of the sources at hand.
    The rotation fills the upper-left 3x3 block, the translation the last
    column, and the bottom row is [0 0 0 1]. *)
Definition RtToTransformation (Rm : Mat3) (t : Vec3) : Mat4 :=
  mkMat4 (snoc3 (row0 Rm) (vx t)) (snoc3 (row1 Rm) (vy t))
         (snoc3 (row2 Rm) (vz t)) (mkVec4 0 0 0 1).

(** Sum of a list of reals, [Tensor::Sum] over one axis. *)
Definition Rsum (l : list R) : R := fold_right Rplus 0 l.

Definition vsum_list (l : list Vec3) : Vec3 := fold_right vadd3 vzero3 l.

Definition msum_list (l : list Mat3) : Mat3 := fold_right madd3 mzero3 l.

(** An orthogonal matrix: its transpose is its inverse on both sides. *)
Definition orthogonal (m : Mat3) : Prop :=
  mmul3 (mtrans3 m) m = Eye3 /\ mmul3 m (mtrans3 m) = Eye3.

Ltac crush_mat :=
  repeat match goal with
         | m : Mat3 |- _ => destruct m
         | m : Mat4 |- _ => destruct m
         | v : Vec3 |- _ => destruct v
         | v : Vec4 |- _ => destruct v
         end;
  cbv [mmul3 mtrans3 vrow_mul3 dot3 col3_0 col3_1 col3_2 mvec3 det3 cross3
       vadd3 vsub3 vmul3 vscale3 vsum3 mscale3 madd3 outer3 diag3 Eye3
       Matmul vrow_mul4 dot4 col4_0 col4_1 col4_2 col4_3 Eye4 head3
       rotation_of translation_of snoc3 RtToTransformation homogeneous
       row0 row1 row2 vx vy vz r0 r1 r2 r3 w0 w1 w2 w3 vzero3 mzero3].

Lemma mmul3_assoc (a b c : Mat3) : mmul3 (mmul3 a b) c = mmul3 a (mmul3 b c).
Proof. crush_mat. f_equal; f_equal; ring. Qed.

Lemma mtrans3_mmul3 (a b : Mat3) :
  mtrans3 (mmul3 a b) = mmul3 (mtrans3 b) (mtrans3 a).
Proof. crush_mat. f_equal; f_equal; ring. Qed.

Lemma mtrans3_involutive (a : Mat3) : mtrans3 (mtrans3 a) = a.
Proof. crush_mat. reflexivity. Qed.

Lemma mmul3_Eye3_l (a : Mat3) : mmul3 Eye3 a = a.
Proof. crush_mat. f_equal; f_equal; ring. Qed.

Lemma mmul3_Eye3_r (a : Mat3) : mmul3 a Eye3 = a.
Proof. crush_mat. f_equal; f_equal; ring. Qed.

Lemma det3_mmul3 (a b : Mat3) : det3 (mmul3 a b) = det3 a * det3 b.
Proof. crush_mat. ring. Qed.

Lemma det3_mtrans3 (a : Mat3) : det3 (mtrans3 a) = det3 a.
Proof. crush_mat. ring. Qed.

Lemma det3_Eye3 : det3 Eye3 = 1.
Proof. crush_mat. ring. Qed.

Lemma det3_diag3 (a b c : R) : det3 (diag3 a b c) = a * b * c.
Proof. crush_mat. ring. Qed.

Lemma orthogonal_det_sqr (m : Mat3) : orthogonal m -> det3 m * det3 m = 1.
Proof.
  intros [H _]. apply (f_equal det3) in H.
  rewrite det3_mmul3, det3_mtrans3, det3_Eye3 in H. exact H.
Qed.

Lemma orthogonal_det (m : Mat3) : orthogonal m -> det3 m = 1 \/ det3 m = -1.
Proof.
  intros H. apply orthogonal_det_sqr in H.
  destruct (Rle_dec 0 (det3 m)); [left | right]; nra.
Qed.



Lemma homogeneous_Matmul (a b : Mat4) :
  homogeneous a -> homogeneous b -> homogeneous (Matmul a b).
Proof.
  unfold homogeneous.
  destruct a as [a0 a1 a2 a3], b as [b0 b1 b2 b3]; simpl. intros -> ->.
  destruct b0, b1, b2.
  cbv [vrow_mul4 dot4 col4_0 col4_1 col4_2 col4_3 r0 r1 r2 r3 w0 w1 w2 w3].
  f_equal; ring.
Qed.

Lemma homogeneous_RtToTransformation (Rm : Mat3) (t : Vec3) :
  homogeneous (RtToTransformation Rm t).
Proof. reflexivity. Qed.

Lemma rotation_of_RtToTransformation (Rm : Mat3) (t : Vec3) :
  rotation_of (RtToTransformation Rm t) = Rm.
Proof. crush_mat. reflexivity. Qed.

Lemma translation_of_RtToTransformation (Rm : Mat3) (t : Vec3) :
  translation_of (RtToTransformation Rm t) = t.
Proof. crush_mat. reflexivity. Qed.

End LinAlg.
Import LinAlg.


(** ** Fatal errors

    [utility::LogError] throws; a computation that can reach it returns a
    [Result]. *)

Inductive Result (A : Type) : Type :=
| Ok (a : A)
| Error (msg : string).
Arguments Ok {A} a.
Arguments Error {A} msg.


(** ** The point-to-plane pose kernels (ComputePosePointToPlaneCPU.cpp) *)

Module Kernel.

(** [p[i]] through a raw pointer. *)
Definition ptr_get (p : list R) (i : nat) : R := nth i p 0.

(** [p[i] = v]. *)
Fixpoint ptr_set (p : list R) (i : nat) (v : R) : list R :=
  match p, i with
  | [], _ => []
  | _ :: q, O => v :: q
  | x :: q, S j => x :: ptr_set q j v
  end.

(** [p[i] += v]. *)
Definition ptr_add (p : list R) (i : nat) (v : R) : list R :=
  ptr_set p i (ptr_get p i + v).

(** [std::vector<float> zeros_27(27, 0.0)], and [Tensor::Zeros]. *)
Definition zeros (n : nat) : list R := repeat 0 n.
Definition zeros_27 : list R := zeros 27.

(** A [tbb::blocked_range<int>]: [begin] and [end]. *)
Definition blocked_range : Type := (nat * nat)%type.

(** The iteration space [r.begin(), ..., r.end() - 1]. *)
Definition range_indices (r : blocked_range) : list nat :=
  seq (fst r) (snd r - fst r).

(** Contiguous chunks that cover [b, e) from left to right. *)
Fixpoint chunks_cover (l : list blocked_range) (b e : nat) : bool :=
  match l with
  | [] => Nat.eqb b e
  | r :: l' => Nat.eqb (fst r) b && Nat.leb (fst r) (snd r)
               && chunks_cover l' (snd r) e
  end.

(** How [tbb::parallel_reduce] deals a range to bodies: a leaf is a
    subrange on which the body runs, [Continue] lets the same body go on
    with the next subrange, [Split] hands the right part to a body that
    starts from the identity and joins the two results. *)
Inductive split_tree : Type :=
| Leaf (r : blocked_range)
| Continue (l r : split_tree)
| Split (l r : split_tree).

Fixpoint leaves (t : split_tree) : list blocked_range :=
  match t with
  | Leaf r => [r]
  | Continue l r | Split l r => leaves l ++ leaves r
  end.

(** The join lambda of the reduction: [result[j] = a[j] + b[j]], j < 27. *)
Definition join (a b : list R) : list R :=
  map (fun j => ptr_get a j + ptr_get b j) (seq 0 27).

(** The value a body holds after its part of the tree, from the value
    [init] it held before. *)
Fixpoint reduce_from {Value : Type} (t : split_tree) (init identity : Value)
    (func : blocked_range -> Value -> Value)
    (reduction : Value -> Value -> Value) : Value :=
  match t with
  | Leaf r => func r init
  | Continue l r =>
      reduce_from r (reduce_from l init identity func reduction)
        identity func reduction
  | Split l r =>
      reduction (reduce_from l init identity func reduction)
                (reduce_from r identity identity func reduction)
  end.

(** The functional form of [tbb::parallel_reduce]: the first body starts
    from the identity. *)
Definition parallel_reduce {Value : Type} (t : split_tree) (identity : Value)
    (func : blocked_range -> Value -> Value)
    (reduction : Value -> Value -> Value) : Value :=
  reduce_from t identity identity func reduction.

(** The [+] reduction of OpenMP on an array section [p[:len]]. *)
Definition section_add (len : nat) (a b : list R) : list R :=
  map (fun j => ptr_get a j + ptr_get b j) (seq 0 len).

(** Name the entries of a list of known length. *)
Tactic Notation "list_of_length" ident(l) integer(n) :=
  do n (destruct l as [|? l]; [discriminate|]);
  destruct l; [|discriminate].

(** The product of a row-major {6,6} tensor and a 6-vector. *)
Definition mat6_vec (A x : list R) : list R :=
  map (fun j => Rsum (map (fun k => ptr_get A (j * 6 + k) * ptr_get x k)
                          (seq 0 6)))
      (seq 0 6).

Definition Reqb (x y : R) : bool := if Req_dec_T x y then true else false.

(** A solver for diagonal systems, an instance of the dense solve that
    the examples run with. *)
Definition diag_solve (A b : list R) : Result (list R) :=
  if Nat.eqb (length b) 6
     && forallb
          (fun j =>
             forallb
               (fun k =>
                  if Nat.eqb j k then negb (Reqb (ptr_get A (j * 6 + k)) 0)
                  else Reqb (ptr_get A (j * 6 + k)) 0)
               (seq 0 6))
          (seq 0 6)
  then Ok (map (fun j => ptr_get b j / ptr_get A (j * 6 + j)) (seq 0 6))
  else Error "Singular 6x6 matrix.".

(** *** Reductions over contiguous chunks

    A loop body [step] that adds a contribution to an accumulator, an
    associative [add] on well-shaped accumulators: the reduction over any
    contiguous chunking is the sequential loop. *)

Section Reduction.

Variable Value : Type.
Variable add : Value -> Value -> Value.
Variable zero : Value.
Variable shaped : Value -> Prop.
Variable step : Value -> nat -> Value.

Hypothesis shaped_zero : shaped zero.
Hypothesis shaped_add : forall a b, shaped (add a b).
Hypothesis shaped_step : forall a i, shaped a -> shaped (step a i).
Hypothesis add_assoc : forall a b c, add (add a b) c = add a (add b c).
Hypothesis add_zero_r : forall a, shaped a -> add a zero = a.
Hypothesis add_zero_l : forall a, shaped a -> add zero a = a.
Hypothesis step_add : forall a i, shaped a -> step a i = add a (step zero i).

Definition run (r : blocked_range) (acc : Value) : Value :=
  fold_left step (range_indices r) acc.

Lemma shaped_fold (l : list nat) (a : Value) :
  shaped a -> shaped (fold_left step l a).
Proof. revert a; induction l; simpl; auto. Qed.

Lemma fold_step_add (l : list nat) (a : Value) :
  shaped a -> fold_left step l a = add a (fold_left step l zero).
Proof.
  revert a; induction l as [|i l IH]; intros a Ha; simpl.
  - now rewrite add_zero_r.
  - rewrite (IH (step a i)) by auto.
    rewrite (IH (step zero i)) by auto.
    rewrite (step_add a i Ha). apply add_assoc.
Qed.

Lemma range_indices_split (b m e : nat) :
  (b <= m)%nat -> (m <= e)%nat ->
  range_indices (b, e) = range_indices (b, m) ++ range_indices (m, e).
Proof.
  intros H1 H2. unfold range_indices; simpl.
  replace (e - b)%nat with ((m - b) + (e - m))%nat by lia.
  rewrite seq_app. do 2 f_equal. lia.
Qed.

Lemma run_split (b m e : nat) :
  (b <= m)%nat -> (m <= e)%nat ->
  add (run (b, m) zero) (run (m, e) zero) = run (b, e) zero.
Proof.
  intros H1 H2. unfold run.
  rewrite (range_indices_split b m e H1 H2), fold_left_app.
  symmetry. apply fold_step_add, shaped_fold, shaped_zero.
Qed.

Lemma chunks_cover_le (l : list blocked_range) (b e : nat) :
  chunks_cover l b e = true -> (b <= e)%nat.
Proof.
  revert b; induction l as [|r l IH]; simpl; intros b H.
  - apply Nat.eqb_eq in H. lia.
  - apply andb_prop in H as [H H3]. apply andb_prop in H as [H1 H2].
    apply Nat.eqb_eq in H1. apply Nat.leb_le in H2. apply IH in H3. lia.
Qed.

Lemma chunks_cover_app (l1 l2 : list blocked_range) (b e : nat) :
  chunks_cover (l1 ++ l2) b e = true ->
  exists m, chunks_cover l1 b m = true /\ chunks_cover l2 m e = true.
Proof.
  revert b; induction l1 as [|r l1 IH]; simpl; intros b H.
  - exists b. now rewrite Nat.eqb_refl.
  - apply andb_prop in H as [H H3]. destruct (IH _ H3) as [m [Hm1 Hm2]].
    exists m. now rewrite H, Hm1.
Qed.

Lemma shaped_run (r : blocked_range) : shaped (run r zero).
Proof. apply shaped_fold, shaped_zero. Qed.

(** A body that goes through a part of the tree adds the sequential run of
    that part to what it held. *)
Lemma reduce_from_run (t : split_tree) (b e : nat) (init : Value) :
  shaped init ->
  chunks_cover (leaves t) b e = true ->
  reduce_from t init zero run add = add init (run (b, e) zero).
Proof.
  revert b e init; induction t as [r|l IHl r IHr|l IHl r IHr];
    simpl; intros b e init Hi H.
  - apply andb_prop in H as [H H3]. apply andb_prop in H as [H1 H2].
    apply Nat.eqb_eq in H1. apply Nat.eqb_eq in H3.
    destruct r as [rb re]; simpl in *. subst.
    now apply fold_step_add.
  - apply chunks_cover_app in H as [m [H1 H2]].
    rewrite (IHl _ _ _ Hi H1).
    rewrite (IHr _ _ _ (shaped_add _ _) H2), add_assoc.
    f_equal. apply run_split; eapply chunks_cover_le; eassumption.
  - apply chunks_cover_app in H as [m [H1 H2]].
    rewrite (IHl _ _ _ Hi H1), (IHr _ _ _ shaped_zero H2).
    rewrite (add_zero_l _ (shaped_run _)), add_assoc.
    f_equal. apply run_split; eapply chunks_cover_le; eassumption.
Qed.

(** A split tree whose leaves cover [b, e) reduces to the sequential run. *)
Lemma parallel_reduce_run (t : split_tree) (b e : nat) :
  chunks_cover (leaves t) b e = true ->
  parallel_reduce t zero run add = run (b, e) zero.
Proof.
  intros H. unfold parallel_reduce.
  rewrite (reduce_from_run t b e zero shaped_zero H).
  apply add_zero_l, shaped_run.
Qed.

(** Private copies added to the original one chunk after the other. *)
Lemma fold_chunks_run (chunks : list blocked_range) (b e : nat) (acc : Value) :
  shaped acc ->
  chunks_cover chunks b e = true ->
  fold_left (fun a r => add a (run r zero)) chunks acc
  = add acc (run (b, e) zero).
Proof.
  revert b acc; induction chunks as [|r l IH]; simpl; intros b acc Ha H.
  - apply Nat.eqb_eq in H. subst e. unfold run, range_indices; simpl.
    rewrite Nat.sub_diag. simpl. symmetry. now apply add_zero_r.
  - apply andb_prop in H as [H H3]. apply andb_prop in H as [H1 H2].
    apply Nat.eqb_eq in H1. apply Nat.leb_le in H2.
    destruct r as [rb re]; simpl in *. subst rb.
    rewrite (IH re _ (shaped_add _ _) H3), add_assoc.
    f_equal. apply run_split; [exact H2 | eapply chunks_cover_le; eassumption].
Qed.

End Reduction.

Section PosePointToPlane.

Variables source_points_ptr target_points_ptr target_normals_ptr : list R.
Variables correspondence_first correspondence_second : list nat.

(** The loads, the array [ai] and the residual [bi] that open the body of
    every loop over the workloads (the part that the CUDA kernel calls
    [GetJacobianPointToPlane]). *)
Definition GetJacobian (workload_idx : nat) : list R * R :=
  let source_index := (3 * nth workload_idx correspondence_first 0)%nat in
  let target_index := (3 * nth workload_idx correspondence_second 0)%nat in
  let sx := ptr_get source_points_ptr (source_index + 0) in
  let sy := ptr_get source_points_ptr (source_index + 1) in
  let sz := ptr_get source_points_ptr (source_index + 2) in
  let tx := ptr_get target_points_ptr (target_index + 0) in
  let ty := ptr_get target_points_ptr (target_index + 1) in
  let tz := ptr_get target_points_ptr (target_index + 2) in
  let nx := ptr_get target_normals_ptr (target_index + 0) in
  let ny := ptr_get target_normals_ptr (target_index + 1) in
  let nz := ptr_get target_normals_ptr (target_index + 2) in
  let bi := (tx - sx) * nx + (ty - sy) * ny + (tz - sz) * nz in
  let ai := [nz * sy - ny * sz; nx * sz - nz * sx; ny * sx - nx * sy;
             nx; ny; nz] in
  (ai, bi).

(** The two nested loops of the TBB body on one workload:
    [running_total[i] += ai[j] * ai[k]] for [k <= j], then
    [running_total[21 + j] += ai[j] * bi]. *)
Definition tbb_workload (running_total : list R) (workload_idx : nat)
  : list R :=
  let '(ai, bi) := GetJacobian workload_idx in
  snd (fold_left
         (fun (st : nat * list R) (j : nat) =>
            let '(i, rt) :=
              fold_left
                (fun (st' : nat * list R) (k : nat) =>
                   (S (fst st'),
                    ptr_add (snd st') (fst st')
                            (ptr_get ai j * ptr_get ai k)))
                (seq 0 (S j)) st in
            (i, ptr_add rt (21 + j) (ptr_get ai j * bi)))
         (seq 0 6) (O, running_total)).

(** The body lambda of the reduction. *)
Definition tbb_body (r : blocked_range) (running_total : list R) : list R :=
  fold_left tbb_workload (range_indices r) running_total.

(** [A_1x27_vec] of [ComputePosePointToPlaneTBB] under a given split. *)
Definition A_1x27_vec (sched : split_tree) : list R :=
  parallel_reduce sched zeros_27 tbb_body join.

(** The loop that mirrors the 21 accumulated entries into the {6,6}
    tensor [ATA]. *)
Definition mirror (acc : list R) (ata : list R) : list R :=
  snd (fold_left
         (fun (st : nat * list R) (j : nat) =>
            fold_left
              (fun (st' : nat * list R) (k : nat) =>
                 let i := fst st' in
                 let a1 := ptr_set (snd st') (j * 6 + k) (ptr_get acc i) in
                 let a2 := ptr_set a1 (k * 6 + j) (ptr_get acc i) in
                 (S i, a2))
              (seq 0 (S j)) st)
         (seq 0 6) (O, ata)).

(** [atb_ptr[j] = A_1x27_vec[j + 21]]. *)
Definition copy_atb (acc : list R) (atb : list R) : list R :=
  fold_left (fun b j => ptr_set b j (ptr_get acc (j + 21))) (seq 0 6) atb.

(** The dense solve of the linear algebra library, [ATA.Solve(ATB)] on a
    {6,6} and a {6,1} tensor; it is not part of these sources. *)
Variable Solve : list R -> list R -> Result (list R).

(** The tensors [ATA] and [ATB] of [ComputePosePointToPlaneTBB]; [sched]
    is the split the scheduler picks for [blocked_range(0, n)], [empty36]
    and [empty6] are the contents of the two [Tensor::Empty]. *)
Definition tbb_normal_equations (sched : split_tree)
    (empty36 empty6 : list R) : list R * list R :=
  let v := A_1x27_vec sched in
  let ATA := mirror v empty36 in
  let ATB := copy_atb v empty6 in
  (ATA, ATB).

(** [ComputePosePointToPlaneTBB]: [pose = ATA.Solve(ATB)]. *)
Definition ComputePosePointToPlaneTBB (sched : split_tree)
    (empty36 empty6 : list R) : Result (list R) :=
  let '(ATA, ATB) := tbb_normal_equations sched empty36 empty6 in
  Solve ATA ATB.

(** The body of the OpenMP loop on one workload, on the private copies of
    [ata_1x21] and [atb_ptr]; the residual is written inline in the
    source, with the expression [bi] of [GetJacobian]. *)
Definition omp_workload (st : list R * list R) (workload_idx : nat)
  : list R * list R :=
  let '(ai, bi) := GetJacobian workload_idx in
  let '(_, ata, atb) :=
    fold_left
      (fun (s : nat * list R * list R) (j : nat) =>
         let '(i, ata, atb) := s in
         let '(i', ata') :=
           fold_left
             (fun (s' : nat * list R) (k : nat) =>
                (S (fst s'),
                 ptr_add (snd s') (fst s') (ptr_get ai j * ptr_get ai k)))
             (seq 0 (S j)) (i, ata) in
         (i', ata', ptr_add atb j (ptr_get ai j * bi)))
      (seq 0 6) (O, fst st, snd st) in
  (ata, atb).

(** The iterations one thread runs, on private copies that start at zero. *)
Definition omp_chunk (r : blocked_range) : list R * list R :=
  fold_left omp_workload (range_indices r) (zeros 21, zeros 6).

(** [#pragma omp parallel for reduction(+ : atb_ptr[:6], ata_1x21[:21])]:
    the private copies of the threads are added to the original arrays. *)
Definition omp_parallel_for (chunks : list blocked_range)
    (ata_1x21 atb : list R) : list R * list R :=
  fold_left
    (fun acc r =>
       (section_add 21 (fst acc) (fst (omp_chunk r)),
        section_add 6 (snd acc) (snd (omp_chunk r))))
    chunks (ata_1x21, atb).

(** The tensors [ATA] and [ATB] of [ComputePosePointToPlaneOpenMP];
    [chunks] is the way the runtime deals the iterations [0 .. n-1] to the
    threads. *)
Definition omp_normal_equations (chunks : list blocked_range)
  : list R * list R :=
  let ATA := zeros 36 in
  let ATA_1x21 := zeros 21 in
  let ATB := zeros 6 in
  let '(ata_1x21, atb) := omp_parallel_for chunks ATA_1x21 ATB in
  let ATA := mirror ata_1x21 ATA in
  (ATA, atb).

(** [ComputePosePointToPlaneOpenMP]: [pose = ATA.Solve(ATB)]. *)
Definition ComputePosePointToPlaneOpenMP (chunks : list blocked_range)
  : Result (list R) :=
  let '(ATA, ATB) := omp_normal_equations chunks in
  Solve ATA ATB.

(** [ComputePosePointToPlaneCPU]: [use_tbb] is the constant [false]. *)
Definition ComputePosePointToPlaneCPU (chunks : list blocked_range)
    (sched : split_tree) (empty36 empty6 : list R) : Result (list R) :=
  let use_tbb := false in
  if use_tbb then ComputePosePointToPlaneTBB sched empty36 empty6
  else ComputePosePointToPlaneOpenMP chunks.

(** *** The reduction is a sum of per-workload contributions *)

Lemma ptr_set_length (p : list R) (i : nat) (v : R) :
  length (ptr_set p i v) = length p.
Proof.
  revert i; induction p as [|x q IH]; intros [|j]; simpl; auto.
Qed.

Lemma ptr_add_length (p : list R) (i : nat) (v : R) :
  length (ptr_add p i v) = length p.
Proof. apply ptr_set_length. Qed.

Lemma nth_map_seq0 (f : nat -> R) (len j : nat) :
  (j < len)%nat -> nth j (map f (seq 0 len)) 0 = f j.
Proof.
  intros H.
  rewrite (nth_indep _ 0 (f O)) by (rewrite length_map, length_seq; exact H).
  rewrite map_nth, seq_nth by exact H. reflexivity.
Qed.

Lemma ptr_get_section_add (len : nat) (a b : list R) (j : nat) :
  (j < len)%nat ->
  ptr_get (section_add len a b) j = ptr_get a j + ptr_get b j.
Proof.
  intros H. unfold section_add, ptr_get at 1.
  now rewrite nth_map_seq0.
Qed.

Lemma section_add_length (len : nat) (a b : list R) :
  length (section_add len a b) = len.
Proof. unfold section_add. now rewrite length_map, length_seq. Qed.

Lemma section_add_assoc (len : nat) (a b c : list R) :
  section_add len (section_add len a b) c
  = section_add len a (section_add len b c).
Proof.
  unfold section_add at 1 3. apply map_ext_in. intros j Hj.
  apply in_seq in Hj. rewrite !ptr_get_section_add by lia. ring.
Qed.

Lemma ptr_get_zeros (n j : nat) : ptr_get (zeros n) j = 0.
Proof.
  unfold ptr_get, zeros. destruct (nth_in_or_default j (repeat 0 n) 0) as [H|H].
  - now apply repeat_spec in H.
  - exact H.
Qed.

Lemma section_add_zeros_r (len : nat) (a : list R) :
  length a = len -> section_add len a (zeros len) = a.
Proof.
  intros H. apply (nth_ext _ _ 0 0).
  - now rewrite section_add_length.
  - intros j Hj. rewrite section_add_length in Hj.
    fold (ptr_get (section_add len a (zeros len)) j).
    rewrite ptr_get_section_add, ptr_get_zeros by exact Hj.
    unfold ptr_get. ring.
Qed.

Lemma section_add_zeros_l (len : nat) (a : list R) :
  length a = len -> section_add len (zeros len) a = a.
Proof.
  intros H. apply (nth_ext _ _ 0 0).
  - now rewrite section_add_length.
  - intros j Hj. rewrite section_add_length in Hj.
    fold (ptr_get (section_add len (zeros len) a) j).
    rewrite ptr_get_section_add, ptr_get_zeros by exact Hj.
    unfold ptr_get. ring.
Qed.

Lemma tbb_workload_join (rt : list R) (idx : nat) :
  length rt = 27%nat ->
  tbb_workload rt idx = join rt (tbb_workload zeros_27 idx).
Proof.
  intros H. unfold tbb_workload.
  destruct (GetJacobian idx) as [ai bi].
  list_of_length rt 27.
  cbv [join section_add fold_left seq map fst snd ptr_add ptr_set ptr_get nth
       Nat.add zeros_27 zeros repeat].
  repeat (f_equal; try ring).
Qed.

Lemma tbb_workload_length (rt : list R) (idx : nat) :
  length (tbb_workload rt idx) = length rt.
Proof.
  unfold tbb_workload. destruct (GetJacobian idx) as [ai bi].
  cbv [fold_left seq fst snd Nat.add].
  now rewrite !ptr_add_length.
Qed.

Lemma tbb_body_run (r : blocked_range) (rt : list R) :
  tbb_body r rt = run (list R) tbb_workload r rt.
Proof. reflexivity. Qed.

(** One TBB body over the whole range is what any split reduces to. *)
Lemma A_1x27_vec_sequential (sched : split_tree) (n : nat) :
  chunks_cover (leaves sched) 0 n = true ->
  A_1x27_vec sched = tbb_body (O, n) zeros_27.
Proof.
  intros H. unfold A_1x27_vec.
  apply (parallel_reduce_run (list R) join zeros_27
           (fun a => length a = 27%nat) tbb_workload).
  - reflexivity.
  - intros a b. apply section_add_length.
  - intros a i Ha. now rewrite tbb_workload_length.
  - intros a b c. apply section_add_assoc.
  - intros a Ha. now apply (section_add_zeros_r 27).
  - intros a Ha. now apply (section_add_zeros_l 27).
  - intros a i Ha. now apply tbb_workload_join.
  - exact H.
Qed.

Definition pair_add (a b : list R * list R) : list R * list R :=
  (section_add 21 (fst a) (fst b), section_add 6 (snd a) (snd b)).

Definition pair_shaped (a : list R * list R) : Prop :=
  length (fst a) = 21%nat /\ length (snd a) = 6%nat.

Lemma omp_workload_add (st : list R * list R) (idx : nat) :
  pair_shaped st ->
  omp_workload st idx = pair_add st (omp_workload (zeros 21, zeros 6) idx).
Proof.
  destruct st as [ata atb]. intros [H1 H2]; simpl in H1, H2.
  unfold omp_workload, pair_add.
  destruct (GetJacobian idx) as [ai bi].
  list_of_length ata 21. list_of_length atb 6.
  cbv [section_add fold_left seq map fst snd ptr_add ptr_set ptr_get nth
       Nat.add zeros repeat].
  f_equal; repeat (f_equal; try ring).
Qed.

Lemma omp_workload_shaped (st : list R * list R) (idx : nat) :
  pair_shaped st -> pair_shaped (omp_workload st idx).
Proof.
  intros H. rewrite (omp_workload_add st idx H).
  split; apply section_add_length.
Qed.

Lemma omp_chunk_run (r : blocked_range) :
  omp_chunk r = run (list R * list R) omp_workload r (zeros 21, zeros 6).
Proof. reflexivity. Qed.

(** The OpenMP reduction over any contiguous dealing of [0 .. n-1] is the
    sequential loop. *)
Lemma omp_parallel_for_sequential (chunks : list blocked_range) (n : nat) :
  chunks_cover chunks 0 n = true ->
  omp_parallel_for chunks (zeros 21) (zeros 6) = omp_chunk (O, n).
Proof.
  intros H.
  assert (Hz : pair_shaped (zeros 21, zeros 6)) by (split; reflexivity).
  assert (Hs : pair_shaped (omp_chunk (O, n))).
  { rewrite omp_chunk_run. unfold run.
    apply (shaped_fold _ pair_shaped); [apply omp_workload_shaped | exact Hz]. }
  change (fold_left
            (fun a r =>
               pair_add a (run (list R * list R) omp_workload r
                             (zeros 21, zeros 6)))
            chunks (zeros 21, zeros 6) = omp_chunk (O, n)).
  assert (Hadd : forall a b, pair_shaped (pair_add a b))
    by (intros a b; split; apply section_add_length).
  assert (Hassoc : forall a b c,
             pair_add (pair_add a b) c = pair_add a (pair_add b c))
    by (intros a b c; unfold pair_add; simpl; now rewrite !section_add_assoc).
  assert (Hzr : forall a, pair_shaped a -> pair_add a (zeros 21, zeros 6) = a).
  { intros [a b] [Ha Hb]. unfold pair_add; simpl in *.
    now rewrite section_add_zeros_r, section_add_zeros_r. }
  rewrite (fold_chunks_run (list R * list R) pair_add (zeros 21, zeros 6)
             pair_shaped omp_workload Hz Hadd omp_workload_shaped Hassoc Hzr
             omp_workload_add chunks O n _ Hz H).
  rewrite <- omp_chunk_run.
  destruct (omp_chunk (O, n)) as [a b]. destruct Hs as [Ha Hb].
  unfold pair_add; simpl in *.
  now rewrite section_add_zeros_l, section_add_zeros_l.
Qed.

(** *** What the accumulated entries are *)

(** The point stored at row [index] of a flat {N,3} array. *)
Definition point3 (ptr : list R) (index : nat) : Vec3 :=
  mkVec3 (ptr_get ptr (3 * index + 0)) (ptr_get ptr (3 * index + 1))
         (ptr_get ptr (3 * index + 2)).

Definition source_point (idx : nat) : Vec3 :=
  point3 source_points_ptr (nth idx correspondence_first O).
Definition target_point (idx : nat) : Vec3 :=
  point3 target_points_ptr (nth idx correspondence_second O).
Definition target_normal (idx : nat) : Vec3 :=
  point3 target_normals_ptr (nth idx correspondence_second O).

(** The row [a = [p_s x n_t ; n_t]] and the residual
    [b = (p_t - p_s) . n_t], in the words of the point-to-plane
    linearisation. *)
Definition jacobian_row (idx : nat) : list R :=
  let c := cross3 (source_point idx) (target_normal idx) in
  let n := target_normal idx in
  [vx c; vy c; vz c; vx n; vy n; vz n].

Definition residual (idx : nat) : R :=
  dot3 (vsub3 (target_point idx) (source_point idx)) (target_normal idx).

(** Entry (j, k) of the sum of [a aT], entry j of the sum of [a b], over
    the first [n] correspondences. *)
Definition AtA_entry (n j k : nat) : R :=
  Rsum (map (fun idx => ptr_get (jacobian_row idx) j
                        * ptr_get (jacobian_row idx) k) (seq 0 n)).

Definition AtB_entry (n j : nat) : R :=
  Rsum (map (fun idx => ptr_get (jacobian_row idx) j * residual idx)
            (seq 0 n)).

(** The {6,6} tensor of the normal equations, row major, and its right
    hand side. *)
Definition AtA (n : nat) : list R :=
  flat_map (fun j => map (fun k => AtA_entry n j k) (seq 0 6)) (seq 0 6).

Definition AtB (n : nat) : list R := map (AtB_entry n) (seq 0 6).

(** The 21 entries [k <= j] in the order the loops visit them. *)
Definition AtA_1x21 (n : nat) : list R :=
  flat_map (fun j => map (fun k => AtA_entry n j k) (seq 0 (S j))) (seq 0 6).

Lemma GetJacobian_spec (idx : nat) :
  GetJacobian idx = (jacobian_row idx, residual idx).
Proof.
  unfold GetJacobian, jacobian_row, residual, source_point, target_point,
    target_normal, point3.
  rewrite !Nat.add_0_r.
  cbv [cross3 dot3 vsub3 vx vy vz].
  f_equal; try ring. repeat (f_equal; try ring).
Qed.

Lemma Rsum_map_seq_S (f : nat -> R) (n : nat) :
  Rsum (map f (seq 0 (S n))) = Rsum (map f (seq 0 n)) + f n.
Proof.
  rewrite seq_S, map_app. simpl.
  generalize (map f (seq 0 n)) as l.
  induction l as [|x l IH]; simpl; [ring | rewrite IH; ring].
Qed.

Lemma AtA_entry_S (n j k : nat) :
  AtA_entry (S n) j k
  = AtA_entry n j k + ptr_get (jacobian_row n) j * ptr_get (jacobian_row n) k.
Proof. unfold AtA_entry. now rewrite Rsum_map_seq_S. Qed.

Lemma AtB_entry_S (n j : nat) :
  AtB_entry (S n) j = AtB_entry n j + ptr_get (jacobian_row n) j * residual n.
Proof. unfold AtB_entry. now rewrite Rsum_map_seq_S. Qed.

Lemma AtA_entry_sym (n j k : nat) : AtA_entry n j k = AtA_entry n k j.
Proof.
  unfold AtA_entry. f_equal. apply map_ext. intros idx. ring.
Qed.

(** What one workload adds: the 21 products [a_j a_k], [k <= j], and the
    6 products [a_j b]. *)
Lemma omp_workload_zeros (idx : nat) :
  omp_workload (zeros 21, zeros 6) idx
  = (flat_map (fun j => map (fun k => ptr_get (jacobian_row idx) j
                                      * ptr_get (jacobian_row idx) k)
                            (seq 0 (S j))) (seq 0 6),
     map (fun j => ptr_get (jacobian_row idx) j * residual idx) (seq 0 6)).
Proof.
  unfold omp_workload. rewrite GetJacobian_spec.
  generalize (residual idx) as bi. unfold jacobian_row.
  generalize (cross3 (source_point idx) (target_normal idx)) as c.
  generalize (target_normal idx) as nt. intros nt c bi.
  cbv [flat_map section_add fold_left seq map app fst snd ptr_add ptr_set
       ptr_get nth Nat.add zeros repeat].
  f_equal; repeat (f_equal; try ring).
Qed.

Lemma AtA_1x21_length (n : nat) : length (AtA_1x21 n) = 21%nat.
Proof. reflexivity. Qed.

Lemma AtB_length (n : nat) : length (AtB n) = 6%nat.
Proof. reflexivity. Qed.

(** The sequential loop leaves the sums of products in the accumulators. *)
Lemma omp_chunk_closed (n : nat) : omp_chunk (O, n) = (AtA_1x21 n, AtB n).
Proof.
  unfold omp_chunk, range_indices; simpl fst; simpl snd.
  rewrite Nat.sub_0_r.
  induction n as [|n IH].
  - reflexivity.
  - rewrite seq_S, fold_left_app, IH. simpl fold_left.
    rewrite omp_workload_add
      by (split; [apply AtA_1x21_length | apply AtB_length]).
    rewrite omp_workload_zeros. unfold pair_add. simpl fst; simpl snd.
    f_equal.
    + unfold AtA_1x21. cbv [flat_map map seq app].
      rewrite !AtA_entry_S.
      cbv [section_add map seq ptr_get nth Nat.add].
      reflexivity.
    + unfold AtB. cbv [map seq].
      rewrite !AtB_entry_S.
      cbv [section_add map seq ptr_get nth Nat.add].
      reflexivity.
Qed.

(** Mirroring the 21 entries of a symmetric family fills the whole
    {6,6} tensor. *)
Lemma mirror_symmetric (E : nat -> nat -> R) :
  (forall j k, E j k = E k j) ->
  mirror (flat_map (fun j => map (E j) (seq 0 (S j))) (seq 0 6)) (zeros 36)
  = flat_map (fun j => map (E j) (seq 0 6)) (seq 0 6).
Proof.
  intros Hsym.
  cbv [mirror flat_map map seq app fold_left fst snd ptr_set ptr_get nth
       Nat.add Nat.mul zeros repeat].
  repeat match goal with
         | |- cons _ _ = cons _ _ =>
             apply f_equal2; [first [reflexivity | apply Hsym] | ]
         end.
  reflexivity.
Qed.

Lemma mirror_AtA (n : nat) : mirror (AtA_1x21 n) (zeros 36) = AtA n.
Proof. apply (mirror_symmetric (AtA_entry n)), AtA_entry_sym. Qed.

Lemma ptr_get_AtA (n j k : nat) :
  (j < 6)%nat -> (k < 6)%nat -> ptr_get (AtA n) (j * 6 + k) = AtA_entry n j k.
Proof.
  intros Hj Hk. unfold AtA.
  do 6 (destruct j as [|j]; [do 6 (destruct k as [|k]; [reflexivity|]); lia|]).
  lia.
Qed.

Lemma omp_normal_equations_closed (chunks : list blocked_range) (n : nat) :
  chunks_cover chunks 0 n = true ->
  omp_normal_equations chunks = (AtA n, AtB n).
Proof.
  intros H. unfold omp_normal_equations.
  rewrite (omp_parallel_for_sequential chunks n H), omp_chunk_closed.
  now rewrite mirror_AtA.
Qed.

(** What one workload adds to the 27-element vector of the TBB body. *)
Lemma tbb_workload_zeros (idx : nat) :
  tbb_workload zeros_27 idx
  = flat_map (fun j => map (fun k => ptr_get (jacobian_row idx) j
                                     * ptr_get (jacobian_row idx) k)
                           (seq 0 (S j))) (seq 0 6)
    ++ map (fun j => ptr_get (jacobian_row idx) j * residual idx) (seq 0 6).
Proof.
  unfold tbb_workload. rewrite GetJacobian_spec.
  generalize (residual idx) as bi. unfold jacobian_row.
  generalize (cross3 (source_point idx) (target_normal idx)) as c.
  generalize (target_normal idx) as nt. intros nt c bi.
  cbv [flat_map fold_left seq map app fst snd ptr_add ptr_set ptr_get nth
       Nat.add zeros_27 zeros repeat].
  repeat (f_equal; try ring).
Qed.

(** The sequential TBB body leaves the same sums as the OpenMP loop. *)
Lemma tbb_body_closed (n : nat) :
  tbb_body (O, n) zeros_27 = AtA_1x21 n ++ AtB n.
Proof.
  unfold tbb_body, range_indices; simpl fst; simpl snd.
  rewrite Nat.sub_0_r.
  induction n as [|n IH].
  - reflexivity.
  - rewrite seq_S, fold_left_app, IH. simpl fold_left.
    rewrite tbb_workload_join by reflexivity.
    rewrite tbb_workload_zeros.
    unfold AtA_1x21, AtB. cbv [flat_map map seq app].
    rewrite !AtA_entry_S, !AtB_entry_S.
    cbv [join map seq ptr_get nth Nat.add].
    reflexivity.
Qed.

(** C2.  For every split of [blocked_range(0, n)] by TBB and every
    contiguous dealing of the iterations [0 .. n-1] to OpenMP threads,
    whatever the number of chunks, the partial 27-element vectors (21
    entries of AtA and 6 of AtB) accumulated per chunk and combined by
    elementwise addition are the accumulators of one sequential pass over
    all the correspondences; so the tensors AtA and AtB, and the pose, are
    those of the sequential run.  Arithmetic is exact. *)
Theorem parallel_accumulation_is_sequential
    (n : nat) (sched : split_tree) (chunks : list blocked_range)
    (empty36 empty6 : list R) :
  chunks_cover (leaves sched) 0 n = true ->
  chunks_cover chunks 0 n = true ->
  A_1x27_vec sched = tbb_body (O, n) zeros_27
  /\ tbb_normal_equations sched empty36 empty6
     = tbb_normal_equations (Leaf (O, n)) empty36 empty6
  /\ ComputePosePointToPlaneTBB sched empty36 empty6
     = ComputePosePointToPlaneTBB (Leaf (O, n)) empty36 empty6
  /\ omp_parallel_for chunks (zeros 21) (zeros 6) = omp_chunk (O, n)
  /\ omp_normal_equations chunks = omp_normal_equations [(O, n)]
  /\ ComputePosePointToPlaneOpenMP chunks
     = ComputePosePointToPlaneOpenMP [(O, n)].
Proof.
  intros Ht Hc.
  assert (H1 : chunks_cover [(O, n)] 0 n = true).
  { simpl. now rewrite Nat.eqb_refl. }
  pose proof (A_1x27_vec_sequential sched n Ht) as Hv.
  pose proof (omp_parallel_for_sequential chunks n Hc) as Ho.
  pose proof (omp_parallel_for_sequential [(O, n)] n H1) as Ho1.
  assert (Hne : tbb_normal_equations sched empty36 empty6
                = tbb_normal_equations (Leaf (O, n)) empty36 empty6).
  { unfold tbb_normal_equations. rewrite Hv. reflexivity. }
  assert (Hoe : omp_normal_equations chunks = omp_normal_equations [(O, n)]).
  { unfold omp_normal_equations. now rewrite Ho, Ho1. }
  repeat split; auto.
  - unfold ComputePosePointToPlaneTBB. now rewrite Hne.
  - unfold ComputePosePointToPlaneOpenMP. now rewrite Hoe.
Qed.

Lemma ComputePosePointToPlaneCPU_closed (chunks : list blocked_range)
    (n : nat) (sched : split_tree) (empty36 empty6 : list R) :
  chunks_cover chunks 0 n = true ->
  ComputePosePointToPlaneCPU chunks sched empty36 empty6
  = Solve (AtA n) (AtB n).
Proof.
  intros H. unfold ComputePosePointToPlaneCPU, ComputePosePointToPlaneOpenMP.
  now rewrite (omp_normal_equations_closed chunks n H).
Qed.

(** The CPU path does what C3 says.  For every correspondence the kernel's
    row is [a = [p_s x n_t ; n_t]] and its residual
    [b = (p_t - p_s) . n_t]; the OpenMP kernel accumulates the 21 entries
    [k <= j] of the sum of [a aT] and mirrors them into the symmetric
    {6,6} tensor AtA, sums [a b] into AtB over the [n] correspondences,
    and its pose is [AtA.Solve(AtB)]: with a solve that only returns
    solutions, the pose satisfies [AtA pose = AtB]. *)
Theorem pose_point_to_plane_normal_equations
    (n : nat) (chunks : list blocked_range) (sched : split_tree)
    (empty36 empty6 : list R) :
  chunks_cover chunks 0 n = true ->
  (forall A b x, Solve A b = Ok x -> mat6_vec A x = b) ->
  (forall idx, GetJacobian idx = (jacobian_row idx, residual idx))
  /\ omp_parallel_for chunks (zeros 21) (zeros 6) = (AtA_1x21 n, AtB n)
  /\ omp_normal_equations chunks = (AtA n, AtB n)
  /\ (forall j k, (j < 6)%nat -> (k < 6)%nat ->
        ptr_get (AtA n) (j * 6 + k)
        = Rsum (map (fun idx => ptr_get (jacobian_row idx) j
                                * ptr_get (jacobian_row idx) k) (seq 0 n))
        /\ ptr_get (AtA n) (j * 6 + k) = ptr_get (AtA n) (k * 6 + j))
  /\ (forall j, (j < 6)%nat ->
        ptr_get (AtB n) j
        = Rsum (map (fun idx => ptr_get (jacobian_row idx) j * residual idx)
                    (seq 0 n)))
  /\ ComputePosePointToPlaneOpenMP chunks = Solve (AtA n) (AtB n)
  /\ ComputePosePointToPlaneCPU chunks sched empty36 empty6
     = Solve (AtA n) (AtB n)
  /\ (forall pose, ComputePosePointToPlaneCPU chunks sched empty36 empty6
                   = Ok pose ->
        mat6_vec (AtA n) pose = AtB n).
Proof.
  intros Hc Hsolve.
  pose proof (omp_normal_equations_closed chunks n Hc) as Hne.
  assert (Hpose : ComputePosePointToPlaneOpenMP chunks
                  = Solve (AtA n) (AtB n)).
  { unfold ComputePosePointToPlaneOpenMP. now rewrite Hne. }
  split; [exact GetJacobian_spec|].
  split; [now rewrite (omp_parallel_for_sequential chunks n Hc),
            omp_chunk_closed|].
  split; [exact Hne|].
  split.
  { intros j k Hj Hk. rewrite !ptr_get_AtA by assumption.
    split; [reflexivity | apply AtA_entry_sym]. }
  split.
  { intros j Hj. unfold AtB.
    do 6 (destruct j as [|j]; [reflexivity|]). lia. }
  split; [exact Hpose|].
  split; [exact Hpose|].
  intros pose Hp. apply Hsolve. rewrite <- Hp. symmetry. exact Hpose.
Qed.

(** *** The TBB kernel against the OpenMP kernel *)

(** The mirroring loop writes every entry of the {6,6} tensor: what the
    tensor held before does not matter. *)
Lemma mirror_overwrites (acc empty36 : list R) :
  length empty36 = 36%nat -> mirror acc empty36 = mirror acc (zeros 36).
Proof.
  intros H. list_of_length empty36 36.
  cbv [mirror fold_left seq fst snd ptr_set Nat.add Nat.mul zeros repeat].
  reflexivity.
Qed.

Lemma copy_atb_overwrites (acc empty6 : list R) :
  length empty6 = 6%nat ->
  copy_atb acc empty6 = map (fun j => ptr_get acc (j + 21)) (seq 0 6).
Proof.
  intros H. list_of_length empty6 6.
  cbv [copy_atb fold_left seq ptr_set map Nat.add]. reflexivity.
Qed.

Lemma mirror_symmetric_app (E : nat -> nat -> R) (tail : list R) :
  (forall j k, E j k = E k j) ->
  mirror (flat_map (fun j => map (E j) (seq 0 (S j))) (seq 0 6) ++ tail)
         (zeros 36)
  = flat_map (fun j => map (E j) (seq 0 6)) (seq 0 6).
Proof.
  intros Hsym.
  cbv [mirror flat_map map seq app fold_left fst snd ptr_set ptr_get nth
       Nat.add Nat.mul zeros repeat].
  repeat match goal with
         | |- cons _ _ = cons _ _ =>
             apply f_equal2; [first [reflexivity | apply Hsym] | ]
         end.
  reflexivity.
Qed.

Lemma tbb_normal_equations_closed (sched : split_tree) (n : nat)
    (empty36 empty6 : list R) :
  chunks_cover (leaves sched) 0 n = true ->
  length empty36 = 36%nat -> length empty6 = 6%nat ->
  tbb_normal_equations sched empty36 empty6 = (AtA n, AtB n).
Proof.
  intros Hc H36 H6. unfold tbb_normal_equations.
  rewrite (A_1x27_vec_sequential sched n Hc), tbb_body_closed.
  rewrite (mirror_overwrites _ _ H36), (copy_atb_overwrites _ _ H6).
  f_equal. apply (mirror_symmetric_app (AtA_entry n)), AtA_entry_sym.
Qed.

(** [ComputePosePointToPlaneTBB] solves the same system as
    [ComputePosePointToPlaneOpenMP], whatever the split of the range,
    whatever the dealing of the iterations to the threads, and whatever
    the two tensors that it creates with [Tensor::Empty] hold before it
    fills them: the branch that [use_tbb] selects makes no difference to
    the pose. *)
Theorem tbb_kernel_agrees_with_openmp (n : nat) (sched : split_tree)
    (chunks : list blocked_range) (empty36 empty6 : list R) :
  chunks_cover (leaves sched) 0 n = true ->
  chunks_cover chunks 0 n = true ->
  length empty36 = 36%nat ->
  length empty6 = 6%nat ->
  tbb_normal_equations sched empty36 empty6 = omp_normal_equations chunks
  /\ ComputePosePointToPlaneTBB sched empty36 empty6
     = ComputePosePointToPlaneOpenMP chunks
  /\ ComputePosePointToPlaneTBB sched empty36 empty6
     = ComputePosePointToPlaneCPU chunks sched empty36 empty6.
Proof.
  intros Ht Hc H36 H6.
  pose proof (tbb_normal_equations_closed sched n empty36 empty6 Ht H36 H6)
    as Htbb.
  pose proof (omp_normal_equations_closed chunks n Hc) as Homp.
  assert (Hpose : ComputePosePointToPlaneTBB sched empty36 empty6
                  = ComputePosePointToPlaneOpenMP chunks).
  { unfold ComputePosePointToPlaneTBB, ComputePosePointToPlaneOpenMP.
    now rewrite Htbb, Homp. }
  split; [now rewrite Htbb, Homp|]. split; exact Hpose.
Qed.

(** *** The pose as a least-squares solution *)

(** The product of a row and a pose. *)
Definition dot6 (a x : list R) : R :=
  Rsum (map (fun j => ptr_get a j * ptr_get x j) (seq 0 6)).

(** The linearised point-to-plane error of a pose: the sum over the
    correspondences of the squares of [ai . x - bi], with the row [ai]
    and the residual [bi] that the kernels compute. *)
Definition linearised_error (n : nat) (x : list R) : R :=
  Rsum (map (fun idx => let '(ai, bi) := GetJacobian idx in
                        (dot6 ai x - bi) * (dot6 ai x - bi))
            (seq 0 n)).

Lemma mat6_vec_AtA (n : nat) (x : list R) :
  mat6_vec (AtA n) x
  = map (fun j => Rsum (map (fun k => AtA_entry n j k * ptr_get x k)
                            (seq 0 6)))
        (seq 0 6).
Proof.
  unfold mat6_vec. apply map_ext_in. intros j Hj. apply (f_equal Rsum).
  apply map_ext_in. intros k Hk. apply in_seq in Hj, Hk.
  rewrite ptr_get_AtA by lia. reflexivity.
Qed.

Lemma Rsum_squares_nonneg {A : Type} (f : A -> R) (l : list A) :
  0 <= Rsum (map (fun x => f x * f x) l).
Proof.
  induction l as [|x l IH]; simpl; [lra|].
  pose proof (Rle_0_sqr (f x)) as H. unfold Rsqr in H. lra.
Qed.

Lemma dot6_map (x : list R) (f : nat -> R) :
  dot6 x (map f (seq 0 6))
  = Rsum (map (fun j => ptr_get x j * f j) (seq 0 6)).
Proof.
  unfold dot6. apply (f_equal Rsum). apply map_ext_in. intros j Hj.
  apply in_seq in Hj.
  unfold ptr_get at 2. rewrite nth_map_seq0 by lia. reflexivity.
Qed.

(** The quadratic form of the accumulated matrix is a sum of squares. *)
Lemma quadratic_form_AtA (n : nat) (x : list R) :
  dot6 x (mat6_vec (AtA n) x)
  = Rsum (map (fun idx => dot6 (jacobian_row idx) x
                          * dot6 (jacobian_row idx) x) (seq 0 n)).
Proof.
  rewrite mat6_vec_AtA, dot6_map. induction n as [|n IH].
  - cbv [AtA_entry map seq Rsum fold_right]. ring.
  - rewrite (Rsum_map_seq_S
               (fun idx => dot6 (jacobian_row idx) x
                           * dot6 (jacobian_row idx) x) n), <- IH.
    cbv [dot6 map seq Rsum fold_right]. rewrite !AtA_entry_S. ring.
Qed.

(** The matrix that the OpenMP kernel hands to the solver is positive
    semidefinite: its quadratic form at any [x] is the sum of the squares
    of [a . x] over the correspondences. *)
Theorem normal_matrix_is_positive_semidefinite (n : nat)
    (chunks : list blocked_range) (x : list R) :
  chunks_cover chunks 0 n = true ->
  dot6 x (mat6_vec (fst (omp_normal_equations chunks)) x)
  = Rsum (map (fun idx => dot6 (fst (GetJacobian idx)) x
                          * dot6 (fst (GetJacobian idx)) x) (seq 0 n))
  /\ 0 <= dot6 x (mat6_vec (fst (omp_normal_equations chunks)) x).
Proof.
  intros Hc. rewrite (omp_normal_equations_closed chunks n Hc). cbn [fst].
  rewrite quadratic_form_AtA.
  assert (E : map (fun idx => dot6 (fst (GetJacobian idx)) x
                              * dot6 (fst (GetJacobian idx)) x) (seq 0 n)
              = map (fun idx => dot6 (jacobian_row idx) x
                                * dot6 (jacobian_row idx) x) (seq 0 n)).
  { apply map_ext. intros idx. now rewrite GetJacobian_spec. }
  rewrite E. split; [reflexivity|].
  apply (Rsum_squares_nonneg (fun idx => dot6 (jacobian_row idx) x)).
Qed.

(** A row against a vector given by its entries. *)
Definition lin (a : list R) (c : nat -> R) : R :=
  Rsum (map (fun j => ptr_get a j * c j) (seq 0 6)).

Lemma linearised_error_rows (n : nat) (x : list R) :
  linearised_error n x
  = Rsum (map (fun idx => (dot6 (jacobian_row idx) x - residual idx)
                          * (dot6 (jacobian_row idx) x - residual idx))
              (seq 0 n)).
Proof.
  unfold linearised_error. apply (f_equal Rsum). apply map_ext.
  intros idx. now rewrite GetJacobian_spec.
Qed.

Ltac name_sums n :=
  repeat match goal with
         | |- context [Rsum (map ?f (seq 0 n))] =>
             generalize (Rsum (map f (seq 0 n))); intro
         end.

(** The error at [y] around the error at [x]. *)
Lemma linearised_error_expansion (n : nat) (x y : list R) :
  let c := fun j => ptr_get y j - ptr_get x j in
  linearised_error n y
  = linearised_error n x
    + Rsum (map (fun idx => lin (jacobian_row idx) c
                            * lin (jacobian_row idx) c) (seq 0 n))
    + 2 * Rsum (map (fun idx => lin (jacobian_row idx) c
                                * (dot6 (jacobian_row idx) x - residual idx))
                    (seq 0 n)).
Proof.
  intros c. rewrite !linearised_error_rows.
  induction n as [|n IH].
  - cbv [map seq Rsum fold_right]. ring.
  - rewrite !Rsum_map_seq_S, IH. name_sums n.
    cbv [c dot6 lin map seq Rsum fold_right]. ring.
Qed.

(** The cross term against the normal equations. *)
Lemma cross_term_normal_equations (n : nat) (x : list R) (c : nat -> R) :
  Rsum (map (fun idx => lin (jacobian_row idx) c
                        * (dot6 (jacobian_row idx) x - residual idx))
            (seq 0 n))
  = Rsum (map (fun j => c j * (Rsum (map (fun k => AtA_entry n j k
                                                   * ptr_get x k) (seq 0 6))
                               - AtB_entry n j))
              (seq 0 6)).
Proof.
  induction n as [|n IH].
  - cbv [AtA_entry AtB_entry map seq Rsum fold_right]. ring.
  - rewrite (Rsum_map_seq_S
               (fun idx => lin (jacobian_row idx) c
                           * (dot6 (jacobian_row idx) x - residual idx)) n),
      IH.
    cbv [dot6 lin map seq Rsum fold_right].
    rewrite !AtA_entry_S, !AtB_entry_S. ring.
Qed.

(** The pose that [ComputePosePointToPlaneCPU] returns minimises the
    linearised point-to-plane error: with a solve that only returns
    solutions, no pose [y] has a smaller sum of squared residuals
    [ai . y - bi] over the correspondences. *)
Theorem pose_minimises_linearised_error (n : nat)
    (chunks : list blocked_range) (sched : split_tree)
    (empty36 empty6 pose : list R) :
  chunks_cover chunks 0 n = true ->
  (forall A b x, Solve A b = Ok x -> mat6_vec A x = b) ->
  ComputePosePointToPlaneCPU chunks sched empty36 empty6 = Ok pose ->
  forall y, linearised_error n pose <= linearised_error n y.
Proof.
  intros Hc Hsolve Hpose y.
  rewrite (ComputePosePointToPlaneCPU_closed chunks n sched empty36 empty6 Hc)
    in Hpose.
  apply Hsolve in Hpose. rewrite mat6_vec_AtA in Hpose. unfold AtB in Hpose.
  rewrite (linearised_error_expansion n pose y). cbv zeta.
  rewrite cross_term_normal_equations.
  pose proof (Rsum_squares_nonneg
                (fun idx => lin (jacobian_row idx)
                              (fun j => ptr_get y j - ptr_get pose j))
                (seq 0 n)) as Hq.
  cbv beta in Hq. revert Hq. name_sums n. intros Hq.
  cbv [map seq] in Hpose.
  injection Hpose as H0 H1 H2 H3 H4 H5.
  cbv [map seq Rsum fold_right] in *.
  rewrite H0, H1, H2, H3, H4, H5. lra.
Qed.

(** *** The hybrid kernel

    [ComputePosePointToPlaneHybrid] stores the products of every workload
    in its own row of two {n,21} and {n,6} tensors, and sums the rows in a
    second pass. *)



























(** *** The CUDA kernel (ComputeTransformCUDA.cu) *)

Section CUDA.

(** [GetJacobianPointToPlane] of ComputeTransformImpl.h is not part of
    the sources at hand: for a workload index it gives the flag [valid],
    the row [J] and the residual [r]. *)
Variable GetJacobianPointToPlane : nat -> bool * list R * R.

Definition THREAD_1D_UNIT : nat := 256.

(** The array [reduction] of a thread: [J[i] * J[j]] for [j <= i], then
    [J[i] * r]. *)
Definition cuda_reduction (J : list R) (r : R) : list R :=
  flat_map (fun i => map (fun j => ptr_get J i * ptr_get J j) (seq 0 (S i)))
           (seq 0 6)
  ++ map (fun i => ptr_get J i * r) (seq 0 6).

(** One thread of [ComputePosePointToPlaneCUDAKernel], up to the call of
    the block reduction: [None] when it returns at once, else [valid] and
    [reduction].  The block index is at hand but the kernel does not read
    it. *)
Definition ComputePosePointToPlaneCUDAKernel (n : nat)
    (blockIdx_x blockDim_x threadIdx_x threadIdx_y : nat)
  : option (bool * list R) :=
  let tid := (threadIdx_x + threadIdx_y * blockDim_x)%nat in
  if Nat.leb n tid then None
  else
    let '(valid, J, r) := GetJacobianPointToPlane tid in
    Some (valid, cuda_reduction J r).

(** What a thread hands to the block reduction. *)
Definition thread_term (t : option (bool * list R)) : list R :=
  match t with
  | Some (true, reduction) => reduction
  | _ => zeros_27
  end.

(** Modelled from the spec: [ReduceSum6x6LinearSystem] of
    Reduction6x6Impl.cuh, which is not part of the sources at hand.  The
    27-element vectors of the valid threads of a block are added up and
    the sum is added to [global_sum]. *)
Definition ReduceSum6x6LinearSystem (threads : list (option (bool * list R)))
    (global_sum : list R) : list R :=
  join global_sum
       (fold_left (fun acc t => join acc (thread_term t)) threads zeros_27).

(** The launch [<<<blocks, threads>>>] of the kernel. *)
Definition launch (blocks threads n : nat) (global_sum : list R) : list R :=
  fold_left
    (fun g blockIdx_x =>
       ReduceSum6x6LinearSystem
         (map (fun threadIdx_x =>
                 ComputePosePointToPlaneCUDAKernel n blockIdx_x threads
                   threadIdx_x O)
              (seq 0 threads))
         g)
    (seq 0 blocks) global_sum.

(** [global_sum] after the launch in [ComputePosePointToPlaneCUDA]. *)
Definition cuda_global_sum (n : nat) : list R :=
  let global_sum := zeros 27 in
  let blocks := ((n + THREAD_1D_UNIT - 1) / THREAD_1D_UNIT)%nat in
  let threads := THREAD_1D_UNIT in
  launch blocks threads n global_sum.

(** Modelled from the spec: [DecodeAndSolve6x6] of TransformationConverter,
    which is not part of the sources at hand.  The 21 entries are mirrored
    into the {6,6} tensor, the last 6 are the right hand side, and the
    system is solved. *)
Definition DecodeAndSolve6x6 (global_sum : list R) : Result (list R) :=
  Solve (mirror global_sum (zeros 36)) (copy_atb global_sum (zeros 6)).

(** [ComputePosePointToPlaneCUDA]. *)
Definition ComputePosePointToPlaneCUDA (n : nat) : Result (list R) :=
  DecodeAndSolve6x6 (cuda_global_sum n).

Lemma ptr_get_fold_join {A : Type} (f : A -> list R) (l : list A)
    (init : list R) (j : nat) :
  (j < 27)%nat ->
  ptr_get (fold_left (fun acc x => join acc (f x)) l init) j
  = ptr_get init j + Rsum (map (fun x => ptr_get (f x) j) l).
Proof.
  intros Hj. revert init; induction l as [|x l IH]; intros init; simpl.
  - ring.
  - rewrite IH. change (join init (f x)) with (section_add 27 init (f x)).
    rewrite ptr_get_section_add by exact Hj. ring.
Qed.

(** The term of a thread does not depend on its block. *)
Lemma thread_term_block (n b b' threads t : nat) :
  thread_term (ComputePosePointToPlaneCUDAKernel n b threads t O)
  = thread_term (ComputePosePointToPlaneCUDAKernel n b' threads t O).
Proof. reflexivity. Qed.

(** Every block adds the terms of the workloads [0 .. threads - 1]. *)
Lemma launch_entry (blocks threads n : nat) (global_sum : list R) (j : nat) :
  (j < 27)%nat ->
  ptr_get (launch blocks threads n global_sum) j
  = ptr_get global_sum j
    + INR blocks
      * Rsum (map (fun t => ptr_get
                              (thread_term
                                 (ComputePosePointToPlaneCUDAKernel n O threads
                                    t O)) j)
                  (seq 0 threads)).
Proof.
  intros Hj. unfold launch.
  assert (H : forall bs g,
             ptr_get
               (fold_left
                  (fun g blockIdx_x =>
                     ReduceSum6x6LinearSystem
                       (map (fun threadIdx_x =>
                               ComputePosePointToPlaneCUDAKernel n blockIdx_x
                                 threads threadIdx_x O) (seq 0 threads)) g)
                  bs g) j
             = ptr_get g j
               + INR (length bs)
                 * Rsum (map (fun t => ptr_get
                                (thread_term
                                   (ComputePosePointToPlaneCUDAKernel n O
                                      threads t O)) j) (seq 0 threads))).
  { intros bs. induction bs as [|b bs IH]; intros g.
    - simpl. ring.
    - cbn [fold_left]. rewrite IH. unfold ReduceSum6x6LinearSystem.
      match goal with
      | |- context [ptr_get (join ?a ?b) j] =>
          change (join a b) with (section_add 27 a b)
      end.
      rewrite ptr_get_section_add by exact Hj.
      rewrite (ptr_get_fold_join thread_term) by exact Hj.
      rewrite map_map. unfold zeros_27. rewrite ptr_get_zeros.
      change (length (b :: bs)) with (S (length bs)). rewrite S_INR.
      change (ComputePosePointToPlaneCUDAKernel n b threads)
        with (ComputePosePointToPlaneCUDAKernel n O threads).
      ring. }
  rewrite H, length_seq. reflexivity.
Qed.

(** With at least 256 correspondences no thread returns at once, and the
    sum that is solved is the number of blocks times the sum over the
    workloads 0 to 255: it does not depend on the other workloads. *)
Lemma cuda_global_sum_entry (n j : nat) :
  (THREAD_1D_UNIT <= n)%nat -> (j < 27)%nat ->
  ptr_get (cuda_global_sum n) j
  = INR ((n + THREAD_1D_UNIT - 1) / THREAD_1D_UNIT)
    * Rsum (map (fun tid =>
                   let '(valid, J, r) := GetJacobianPointToPlane tid in
                   if valid then ptr_get (cuda_reduction J r) j else 0)
                (seq 0 THREAD_1D_UNIT)).
Proof.
  intros Hn Hj. unfold cuda_global_sum.
  rewrite launch_entry by exact Hj. rewrite ptr_get_zeros.
  rewrite Rplus_0_l. f_equal. f_equal. apply map_ext_in.
  intros t Ht. apply in_seq in Ht.
  unfold ComputePosePointToPlaneCUDAKernel.
  replace (Nat.leb n (t + 0 * THREAD_1D_UNIT)) with false
    by (symmetry; apply Nat.leb_gt; lia).
  replace (t + 0 * THREAD_1D_UNIT)%nat with t by lia.
  destruct (GetJacobianPointToPlane t) as [[valid J] r].
  destruct valid; [reflexivity|]. cbn [thread_term].
  unfold zeros_27. apply ptr_get_zeros.
Qed.

(** For every launch on [n >= 256] correspondences the sums that the
    kernel leaves in [global_sum] are those of the launch on 256
    correspondences, once per block: the correspondences from 256 on do
    not enter them. *)
Theorem cuda_sum_repeats_the_first_block (n j : nat) :
  (THREAD_1D_UNIT <= n)%nat -> (j < 27)%nat ->
  ptr_get (cuda_global_sum n) j
  = INR ((n + THREAD_1D_UNIT - 1) / THREAD_1D_UNIT)
    * ptr_get (cuda_global_sum THREAD_1D_UNIT) j.
Proof.
  intros Hn Hj.
  rewrite (cuda_global_sum_entry n j Hn Hj).
  rewrite (cuda_global_sum_entry THREAD_1D_UNIT j (le_n _) Hj).
  replace ((THREAD_1D_UNIT + THREAD_1D_UNIT - 1) / THREAD_1D_UNIT)%nat
    with 1%nat.
  - cbn [INR]. ring.
  - apply (Nat.div_unique _ _ 1 255); unfold THREAD_1D_UNIT; lia.
Qed.

End CUDA.

End PosePointToPlane.

Lemma Reqb_true (x y : R) : Reqb x y = true -> x = y.
Proof. unfold Reqb. destruct (Req_dec_T x y); easy. Qed.

Lemma Reqb_false (x y : R) : negb (Reqb x y) = true -> x <> y.
Proof. unfold Reqb. destruct (Req_dec_T x y); easy. Qed.

Lemma diag_solve_sound (A b x : list R) :
  diag_solve A b = Ok x -> mat6_vec A x = b.
Proof.
  unfold diag_solve.
  destruct (Nat.eqb (length b) 6) eqn:Hlen; [|discriminate].
  apply Nat.eqb_eq in Hlen. simpl andb.
  match goal with |- (if ?c then _ else _) = _ -> _ => destruct c eqn:Hd end;
    [|discriminate].
  intros Hx. injection Hx as <-.
  list_of_length b 6.
  cbn [forallb seq Nat.eqb Nat.mul Nat.add] in Hd.
  repeat match type of Hd with
         | (_ && _)%bool = true =>
             apply andb_prop in Hd; destruct Hd as [Hd ?]
         end.
  repeat match goal with
         | H : negb (Reqb _ _) = true |- _ => apply Reqb_false in H
         | H : Reqb _ _ = true |- _ => apply Reqb_true in H
         | H : (_ && _)%bool = true |- _ =>
             apply andb_prop in H; destruct H
         | H : true = true |- _ => clear H
         end.
  unfold mat6_vec.
  cbn [map seq Rsum fold_right Nat.mul Nat.add].
  repeat match goal with
         | H : ptr_get A _ = 0 |- _ => rewrite H; clear H
         end.
  repeat match goal with
         | H : ptr_get A ?i <> 0 |- _ =>
             revert H; generalize (ptr_get A i); intros ? ?
         end.
  cbv [ptr_get nth].
  repeat (f_equal; try (field; repeat split; assumption)).
Qed.

(** *** The order of the correspondences *)

Lemma map_as_seq {A B : Type} (G : A -> B) (l : list A) (d : A) :
  map G l = map (fun idx => G (nth idx l d)) (seq 0 (length l)).
Proof.
  induction l as [|x l IH]; [reflexivity|].
  cbn [length seq map nth]. rewrite <- seq_shift, map_map. now rewrite IH.
Qed.

Lemma Rsum_Permutation (l l' : list R) :
  Permutation l l' -> Rsum l = Rsum l'.
Proof.
  induction 1; simpl; try lra.
Qed.

(** A sum over the workloads is a sum over the pairs. *)
Lemma Rsum_over_pairs (cs : list (nat * nat)) (F : nat -> nat -> R) :
  Rsum (map (fun idx => F (nth idx (map fst cs) O) (nth idx (map snd cs) O))
            (seq 0 (length cs)))
  = Rsum (map (fun c => F (fst c) (snd c)) cs).
Proof.
  rewrite (map_as_seq (fun c => F (fst c) (snd c)) cs (O, O)).
  apply (f_equal Rsum). apply map_ext. intros idx.
  change (nth idx (map fst cs) O)
    with (nth idx (map fst cs) (fst (O, O)%nat)).
  change (nth idx (map snd cs) O)
    with (nth idx (map snd cs) (snd (O, O)%nat)).
  now rewrite !map_nth.
Qed.

(** The row of one pair: source point [f], target point [s]. *)
Definition pair_row (source_points_ptr target_normals_ptr : list R)
    (f s : nat) : list R :=
  let c := cross3 (point3 source_points_ptr f)
                  (point3 target_normals_ptr s) in
  let n := point3 target_normals_ptr s in
  [vx c; vy c; vz c; vx n; vy n; vz n].

(** The normal equations, and with them the pose, do not depend on the
    order in which the correspondences are listed: the pairs of a set in
    two orders give the same [ATA] and [ATB], however the iterations are
    dealt to the threads in either run. *)
Theorem normal_equations_ignore_the_order
    (source_points_ptr target_points_ptr target_normals_ptr : list R)
    (Solve : list R -> list R -> Result (list R))
    (cs cs' : list (nat * nat)) (chunks chunks' : list blocked_range) :
  Permutation cs cs' ->
  chunks_cover chunks 0 (length cs) = true ->
  chunks_cover chunks' 0 (length cs') = true ->
  omp_normal_equations source_points_ptr target_points_ptr target_normals_ptr
    (map fst cs) (map snd cs) chunks
  = omp_normal_equations source_points_ptr target_points_ptr
      target_normals_ptr (map fst cs') (map snd cs') chunks'
  /\ ComputePosePointToPlaneOpenMP source_points_ptr target_points_ptr
       target_normals_ptr (map fst cs) (map snd cs) Solve chunks
     = ComputePosePointToPlaneOpenMP source_points_ptr target_points_ptr
         target_normals_ptr (map fst cs') (map snd cs') Solve chunks'.
Proof.
  intros Hperm Hc Hc'.
  assert (Hne : omp_normal_equations source_points_ptr target_points_ptr
                  target_normals_ptr (map fst cs) (map snd cs) chunks
                = omp_normal_equations source_points_ptr target_points_ptr
                    target_normals_ptr (map fst cs') (map snd cs') chunks').
  { rewrite (omp_normal_equations_closed _ _ _ _ _ chunks _ Hc),
      (omp_normal_equations_closed _ _ _ _ _ chunks' _ Hc').
    f_equal.
    - unfold AtA. apply flat_map_ext. intros j. apply map_ext. intros k.
      pose (F := fun f s : nat =>
                   ptr_get (pair_row source_points_ptr target_normals_ptr f s) j
                   * ptr_get
                       (pair_row source_points_ptr target_normals_ptr f s) k).
      transitivity (Rsum (map (fun c => F (fst c) (snd c)) cs));
        [exact (Rsum_over_pairs cs F)|].
      transitivity (Rsum (map (fun c => F (fst c) (snd c)) cs'));
        [|symmetry; exact (Rsum_over_pairs cs' F)].
      apply Rsum_Permutation, Permutation_map, Hperm.
    - unfold AtB. apply map_ext. intros j.
      pose (F := fun f s : nat =>
                   ptr_get (pair_row source_points_ptr target_normals_ptr f s) j
                   * dot3 (vsub3 (point3 target_points_ptr s)
                                 (point3 source_points_ptr f))
                          (point3 target_normals_ptr s)).
      transitivity (Rsum (map (fun c => F (fst c) (snd c)) cs));
        [exact (Rsum_over_pairs cs F)|].
      transitivity (Rsum (map (fun c => F (fst c) (snd c)) cs'));
        [|symmetry; exact (Rsum_over_pairs cs' F)].
      apply Rsum_Permutation, Permutation_map, Hperm. }
  split; [exact Hne|].
  unfold ComputePosePointToPlaneOpenMP. now rewrite Hne.
Qed.

(** *** A worked input: six correspondences around the origin

    Sources on the axes, each target one step along its normal from its
    source: the normal equations come out as [2 I] and the pose is the
    translation by (1, 1, 1). *)

Definition ex_source_points : list R :=
  [0; 1; 0;   0; -1; 0;   0; 0; 1;   0; 0; -1;   1; 0; 0;   -1; 0; 0].
Definition ex_target_points : list R :=
  [1; 1; 0;   1; -1; 0;   0; 1; 1;   0; 1; -1;   1; 0; 1;   -1; 0; 1].
Definition ex_target_normals : list R :=
  [1; 0; 0;   1; 0; 0;    0; 1; 0;   0; 1; 0;    0; 0; 1;   0; 0; 1].
Definition ex_first : list nat := [0; 1; 2; 3; 4; 5]%nat.
Definition ex_second : list nat := [0; 1; 2; 3; 4; 5]%nat.

(** Eight chunks, some of them empty, and a split in four leaves. *)
Definition ex_chunks : list blocked_range :=
  [(0, 1); (1, 1); (1, 2); (2, 3); (3, 4); (4, 4); (4, 5); (5, 6)]%nat.
Definition ex_sched : split_tree :=
  Split (Continue (Leaf (0, 1)%nat) (Leaf (1, 2)%nat))
        (Split (Leaf (2, 5)%nat) (Leaf (5, 6)%nat)).

Lemma parallel_accumulation_is_sequential_witness :
  chunks_cover (leaves ex_sched) 0 6 = true
  /\ chunks_cover ex_chunks 0 6 = true
  /\ A_1x27_vec ex_source_points ex_target_points ex_target_normals
       ex_first ex_second ex_sched
     = tbb_body ex_source_points ex_target_points ex_target_normals
         ex_first ex_second (O, 6%nat) zeros_27
  /\ omp_normal_equations ex_source_points ex_target_points
       ex_target_normals ex_first ex_second ex_chunks
     = omp_normal_equations ex_source_points ex_target_points
         ex_target_normals ex_first ex_second [(O, 6%nat)].
Proof.
  split; [reflexivity|]. split; [reflexivity|].
  destruct (parallel_accumulation_is_sequential
              ex_source_points ex_target_points ex_target_normals
              ex_first ex_second diag_solve 6 ex_sched ex_chunks
              (zeros 36) (zeros 6) eq_refl eq_refl)
    as (H1 & _ & _ & _ & H5 & _).
  split; assumption.
Defined.

Lemma pose_point_to_plane_normal_equations_witness :
  chunks_cover ex_chunks 0 6 = true
  /\ (forall A b x, diag_solve A b = Ok x -> mat6_vec A x = b)
  /\ ComputePosePointToPlaneCPU ex_source_points ex_target_points
       ex_target_normals ex_first ex_second diag_solve ex_chunks ex_sched
       (zeros 36) (zeros 6)
     = diag_solve
         (AtA ex_source_points ex_target_normals ex_first ex_second 6)
         (AtB ex_source_points ex_target_points ex_target_normals
              ex_first ex_second 6).
Proof.
  split; [reflexivity|]. split; [exact diag_solve_sound|].
  apply (pose_point_to_plane_normal_equations
           ex_source_points ex_target_points ex_target_normals
           ex_first ex_second diag_solve 6 ex_chunks ex_sched
           (zeros 36) (zeros 6) eq_refl diag_solve_sound).
Defined.

(** *** 257 correspondences on the CUDA kernel

    The first 256 match point 0 with point 0, whose normal is along x; the
    last one matches point 1 with point 1, whose normal is along y. *)

Definition cuda_source_points : list R := [0; 0; 0;   0; 0; 0].
Definition cuda_target_points : list R := [1; 0; 0;   0; 1; 0].
Definition cuda_target_normals : list R := [1; 0; 0;   0; 1; 0].
Definition cuda_first : list nat := (repeat 0 256 ++ [1])%nat.
Definition cuda_second : list nat := (repeat 0 256 ++ [1])%nat.

(** Modelled from the spec: [GetJacobianPointToPlane], with the row
    [a = [p_s x n_t ; n_t]] and the residual [(p_t - p_s) . n_t] of the
    CPU kernels; every workload is valid. *)
Definition ex_GetJacobianPointToPlane (workload_idx : nat)
  : bool * list R * R :=
  let '(J, r) :=
    GetJacobian cuda_source_points cuda_target_points cuda_target_normals
      cuda_first cuda_second workload_idx in
  (true, J, r).

Lemma Rsum_map_zero {A : Type} (f : A -> R) (l : list A) :
  (forall x, In x l -> f x = 0) -> Rsum (map f l) = 0.
Proof.
  induction l as [|x l IH]; intros H; simpl; [reflexivity|].
  rewrite (H x (or_introl eq_refl)), IH; [ring|].
  intros y Hy. apply H. now right.
Qed.

Lemma cuda_first_256 (idx : nat) :
  (idx < 256)%nat -> nth idx cuda_first O = O.
Proof.
  intros H. unfold cuda_first.
  rewrite app_nth1 by (rewrite repeat_length; exact H).
  apply nth_repeat.
Qed.

Lemma cuda_jacobian_256 (idx : nat) :
  (idx < 256)%nat ->
  GetJacobian cuda_source_points cuda_target_points cuda_target_normals
    cuda_first cuda_second idx
  = ([0; 0; 0; 1; 0; 0], 1).
Proof.
  intros H. unfold GetJacobian.
  change cuda_second with cuda_first. rewrite (cuda_first_256 idx H).
  cbv [ptr_get nth cuda_source_points cuda_target_points cuda_target_normals
       Nat.mul Nat.add].
  f_equal; [|ring]. repeat (f_equal; try ring).
Qed.

Lemma cuda_jacobian_last :
  GetJacobian cuda_source_points cuda_target_points cuda_target_normals
    cuda_first cuda_second 256
  = ([0; 0; 0; 0; 1; 0], 1).
Proof.
  unfold GetJacobian.
  change (nth 256 cuda_first O) with 1%nat.
  change (nth 256 cuda_second O) with 1%nat.
  cbv [ptr_get nth cuda_source_points cuda_target_points cuda_target_normals
       Nat.mul Nat.add].
  f_equal; [|ring]. repeat (f_equal; try ring).
Qed.

(** C3 on the CUDA path.  The kernel takes the index of the thread within
    its block as the workload index: with 257 correspondences each of the
    two blocks adds the terms of the workloads 0 to 255 and workload 256
    is never read.  The entry for [n_y n_y] of [global_sum] is 0, whereas
    the sum of [a aT] over all 257 correspondences, which the CPU kernel
    accumulates, has 1 there. *)
Theorem cuda_kernel_misses_correspondences :
  ptr_get (cuda_global_sum ex_GetJacobianPointToPlane 257) 14 = 0
  /\ cuda_global_sum ex_GetJacobianPointToPlane 257
     <> AtA_1x21 cuda_source_points cuda_target_normals cuda_first
          cuda_second 257
        ++ AtB cuda_source_points cuda_target_points cuda_target_normals
             cuda_first cuda_second 257
  /\ AtA_entry cuda_source_points cuda_target_normals cuda_first cuda_second
       257 4 4 = 1
  /\ ptr_get (fst (omp_chunk cuda_source_points cuda_target_points
                     cuda_target_normals cuda_first cuda_second (O, 257%nat)))
             14 = 1.
Proof.
  assert (HAtA : AtA_entry cuda_source_points cuda_target_normals cuda_first
                   cuda_second 257 4 4 = 1).
  { rewrite AtA_entry_S. unfold AtA_entry.
    rewrite Rsum_map_zero.
    - pose proof cuda_jacobian_last as H.
      rewrite GetJacobian_spec in H. apply (f_equal fst) in H.
      cbn [fst] in H. rewrite H.
      cbv [ptr_get nth]. ring.
    - intros idx Hidx. apply in_seq in Hidx.
      pose proof (cuda_jacobian_256 idx ltac:(lia)) as H.
      rewrite GetJacobian_spec in H. apply (f_equal fst) in H.
      cbn [fst] in H. rewrite H.
      cbv [ptr_get nth]. ring. }
  assert (Hcuda : ptr_get (cuda_global_sum ex_GetJacobianPointToPlane 257) 14
                  = 0); [|split; [exact Hcuda|split; [|split]]].
  - unfold cuda_global_sum.
    change ((257 + THREAD_1D_UNIT - 1) / THREAD_1D_UNIT)%nat with 2%nat.
    rewrite launch_entry by lia. rewrite ptr_get_zeros.
    rewrite Rsum_map_zero; [ring|].
    intros t Ht. apply in_seq in Ht. unfold THREAD_1D_UNIT in Ht.
    unfold ComputePosePointToPlaneCUDAKernel, ex_GetJacobianPointToPlane.
    replace (Nat.leb 257 (t + 0 * THREAD_1D_UNIT)) with false
      by (symmetry; apply Nat.leb_gt; lia).
    replace (t + 0 * THREAD_1D_UNIT)%nat with t by lia.
    rewrite (cuda_jacobian_256 t) by lia.
    cbv [thread_term cuda_reduction flat_map map seq app ptr_get nth]. ring.
  - intros E. apply (f_equal (fun v => ptr_get v 14)) in E.
    rewrite Hcuda in E.
    change (ptr_get (AtA_1x21 cuda_source_points cuda_target_normals
                       cuda_first cuda_second 257
                     ++ AtB cuda_source_points cuda_target_points
                          cuda_target_normals cuda_first cuda_second 257) 14)
      with (AtA_entry cuda_source_points cuda_target_normals cuda_first
              cuda_second 257 4 4) in E.
    rewrite HAtA in E. lra.
  - exact HAtA.
  - rewrite omp_chunk_closed. cbn [fst].
    change (ptr_get (AtA_1x21 cuda_source_points cuda_target_normals
                       cuda_first cuda_second 257) 14)
      with (AtA_entry cuda_source_points cuda_target_normals cuda_first
              cuda_second 257 4 4).
    exact HAtA.
Qed.

Lemma ex_AtA :
  AtA ex_source_points ex_target_normals ex_first ex_second 6
  = [2; 0; 0; 0; 0; 0;   0; 2; 0; 0; 0; 0;   0; 0; 2; 0; 0; 0;
     0; 0; 0; 2; 0; 0;   0; 0; 0; 0; 2; 0;   0; 0; 0; 0; 0; 2].
Proof.
  cbv [AtA AtA_entry flat_map map seq app Rsum fold_right ptr_get nth
       jacobian_row source_point target_normal point3 cross3 vx vy vz
       ex_source_points ex_target_normals ex_first ex_second
       Nat.mul Nat.add].
  repeat (f_equal; try lra).
Qed.

Lemma ex_AtB :
  AtB ex_source_points ex_target_points ex_target_normals ex_first ex_second 6
  = [0; 0; 0; 2; 2; 2].
Proof.
  cbv [AtB AtB_entry residual map seq app Rsum fold_right ptr_get nth
       jacobian_row source_point target_point target_normal point3
       cross3 dot3 vsub3 vx vy vz
       ex_source_points ex_target_points ex_target_normals ex_first
       ex_second Nat.mul Nat.add].
  repeat (f_equal; try lra).
Qed.

(** On the worked input the kernel returns the translation (1, 1, 1). *)
Example ex_pose :
  ComputePosePointToPlaneCPU ex_source_points ex_target_points
    ex_target_normals ex_first ex_second diag_solve ex_chunks ex_sched
    (zeros 36) (zeros 6)
  = Ok [0; 0; 0; 1; 1; 1].
Proof.
  rewrite (ComputePosePointToPlaneCPU_closed
             ex_source_points ex_target_points ex_target_normals
             ex_first ex_second diag_solve ex_chunks 6 ex_sched
             (zeros 36) (zeros 6) eq_refl).
  rewrite ex_AtA, ex_AtB.
  unfold diag_solve.
  cbv [length Nat.eqb forallb seq Nat.mul Nat.add ptr_get nth andb map].
  unfold Reqb.
  repeat match goal with
         | |- context [Req_dec_T ?a ?b] =>
             destruct (Req_dec_T a b); try lra
         end.
  cbv [negb]. f_equal. repeat (f_equal; try lra).
Qed.

(** *** The kernels on the worked input *)

(** The six pairs of the worked input, and the same pairs listed from the
    last to the first. *)
Definition ex_pairs : list (nat * nat) :=
  [(0, 0); (1, 1); (2, 2); (3, 3); (4, 4); (5, 5)]%nat.
Definition ex_pairs_reversed : list (nat * nat) :=
  [(5, 5); (4, 4); (3, 3); (2, 2); (1, 1); (0, 0)]%nat.

(** What [Tensor::Empty] may hold: sevens. *)
Definition ex_junk (m : nat) : list R := repeat 7 m.


Lemma tbb_kernel_agrees_with_openmp_witness :
  chunks_cover (leaves ex_sched) 0 6 = true
  /\ chunks_cover ex_chunks 0 6 = true
  /\ length (ex_junk 36) = 36%nat
  /\ length (ex_junk 6) = 6%nat
  /\ tbb_normal_equations ex_source_points ex_target_points
       ex_target_normals ex_first ex_second ex_sched (ex_junk 36) (ex_junk 6)
     = omp_normal_equations ex_source_points ex_target_points
         ex_target_normals ex_first ex_second ex_chunks
  /\ ComputePosePointToPlaneTBB ex_source_points ex_target_points
       ex_target_normals ex_first ex_second diag_solve ex_sched
       (ex_junk 36) (ex_junk 6)
     = ComputePosePointToPlaneOpenMP ex_source_points ex_target_points
         ex_target_normals ex_first ex_second diag_solve ex_chunks.
Proof.
  split; [reflexivity|]. split; [reflexivity|].
  split; [reflexivity|]. split; [reflexivity|].
  destruct (tbb_kernel_agrees_with_openmp
              ex_source_points ex_target_points ex_target_normals
              ex_first ex_second diag_solve 6 ex_sched ex_chunks
              (ex_junk 36) (ex_junk 6) eq_refl eq_refl eq_refl eq_refl)
    as (H1 & H2 & _).
  split; assumption.
Defined.

Lemma normal_matrix_is_positive_semidefinite_witness :
  chunks_cover ex_chunks 0 6 = true
  /\ 0 <= dot6 [1; 2; 3; 4; 5; 6]
            (mat6_vec
               (fst (omp_normal_equations ex_source_points ex_target_points
                       ex_target_normals ex_first ex_second ex_chunks))
               [1; 2; 3; 4; 5; 6]).
Proof.
  split; [reflexivity|].
  apply (normal_matrix_is_positive_semidefinite
           ex_source_points ex_target_points ex_target_normals
           ex_first ex_second 6 ex_chunks [1; 2; 3; 4; 5; 6] eq_refl).
Defined.

Lemma pose_minimises_linearised_error_witness :
  chunks_cover ex_chunks 0 6 = true
  /\ (forall A b x, diag_solve A b = Ok x -> mat6_vec A x = b)
  /\ ComputePosePointToPlaneCPU ex_source_points ex_target_points
       ex_target_normals ex_first ex_second diag_solve ex_chunks ex_sched
       (zeros 36) (zeros 6)
     = Ok [0; 0; 0; 1; 1; 1]
  /\ linearised_error ex_source_points ex_target_points ex_target_normals
       ex_first ex_second 6 [0; 0; 0; 1; 1; 1]
     <= linearised_error ex_source_points ex_target_points ex_target_normals
          ex_first ex_second 6 [0; 0; 1; 1; 1; 1].
Proof.
  split; [reflexivity|]. split; [exact diag_solve_sound|].
  split; [exact ex_pose|].
  apply (pose_minimises_linearised_error
           ex_source_points ex_target_points ex_target_normals
           ex_first ex_second diag_solve 6 ex_chunks ex_sched
           (zeros 36) (zeros 6) [0; 0; 0; 1; 1; 1] eq_refl
           diag_solve_sound ex_pose).
Defined.



Lemma normal_equations_ignore_the_order_witness :
  Permutation ex_pairs ex_pairs_reversed
  /\ chunks_cover ex_chunks 0 (length ex_pairs) = true
  /\ chunks_cover [(0, 6)%nat] 0 (length ex_pairs_reversed) = true
  /\ omp_normal_equations ex_source_points ex_target_points
       ex_target_normals (map fst ex_pairs) (map snd ex_pairs) ex_chunks
     = omp_normal_equations ex_source_points ex_target_points
         ex_target_normals (map fst ex_pairs_reversed)
         (map snd ex_pairs_reversed) [(0, 6)%nat]
  /\ ComputePosePointToPlaneOpenMP ex_source_points ex_target_points
       ex_target_normals (map fst ex_pairs) (map snd ex_pairs) diag_solve
       ex_chunks
     = ComputePosePointToPlaneOpenMP ex_source_points ex_target_points
         ex_target_normals (map fst ex_pairs_reversed)
         (map snd ex_pairs_reversed) diag_solve [(0, 6)%nat].
Proof.
  split; [exact (Permutation_rev ex_pairs)|].
  split; [reflexivity|]. split; [reflexivity|].
  apply (normal_equations_ignore_the_order
           ex_source_points ex_target_points ex_target_normals diag_solve
           ex_pairs ex_pairs_reversed ex_chunks [(0, 6)%nat]
           (Permutation_rev ex_pairs) eq_refl eq_refl).
Defined.

Lemma cuda_sum_repeats_the_first_block_witness :
  (THREAD_1D_UNIT <= 257)%nat
  /\ (9 < 27)%nat
  /\ ptr_get (cuda_global_sum ex_GetJacobianPointToPlane 257) 9
     = INR ((257 + THREAD_1D_UNIT - 1) / THREAD_1D_UNIT)
       * ptr_get (cuda_global_sum ex_GetJacobianPointToPlane THREAD_1D_UNIT)
           9.
Proof.
  assert (H : (THREAD_1D_UNIT <= 257)%nat)
    by (apply Nat.leb_le; reflexivity).
  assert (H9 : (9 < 27)%nat) by lia.
  split; [exact H|]. split; [exact H9|].
  apply (cuda_sum_repeats_the_first_block ex_GetJacobianPointToPlane 257 9
           H H9).
Defined.

End Kernel.


(** ** Registration (Registration.cpp) *)

Module Registration.

Inductive Device : Type :=
| CPU (id : nat)
| CUDA (id : nat).

Inductive Dtype : Type :=
| Float32
| Float64
| Int32
| Int64.

Definition Device_eqb (a b : Device) : bool :=
  match a, b with
  | CPU i, CPU j | CUDA i, CUDA j => Nat.eqb i j
  | _, _ => false
  end.

Definition Dtype_eqb (a b : Dtype) : bool :=
  match a, b with
  | Float32, Float32 | Float64, Float64 | Int32, Int32 | Int64, Int64 => true
  | _, _ => false
  end.

(** A tensor point cloud: its device, the dtype of its points, the rows
    of the {N,3} "points" tensor and of the optional "normals" tensor. *)
Record PointCloud : Type := mkPointCloud {
  GetDevice : Device;
  points_dtype : Dtype;
  GetPoints : list Vec3;
  point_normals : option (list Vec3)
}.

Definition HasPointNormals (pc : PointCloud) : bool :=
  match point_normals pc with Some _ => true | None => false end.

Definition GetPointNormals (pc : PointCloud) : list Vec3 :=
  match point_normals pc with Some l => l | None => [] end.

(** The tensor handed in as a transformation: its shape, its dtype, and
    its entries when the shape is {4,4}. *)
Record Tensor : Type := mkTensor {
  GetShape : list nat;
  GetDtype : Dtype;
  entries : Mat4
}.

(** A {4,4} Float32 tensor. *)
Definition tensor44 (m : Mat4) : Tensor := mkTensor [4; 4]%nat Float32 m.

(** Two parallel index sequences of the same length, kept as one
    sequence of pairs ([first], [second]). *)
Definition CorrespondenceSet : Type := list (nat * nat).

Definition first (c : CorrespondenceSet) : list nat := map fst c.
Definition second (c : CorrespondenceSet) : list nat := map snd c.

Record RegistrationResult : Type := mkRegistrationResult {
  transformation_ : Tensor;
  correspondence_set : CorrespondenceSet;
  inlier_rmse_ : double;
  fitness_ : double
}.

(** Modelled from the spec: the constructor [RegistrationResult(t)] of
    Registration.h, which is not part of the sources at hand.  It keeps
    the transformation, leaves the correspondence set empty and sets
    fitness and RMSE to zero. *)
Definition RegistrationResult_new (t : Tensor) : RegistrationResult :=
  mkRegistrationResult t [] (DFin 0) (DFin 0).

Record ICPConvergenceCriteria : Type := mkICPConvergenceCriteria {
  relative_fitness_ : double;
  relative_rmse_ : double;
  max_iteration_ : Z
}.

(** What a run leaves behind: the calls on the nearest-neighbour index and
    the [LogDebug] line of each ICP iteration. *)
Inductive Event : Type :=
| EvHybridIndex (radius : double)
| EvHybridSearch (queries : list Vec3) (radius : double)
| EvIteration (i : nat) (fitness rmse : double).

(** A computation that logs events and may raise a fatal error. *)
Definition M (A : Type) : Type := (list Event * Result A)%type.

Definition ret {A : Type} (a : A) : M A := ([], Ok a).

Definition bind {A B : Type} (m : M A) (k : A -> M B) : M B :=
  match m with
  | (ev, Ok a) => let '(ev', r) := k a in (ev ++ ev', r)
  | (ev, Error msg) => (ev, Error msg)
  end.

Definition emit (e : Event) : M unit := ([e], Ok tt).

Definition LogError {A : Type} (msg : string) : M A := ([], Error msg).

Declare Scope icp_scope.
Delimit Scope icp_scope with icp.
Notation "x <- m ;; k" := (bind m (fun x => k))
  (at level 61, m at next level, right associativity) : icp_scope.
Notation "m ;;; k" := (bind m (fun _ => k))
  (at level 61, right associativity) : icp_scope.
Open Scope icp_scope.

(** [AssertDtype], [AssertShape] and the device test: a fatal error unless
    the condition holds. *)
Definition assert_that (cond : bool) (msg : string) : M unit :=
  if cond then ret tt else LogError msg.

Definition shape_eqb (a b : list nat) : bool :=
  if list_eq_dec Nat.eq_dec a b then true else false.

(** The checks that open every entry point of the file. *)
Definition entry_checks (source target : PointCloud) (transformation : Tensor)
  : M unit :=
  assert_that (Dtype_eqb (points_dtype source) Float32) "Wrong dtype." ;;;
  assert_that (Dtype_eqb (points_dtype target) Float32) "Wrong dtype." ;;;
  assert_that (Device_eqb (GetDevice target) (GetDevice source))
    "Target Pointcloud device != Source Pointcloud's device." ;;;
  assert_that (shape_eqb (GetShape transformation) [4; 4]%nat)
    "Wrong shape." ;;;
  assert_that (Dtype_eqb (GetDtype transformation) Float32) "Wrong dtype.".

(** The checks, as a predicate on the input. *)
Definition entry_ok (source target : PointCloud) (transformation : Tensor)
  : bool :=
  Dtype_eqb (points_dtype source) Float32
  && Dtype_eqb (points_dtype target) Float32
  && Device_eqb (GetDevice target) (GetDevice source)
  && shape_eqb (GetShape transformation) [4; 4]%nat
  && Dtype_eqb (GetDtype transformation) Float32.

(** Modelled from the spec: [PointCloud::Transform], which is not part of
    the sources at hand ("Transforms the points and normals (if exist)" in
    its Python binding).  It rewrites the points as [R p + t] and the
    normals as [R n], with [R] and [t] the rotation block and the last
    column of the transformation. *)
Definition Transform (t : Mat4) (pc : PointCloud) : PointCloud :=
  mkPointCloud (GetDevice pc) (points_dtype pc)
    (map (fun p => vadd3 (mvec3 (rotation_of t) p) (translation_of t))
         (GetPoints pc))
    (match point_normals pc with
     | Some ns => Some (map (mvec3 (rotation_of t)) ns)
     | None => None
     end).

(** *** Transformation estimations *)

(** [Tensor::IndexGet] on the rows of a {N,3} tensor.  An index out of
    range is undefined behaviour in the source (it is only asserted); the
    model reads the origin there. *)
Definition IndexGet (t : list Vec3) (idx : list nat) : list Vec3 :=
  map (fun i => nth i t vzero3) idx.

(** An elementwise operation on two tensors of the same shape. *)
Fixpoint zip_with {A B C : Type} (f : A -> B -> C) (a : list A) (b : list B)
  : list C :=
  match a, b with
  | x :: a', y :: b' => f x y :: zip_with f a' b'
  | _, _ => []
  end.

(** [Tensor::Mean({0}, true)] on a {C,3} tensor with [C >= 1] rows: the
    sum of the rows over their number.  On a tensor without rows the code
    divides zero by zero; the real entries of this model hold no NaN, and
    the value of [Mean0] there (the zero vector, [/ 0] being [0] for the
    reals of the library) stands for nothing in the code.  Every statement
    below that rests on a mean has [1 <= C] among its hypotheses. *)
Definition Mean0 (t : list Vec3) : Vec3 :=
  vscale3 (/ INR (length t)) (vsum_list t).

(** [a.T().Matmul(b)] for two {C,3} tensors: the {3,3} tensor with entry
    (p, q) the sum over the rows of [a[i][p] * b[i][q]]. *)
Definition T_Matmul (a b : list Vec3) : Mat3 :=
  let entry (p q : Vec3 -> R) := Rsum (zip_with (fun x y => p x * q y) a b) in
  mkMat3 (mkVec3 (entry vx vx) (entry vx vy) (entry vx vz))
         (mkVec3 (entry vy vx) (entry vy vy) (entry vy vz))
         (mkVec3 (entry vz vx) (entry vz vy) (entry vz vz)).

(** The device and dtype checks of the estimation methods. *)
Definition estimation_checks (source target : PointCloud) : M unit :=
  assert_that (Dtype_eqb (points_dtype source) Float32) "Wrong dtype." ;;;
  assert_that (Dtype_eqb (points_dtype target) Float32) "Wrong dtype." ;;;
  assert_that (Device_eqb (GetDevice target) (GetDevice source))
    "Target Pointcloud device != Source Pointcloud's device.".

Definition estimation_ok (source target : PointCloud) : bool :=
  Dtype_eqb (points_dtype source) Float32
  && Dtype_eqb (points_dtype target) Float32
  && Device_eqb (GetDevice target) (GetDevice source).

(** The interface [TransformationEstimation]. *)
Class TransformationEstimation : Type := {
  ComputeRMSE : PointCloud -> PointCloud -> CorrespondenceSet -> M double;
  ComputeTransformation :
    PointCloud -> PointCloud -> CorrespondenceSet -> M Mat4
}.

Module PointToPoint.

(** [TransformationEstimationPointToPoint::ComputeRMSE]. *)
Definition ComputeRMSE (source target : PointCloud)
    (corres : CorrespondenceSet) : M double :=
  estimation_checks source target ;;;
  let source_select := IndexGet (GetPoints source) (first corres) in
  let target_select := IndexGet (GetPoints target) (second corres) in
  let error_t := zip_with vsub3 source_select target_select in
  let error_t := zip_with vmul3 error_t error_t in
  let error := DFin (Rsum (map vsum3 error_t)) in
  ret (dsqrt (ddiv error (of_nat (length (second corres))))).

Section WithSVD.

(** The dense SVD of the linear algebra library, [A = U diag(D) VT]; it
    is not part of these sources. *)
Variable SVD : Mat3 -> Mat3 * Vec3 * Mat3.

(** The cross-covariance [Sxy] of the matched points, for [C >= 1] pairs.
    With no pair the code divides by the float [0] and its tensors hold
    NaN from there on, through an SVD that is not part of these sources;
    the model has no value for that case, and what [Sxy_of] and
    [ComputeTransformation] give there is not a statement about the
    code. *)
Definition Sxy_of (source_select target_select : list Vec3) : Mat3 :=
  let mux := Mean0 source_select in
  let muy := Mean0 target_select in
  mscale3 (/ INR (length target_select))
    (T_Matmul (map (fun p => vsub3 p muy) target_select)
              (map (fun p => vsub3 p mux) source_select)).

(** The correction [S]: the identity, with [S[-1][-1] = -1] when
    [U.Det() * (VT.T()).Det() < 0]. *)
Definition correction (U VT : Mat3) : Mat3 :=
  if Rltb (det3 U * det3 (mtrans3 VT)) 0 then diag3 1 1 (-1) else Eye3.

(** [TransformationEstimationPointToPoint::ComputeTransformation]. *)
Definition ComputeTransformation (source target : PointCloud)
    (corres : CorrespondenceSet) : M Mat4 :=
  estimation_checks source target ;;;
  let source_select := IndexGet (GetPoints source) (first corres) in
  let target_select := IndexGet (GetPoints target) (second corres) in
  let mux := Mean0 source_select in
  let muy := Mean0 target_select in
  let Sxy := Sxy_of source_select target_select in
  let '(U, D, VT) := SVD Sxy in
  let S := correction U VT in
  let Rm := mmul3 U (mmul3 S VT) in
  let t := vsub3 muy (mvec3 Rm mux) in
  ret (RtToTransformation Rm t).

(** The sign of a real. *)
Definition sign (x : R) : R :=
  if Rltb x 0 then -1 else if Rltb 0 x then 1 else 0.

(** [(U, D, VT)] is a singular value decomposition of [A]. *)
Definition is_svd (A : Mat3) (udv : Mat3 * Vec3 * Mat3) : Prop :=
  let '(U, D, VT) := udv in
  orthogonal U /\ orthogonal VT
  /\ A = mmul3 U (mmul3 (diag3 (vx D) (vy D) (vz D)) VT).

Lemma T_Matmul_outer (a b : list Vec3) :
  T_Matmul a b = msum_list (zip_with outer3 a b).
Proof.
  revert b; induction a as [|x a IH]; intros [|y b];
    try (cbv [T_Matmul zip_with Rsum fold_right msum_list mzero3 vzero3];
         reflexivity).
  change (zip_with outer3 (x :: a) (y :: b))
    with (outer3 x y :: zip_with outer3 a b).
  cbn [msum_list fold_right]. fold (msum_list (zip_with outer3 a b)).
  rewrite <- IH.
  cbv [T_Matmul madd3 outer3 vadd3 vscale3 row0 row1 row2 vx vy vz].
  cbn [zip_with Rsum fold_right].
  destruct x, y; reflexivity.
Qed.

Lemma correction_cases (U VT : Mat3) :
  orthogonal U -> orthogonal VT ->
  correction U VT = diag3 1 1 (sign (det3 U * det3 VT))
  /\ det3 (correction U VT) = det3 U * det3 VT
  /\ mmul3 (mtrans3 (correction U VT)) (correction U VT) = Eye3.
Proof.
  intros HU HV. unfold correction, sign. rewrite det3_mtrans3.
  destruct (orthogonal_det U HU) as [EU|EU],
           (orthogonal_det VT HV) as [EV|EV]; rewrite EU, EV;
    repeat match goal with
           | |- context [Rltb ?a ?b] =>
               let E := fresh in
               destruct (Rltb a b) eqn:E;
               [apply Rltb_true in E | apply Rltb_false in E]; try lra
           end;
    (split; [reflexivity|]); split;
    cbv [Eye3 diag3 det3 mmul3 mtrans3 vrow_mul3 dot3 cross3 col3_0 col3_1
         col3_2 row0 row1 row2 vx vy vz];
    try ring; f_equal; f_equal; ring.
Qed.

(** C4.  With at least one matched pair (so also with three non-collinear
    ones) and a dense SVD that returns a decomposition of the
    cross-covariance, [ComputeTransformation] computes the centroids
    [mux], [muy], the cross-covariance
    [Sxy = (1/C) (target centred)T (source centred)], the correction
    [S = diag(1, 1, sign(det U det VT))], and returns the rotation
    [R = U S VT] with the translation [t = muy - R mux]; [R] has
    determinant one and orthonormal columns. *)
Theorem point_to_point_proper_rotation
    (source target : PointCloud) (corres : CorrespondenceSet) :
  let source_select := IndexGet (GetPoints source) (first corres) in
  let target_select := IndexGet (GetPoints target) (second corres) in
  let C := INR (length corres) in
  let mux := vscale3 (/ C) (vsum_list source_select) in
  let muy := vscale3 (/ C) (vsum_list target_select) in
  let Sxy :=
    mscale3 (/ C)
      (msum_list (zip_with outer3 (map (fun p => vsub3 p muy) target_select)
                                  (map (fun p => vsub3 p mux) source_select)))
  in
  estimation_ok source target = true ->
  (1 <= length corres)%nat ->
  is_svd Sxy (SVD Sxy) ->
  let '(U, D, VT) := SVD Sxy in
  let S := diag3 1 1 (sign (det3 U * det3 VT)) in
  let Rm := mmul3 U (mmul3 S VT) in
  let t := vsub3 muy (mvec3 Rm mux) in
  ComputeTransformation source target corres
  = ([], Ok (RtToTransformation Rm t))
  /\ det3 Rm = 1
  /\ mmul3 (mtrans3 Rm) Rm = Eye3.
Proof.
  intros source_select target_select C mux muy Sxy Hok HC Hsvd.
  assert (HSxy : Sxy_of source_select target_select = Sxy).
  { unfold Sxy_of, Sxy, Mean0, mux, muy, C, source_select, target_select,
      IndexGet, first, second.
    rewrite T_Matmul_outer, !length_map. reflexivity. }
  unfold ComputeTransformation, estimation_checks.
  unfold estimation_ok in Hok.
  apply andb_prop in Hok as [Hok H3]. apply andb_prop in Hok as [H1 H2].
  rewrite H1, H2, H3. cbn [assert_that bind ret app].
  fold source_select target_select. rewrite HSxy.
  destruct (SVD Sxy) as [[U D] VT]. destruct Hsvd as (HU & HV & _).
  destruct (correction_cases U VT HU HV) as (HS & HdS & HSS).
  rewrite <- HS.
  split.
  { unfold Mean0, mux, muy, C, source_select, target_select, IndexGet,
      first, second. rewrite !length_map. reflexivity. }
  split.
  - rewrite !det3_mmul3, HdS.
    pose proof (orthogonal_det_sqr U HU). pose proof (orthogonal_det_sqr VT HV).
    nra.
  - rewrite !mtrans3_mmul3.
    rewrite (mmul3_assoc (mmul3 _ _) (mtrans3 U)).
    rewrite <- (mmul3_assoc (mtrans3 U) U).
    rewrite (proj1 HU), mmul3_Eye3_l.
    rewrite (mmul3_assoc (mtrans3 VT)).
    rewrite <- (mmul3_assoc (mtrans3 (correction U VT))).
    rewrite HSS, mmul3_Eye3_l. exact (proj1 HV).
Qed.

End WithSVD.

(** A decomposition for diagonal matrices, an instance of the dense SVD
    that the examples run with. *)
Definition diag_svd (A : Mat3) : Mat3 * Vec3 * Mat3 :=
  (Eye3, mkVec3 (vx (row0 A)) (vy (row1 A)) (vz (row2 A)), Eye3).

(** Six points on the axes, matched with themselves. *)
Definition ex_cloud : PointCloud :=
  mkPointCloud (CPU 0) Float32
    [mkVec3 1 0 0; mkVec3 (-1) 0 0; mkVec3 0 1 0; mkVec3 0 (-1) 0;
     mkVec3 0 0 1; mkVec3 0 0 (-1)]
    None.

Definition ex_corres : CorrespondenceSet :=
  [(0, 0); (1, 1); (2, 2); (3, 3); (4, 4); (5, 5)]%nat.

Lemma orthogonal_Eye3 : orthogonal Eye3.
Proof. split; apply mmul3_Eye3_l. Qed.

Lemma is_svd_diag_svd (a b c : R) :
  is_svd (diag3 a b c) (diag_svd (diag3 a b c)).
Proof.
  unfold is_svd, diag_svd. repeat split; try apply mmul3_Eye3_l.
  cbv [Eye3 diag3 mmul3 vrow_mul3 dot3 col3_0 col3_1 col3_2 row0 row1 row2
       vx vy vz].
  f_equal; f_equal; ring.
Qed.

(** The cross-covariance of the example is a third of the identity. *)
Lemma ex_Sxy :
  let sel := IndexGet (GetPoints ex_cloud) (first ex_corres) in
  let mu := vscale3 (/ INR (length ex_corres)) (vsum_list sel) in
  mscale3 (/ INR (length ex_corres))
    (msum_list (zip_with outer3 (map (fun p => vsub3 p mu) sel)
                                (map (fun p => vsub3 p mu) sel)))
  = diag3 (/ 3) (/ 3) (/ 3).
Proof.
  cbv [IndexGet GetPoints ex_cloud first ex_corres map fst nth length INR
       vsum_list fold_right vadd3 vscale3 vzero3 vsub3 zip_with outer3
       msum_list madd3 mzero3 mscale3 diag3 row0 row1 row2 vx vy vz].
  f_equal; f_equal; field.
Qed.

Lemma point_to_point_proper_rotation_witness :
  estimation_ok ex_cloud ex_cloud = true
  /\ (1 <= length ex_corres)%nat
  /\ exists Rm t,
       ComputeTransformation diag_svd ex_cloud ex_cloud ex_corres
       = ([], Ok (RtToTransformation Rm t))
       /\ det3 Rm = 1 /\ mmul3 (mtrans3 Rm) Rm = Eye3.
Proof.
  split; [reflexivity|]. split; [simpl; lia|].
  pose proof (point_to_point_proper_rotation diag_svd ex_cloud ex_cloud
                ex_corres eq_refl) as H.
  change (second ex_corres) with (first ex_corres) in H.
  cbv zeta in H. rewrite ex_Sxy in H.
  specialize (H ltac:(simpl; lia) (is_svd_diag_svd _ _ _)).
  unfold diag_svd in H. eexists. eexists. exact H.
Defined.

End PointToPoint.

Module PointToPlane.

(** [TransformationEstimationPointToPlane::ComputeRMSE]. *)
Definition ComputeRMSE (source target : PointCloud)
    (corres : CorrespondenceSet) : M double :=
  estimation_checks source target ;;;
  if negb (HasPointNormals target) then ret (DFin 0)
  else
    let source_select := IndexGet (GetPoints source) (first corres) in
    let target_select := IndexGet (GetPoints target) (second corres) in
    let target_n_select := IndexGet (GetPointNormals target) (second corres) in
    let error_t :=
      zip_with vmul3 (zip_with vsub3 source_select target_select)
               target_n_select in
    let error_t := zip_with vmul3 error_t error_t in
    let error := DFin (Rsum (map vsum3 error_t)) in
    ret (dsqrt (ddiv error (of_nat (length (second corres))))).

(** The RMSE in the words of the point-to-plane metric: the root of the
    mean, over the pairs, of the squared dot product of the offset with
    the target normal. *)
Definition rmse_of_dot_products (source target : PointCloud)
    (corres : CorrespondenceSet) : double :=
  let r (c : nat * nat) :=
    dot3 (vsub3 (nth (fst c) (GetPoints source) vzero3)
                (nth (snd c) (GetPoints target) vzero3))
         (nth (snd c) (GetPointNormals target) vzero3) in
  DFin (sqrt (/ INR (length corres) * Rsum (map (fun c => r c * r c) corres))).

(** One pair: the source one step along x and y from the target, whose
    unit normal is (3/5, 4/5, 0). *)
Definition ex_source : PointCloud :=
  mkPointCloud (CPU 0) Float32 [mkVec3 1 1 0] None.

Definition ex_target : PointCloud :=
  mkPointCloud (CPU 0) Float32 [mkVec3 0 0 0] (Some [mkVec3 (3/5) (4/5) 0]).

(** What the code returns in general: the root of the mean of the sums of
    the squared componentwise products. *)
Lemma ComputeRMSE_unfold (source target : PointCloud)
    (corres : CorrespondenceSet) :
  estimation_ok source target = true ->
  HasPointNormals target = true ->
  ComputeRMSE source target corres
  = ([], Ok (dsqrt (ddiv
       (DFin (Rsum (map (fun c : nat * nat =>
                           let d := vsub3 (nth (fst c) (GetPoints source) vzero3)
                                          (nth (snd c) (GetPoints target) vzero3) in
                           let e := vmul3 d (nth (snd c)
                                               (GetPointNormals target) vzero3) in
                           vsum3 (vmul3 e e)) corres)))
       (of_nat (length corres))))).
Proof.
  intros Hok Hn. unfold ComputeRMSE, estimation_checks.
  unfold estimation_ok in Hok.
  apply andb_prop in Hok as [Hok H3]. apply andb_prop in Hok as [H1 H2].
  rewrite H1, H2, H3, Hn. cbn [assert_that bind ret app negb].
  replace (length (second corres)) with (length corres)
    by (unfold second; now rewrite length_map).
  match goal with
  | |- context [map vsum3 ?l] =>
      assert (Hl : map vsum3 l
                   = map (fun c : nat * nat =>
                            let d := vsub3 (nth (fst c) (GetPoints source) vzero3)
                                           (nth (snd c) (GetPoints target) vzero3) in
                            let e := vmul3 d (nth (snd c)
                                                (GetPointNormals target) vzero3) in
                            vsum3 (vmul3 e e)) corres)
  end.
  { unfold IndexGet, first, second.
    induction corres as [|c l IH]; [reflexivity|].
    cbn [map zip_with]. now rewrite IH. }
  now rewrite Hl.
Qed.

(** C1.  On the pair above the code returns 1, the root of
    [(1 * 3/5)^2 + (1 * 4/5)^2], whereas the root mean square of the dot
    product of the offset with the normal is 7/5: the code squares the
    componentwise products instead of their sum. *)
Theorem point_to_plane_rmse_squares_componentwise :
  ComputeRMSE ex_source ex_target [(O, O)] = ([], Ok (DFin 1))
  /\ rmse_of_dot_products ex_source ex_target [(O, O)] = DFin (7 / 5)
  /\ DFin 1 <> DFin (7 / 5).
Proof.
  split; [|split].
  - rewrite ComputeRMSE_unfold by reflexivity.
    cbv [map fst snd nth GetPoints GetPointNormals point_normals ex_source
         ex_target vsub3 vmul3 vsum3 vx vy vz Rsum fold_right length of_nat
         INR].
    rewrite ddiv_fin by lra. rewrite dsqrt_fin by lra.
    do 3 f_equal. replace (_ / 1) with 1 by field. apply sqrt_1.
  - cbv [rmse_of_dot_products map fst snd nth GetPoints GetPointNormals
         point_normals ex_source ex_target vsub3 dot3 vx vy vz Rsum
         fold_right length INR].
    f_equal.
    replace (/ 1 * _) with ((7 / 5) * (7 / 5)) by field.
    apply sqrt_square. lra.
  - intros H. injection H. lra.
Qed.

End PointToPlane.

(** *** Correspondences and metrics *)

Section NearestNeighborSearch.

(** The nearest-neighbour index is an outside capability.  [HybridIndex]
    builds the index over a data set for a radius and tells whether it is
    set; [HybridSearch1] is the answer of the built index for one query:
    the nearest data point within the radius, with its squared distance,
    if there is one. *)
Variable HybridIndex : list Vec3 -> double -> bool.
Variable HybridSearch1 : list Vec3 -> double -> Vec3 -> option (nat * R).

(** Modelled from the spec: [SqueezedHybridSearch], which is not part of
    the sources at hand.  Every query point is looked up; the points with
    a neighbour give a pair (query index, neighbour index) and a squared
    distance, the others are dropped. *)
Definition SqueezedHybridSearch (dataset queries : list Vec3)
    (radius : double) : CorrespondenceSet * list R :=
  let hits :=
    flat_map
      (fun iq : nat * Vec3 =>
         match HybridSearch1 dataset radius (snd iq) with
         | Some (j, d) => [((fst iq, j), d)]
         | None => []
         end)
      (combine (seq 0 (length queries)) queries) in
  (map fst hits, map snd hits).

(** The index object is built over the points of the target. *)
Record NearestNeighborSearch : Type := mkNNS { dataset_points : list Vec3 }.

Definition GetRegistrationResultAndCorrespondences
    (source target : PointCloud) (target_nns : NearestNeighborSearch)
    (max_correspondence_distance : double) (transformation : Tensor)
  : M RegistrationResult :=
  entry_checks source target transformation ;;;
  let transformation_device := transformation in
  let result := RegistrationResult_new transformation_device in
  if dle max_correspondence_distance (DFin 0) then ret result
  else
    emit (EvHybridIndex max_correspondence_distance) ;;;
    let check :=
      HybridIndex (dataset_points target_nns) max_correspondence_distance in
    assert_that check "Index is not set." ;;;
    emit (EvHybridSearch (GetPoints source) max_correspondence_distance) ;;;
    let '(corres, distances) :=
      SqueezedHybridSearch (dataset_points target_nns) (GetPoints source)
        max_correspondence_distance in
    let num_correspondences := length (first corres) in
    let squared_error := DFin (Rsum distances) in
    let fitness :=
      ddiv (of_nat num_correspondences)
           (of_nat (length (GetPoints source))) in
    let inlier_rmse :=
      dsqrt (ddiv squared_error (of_nat num_correspondences)) in
    ret (mkRegistrationResult transformation corres inlier_rmse fitness).

(** [EvaluateRegistration]. *)
Definition EvaluateRegistration (source target : PointCloud)
    (max_correspondence_distance : double) (transformation : Tensor)
  : M RegistrationResult :=
  entry_checks source target transformation ;;;
  let transformation_device := transformation in
  let target_nns := mkNNS (GetPoints target) in
  let source_transformed := source in
  let source_transformed :=
    Transform (entries transformation_device) source_transformed in
  GetRegistrationResultAndCorrespondences source_transformed target
    target_nns max_correspondence_distance transformation_device.

(** *** The ICP loop *)

Context {estimation : TransformationEstimation}.

(** The local variables of [RegistrationICP] that the loop updates, and
    the number of loop bodies run so far. *)
Record LoopState : Type := mkLoopState {
  transformation_device : Tensor;
  source_transformed : PointCloud;
  result : RegistrationResult;
  corres : CorrespondenceSet;
  iterations : nat
}.

(** [update.Matmul(transformation_device)] on {4,4} Float32 tensors. *)
Definition tensor_Matmul (update : Mat4) (t : Tensor) : Tensor :=
  tensor44 (Matmul update (entries t)).

(** The test that ends the loop early. *)
Definition converged (criteria : ICPConvergenceCriteria)
    (prev_fitness_ prev_inliner_rmse_ : double) (r : RegistrationResult)
  : bool :=
  dlt (dabs (dsub prev_fitness_ (fitness_ r))) (relative_fitness_ criteria)
  && dlt (dabs (dsub prev_inliner_rmse_ (inlier_rmse_ r)))
         (relative_rmse_ criteria).

(** The body of the loop up to the convergence test. *)
Definition icp_body (target : PointCloud) (target_nns : NearestNeighborSearch)
    (max_correspondence_distance : double) (i : nat) (st : LoopState)
  : M LoopState :=
  emit (EvIteration i (fitness_ (result st)) (inlier_rmse_ (result st))) ;;;
  update <- ComputeTransformation (source_transformed st) target (corres st) ;;
  let transformation_device := tensor_Matmul update (transformation_device st) in
  let source_transformed := Transform update (source_transformed st) in
  result <- GetRegistrationResultAndCorrespondences source_transformed target
              target_nns max_correspondence_distance transformation_device ;;
  let corres := correspondence_set result in
  ret (mkLoopState transformation_device source_transformed result corres
         (S (iterations st))).

(** [for (int i = 0; i < criteria.max_iteration_; i++)]: [remaining] is
    [max_iteration_ - i]. *)
Fixpoint icp_loop (target : PointCloud) (target_nns : NearestNeighborSearch)
    (max_correspondence_distance : double) (criteria : ICPConvergenceCriteria)
    (remaining : nat) (i : nat) (st : LoopState) : M LoopState :=
  match remaining with
  | O => ret st
  | S remaining' =>
      let prev_fitness_ := fitness_ (result st) in
      let prev_inliner_rmse_ := inlier_rmse_ (result st) in
      st' <- icp_body target target_nns max_correspondence_distance i st ;;
      if converged criteria prev_fitness_ prev_inliner_rmse_ (result st')
      then ret st'
      else icp_loop target target_nns max_correspondence_distance criteria
             remaining' (S i) st'
  end.

(** The state on entry to the loop. *)
Definition icp_init (source target : PointCloud)
    (max_correspondence_distance : double) (init : Tensor) : M LoopState :=
  entry_checks source target init ;;;
  let transformation_device := init in
  let target_nns := mkNNS (GetPoints target) in
  let source_transformed := source in
  let source_transformed :=
    Transform (entries transformation_device) source_transformed in
  result <- GetRegistrationResultAndCorrespondences source_transformed target
              target_nns max_correspondence_distance transformation_device ;;
  let corres := correspondence_set result in
  ret (mkLoopState transformation_device source_transformed result corres O).

(** [RegistrationICP] with the state the loop ends in. *)
Definition RegistrationICP_run (source target : PointCloud)
    (max_correspondence_distance : double) (init : Tensor)
    (criteria : ICPConvergenceCriteria) : M LoopState :=
  st <- icp_init source target max_correspondence_distance init ;;
  icp_loop target (mkNNS (GetPoints target)) max_correspondence_distance
    criteria (Z.to_nat (max_iteration_ criteria)) O st.

(** [RegistrationICP]. *)
Definition RegistrationICP (source target : PointCloud)
    (max_correspondence_distance : double) (init : Tensor)
    (criteria : ICPConvergenceCriteria) : M RegistrationResult :=
  st <- RegistrationICP_run source target max_correspondence_distance init
          criteria ;;
  ret (result st).

(** *** Properties of the correspondence-and-result computation *)

Lemma entry_checks_ok (source target : PointCloud) (t : Tensor) :
  entry_ok source target t = true ->
  entry_checks source target t = ([], Ok tt).
Proof.
  unfold entry_ok, entry_checks. intros H.
  repeat (apply andb_prop in H; destruct H as [H ?]).
  repeat match goal with E : _ = true |- _ => rewrite E; clear E end.
  reflexivity.
Qed.

Lemma entry_checks_fail (source target : PointCloud) (t : Tensor) :
  entry_ok source target t = false ->
  exists msg, entry_checks source target t = ([], Error msg).
Proof.
  unfold entry_ok, entry_checks. intros H.
  destruct (Dtype_eqb (points_dtype source) Float32); [|eexists; reflexivity].
  destruct (Dtype_eqb (points_dtype target) Float32); [|eexists; reflexivity].
  destruct (Device_eqb (GetDevice target) (GetDevice source));
    [|eexists; reflexivity].
  destruct (shape_eqb (GetShape t) [4; 4]%nat); [|eexists; reflexivity].
  destruct (Dtype_eqb (GetDtype t) Float32); [discriminate|].
  eexists; reflexivity.
Qed.

(** One correspondence at most per query point. *)
Lemma SqueezedHybridSearch_length (dataset queries : list Vec3)
    (radius : double) :
  (length (fst (SqueezedHybridSearch dataset queries radius))
   <= length queries)%nat
  /\ length (snd (SqueezedHybridSearch dataset queries radius))
     = length (fst (SqueezedHybridSearch dataset queries radius)).
Proof.
  unfold SqueezedHybridSearch. simpl. rewrite !length_map. split; [|reflexivity].
  generalize (seq 0 (length queries)) as idx.
  induction queries as [|q l IH]; intros [|i idx]; simpl; try lia.
  destruct (HybridSearch1 dataset radius q) as [[j d]|]; simpl;
    specialize (IH idx); lia.
Qed.

(** The result when the search runs. *)
Lemma GetRegistrationResultAndCorrespondences_search
    (source target : PointCloud) (target_nns : NearestNeighborSearch)
    (max_correspondence_distance : double) (transformation : Tensor) :
  entry_ok source target transformation = true ->
  dle max_correspondence_distance (DFin 0) = false ->
  HybridIndex (dataset_points target_nns) max_correspondence_distance = true ->
  let search :=
    SqueezedHybridSearch (dataset_points target_nns) (GetPoints source)
      max_correspondence_distance in
  GetRegistrationResultAndCorrespondences source target target_nns
    max_correspondence_distance transformation
  = ([EvHybridIndex max_correspondence_distance;
      EvHybridSearch (GetPoints source) max_correspondence_distance],
     Ok (mkRegistrationResult transformation (fst search)
           (dsqrt (ddiv (DFin (Rsum (snd search)))
                        (of_nat (length (fst search)))))
           (ddiv (of_nat (length (fst search)))
                 (of_nat (length (GetPoints source)))))).
Proof.
  intros Hok Hmax Hidx search.
  unfold GetRegistrationResultAndCorrespondences.
  rewrite (entry_checks_ok _ _ _ Hok), Hmax.
  cbn [bind emit ret app]. rewrite Hidx. cbn [assert_that bind ret app].
  fold search. destruct search as [c d]. cbn [bind ret app fst snd].
  unfold first. now rewrite length_map.
Qed.


(** The result when the distance is not positive. *)
Lemma GetRegistrationResultAndCorrespondences_short
    (source target : PointCloud) (target_nns : NearestNeighborSearch)
    (max_correspondence_distance : double) (transformation : Tensor) :
  entry_ok source target transformation = true ->
  dle max_correspondence_distance (DFin 0) = true ->
  GetRegistrationResultAndCorrespondences source target target_nns
    max_correspondence_distance transformation
  = ([], Ok (mkRegistrationResult transformation [] (DFin 0) (DFin 0))).
Proof.
  intros Hok Hmax. unfold GetRegistrationResultAndCorrespondences.
  now rewrite (entry_checks_ok _ _ _ Hok), Hmax.
Qed.

(** C8, as the code has it.  For every input that passes the entry checks
    (Float32 points, source and target on one device, a {4,4} Float32
    transformation) with [max_correspondence_distance <= 0], the
    computation returns at once: no call on the index is logged, no error
    is raised, the correspondence set is empty and fitness and RMSE are
    zero. *)
Theorem nonpositive_distance_short_circuits
    (source target : PointCloud) (target_nns : NearestNeighborSearch)
    (max_correspondence_distance : double) (transformation : Tensor) :
  entry_ok source target transformation = true ->
  dle max_correspondence_distance (DFin 0) = true ->
  exists r,
    GetRegistrationResultAndCorrespondences source target target_nns
      max_correspondence_distance transformation = ([], Ok r)
    /\ correspondence_set r = []
    /\ fitness_ r = DFin 0
    /\ inlier_rmse_ r = DFin 0
    /\ transformation_ r = transformation.
Proof.
  intros Hok Hmax. eexists. split.
  - now apply GetRegistrationResultAndCorrespondences_short.
  - repeat split.
Qed.

(** The entry checks come before the short circuit. *)
Lemma entry_checks_come_first
    (source target : PointCloud) (target_nns : NearestNeighborSearch)
    (max_correspondence_distance : double) (transformation : Tensor) :
  entry_ok source target transformation = false ->
  exists msg,
    GetRegistrationResultAndCorrespondences source target target_nns
      max_correspondence_distance transformation
    = ([], Error msg).
Proof.
  intros H. unfold GetRegistrationResultAndCorrespondences.
  destruct (entry_checks_fail _ _ _ H) as [msg ->]. now exists msg.
Qed.

(** C10, as the code has it.  When the distance is positive, the index is
    set and the search returns no pair, no error is raised, the inlier
    RMSE is the NaN of [sqrt(0/0)], and the fitness is 0 for a source
    cloud with at least one point (it is the NaN of [0/0] for an empty
    one).  A NaN RMSE, before or after an iteration, makes the convergence
    test of the loop false. *)
Theorem no_correspondence_gives_nan_rmse
    (source target : PointCloud) (target_nns : NearestNeighborSearch)
    (max_correspondence_distance : double) (transformation : Tensor) :
  entry_ok source target transformation = true ->
  dlt (DFin 0) max_correspondence_distance = true ->
  HybridIndex (dataset_points target_nns) max_correspondence_distance = true ->
  fst (SqueezedHybridSearch (dataset_points target_nns) (GetPoints source)
         max_correspondence_distance) = [] ->
  exists r,
    GetRegistrationResultAndCorrespondences source target target_nns
      max_correspondence_distance transformation
    = ([EvHybridIndex max_correspondence_distance;
        EvHybridSearch (GetPoints source) max_correspondence_distance], Ok r)
    /\ correspondence_set r = []
    /\ inlier_rmse_ r = dsqrt (ddiv (DFin 0) (of_nat 0))
    /\ inlier_rmse_ r = DNaN
    /\ ((1 <= length (GetPoints source))%nat -> fitness_ r = DFin 0)
    /\ (length (GetPoints source) = O -> fitness_ r = DNaN)
    /\ (forall criteria prev_fitness_ prev_inliner_rmse_,
          converged criteria prev_fitness_ prev_inliner_rmse_ r = false)
    /\ (forall criteria r',
          converged criteria (fitness_ r) (inlier_rmse_ r) r' = false).
Proof.
  intros Hok Hmax Hidx Hnone.
  assert (Hle : dle max_correspondence_distance (DFin 0) = false).
  { destruct max_correspondence_distance as [x|[|]|]; simpl in *;
      try reflexivity; try discriminate.
    apply Rltb_true in Hmax. apply Rleb_false. exact Hmax. }
  pose proof (SqueezedHybridSearch_length (dataset_points target_nns)
                (GetPoints source) max_correspondence_distance) as [_ Hlen].
  rewrite Hnone in Hlen. apply length_zero_iff_nil in Hlen.
  eexists. split.
  { apply GetRegistrationResultAndCorrespondences_search; assumption. }
  cbn [correspondence_set fitness_ inlier_rmse_].
  rewrite Hnone, Hlen. cbn [length Rsum fold_right].
  assert (Hnan : dsqrt (ddiv (DFin 0) (of_nat 0)) = DNaN).
  { change (DFin 0) with (of_nat 0). now rewrite ddiv_0_0. }
  split; [reflexivity|]. split; [reflexivity|]. split; [exact Hnan|].
  split.
  { intros HN. unfold of_nat. simpl INR at 1.
    rewrite ddiv_fin.
    - f_equal. unfold Rdiv. ring.
    - apply not_0_INR. lia. }
  split.
  { intros ->. apply ddiv_0_0. }
  split.
  - intros criteria pf pr. unfold converged. cbn [inlier_rmse_].
    rewrite Hnan, dsub_nan_r. cbn [dabs]. rewrite dlt_nan_l.
    apply andb_false_r.
  - intros criteria r'. unfold converged. rewrite Hnan.
    cbn [dsub dabs]. rewrite dlt_nan_l. apply andb_false_r.
Qed.

(** *** Properties of the ICP loop *)

(** The fitness and RMSE that a result reports. *)
Definition metrics (r : RegistrationResult) : double * double :=
  (fitness_ r, inlier_rmse_ r).

(** The [LogDebug] lines of a run: fitness and RMSE on entry to each
    iteration. *)
Fixpoint iteration_metrics (evs : list Event) : list (double * double) :=
  match evs with
  | [] => []
  | EvIteration _ f r :: evs' => (f, r) :: iteration_metrics evs'
  | _ :: evs' => iteration_metrics evs'
  end.

(** The convergence test on two consecutive reports, in the order of the
    criteria: [|fitness_i - fitness_(i-1)| < relative_fitness] and
    [|rmse_i - rmse_(i-1)| < relative_rmse]. *)
Definition metrics_converged (criteria : ICPConvergenceCriteria)
    (prev cur : double * double) : bool :=
  dlt (dabs (dsub (fst cur) (fst prev))) (relative_fitness_ criteria)
  && dlt (dabs (dsub (snd cur) (snd prev))) (relative_rmse_ criteria).

(** The outcome of the test after each iteration of a run. *)
Fixpoint conv_flags (criteria : ICPConvergenceCriteria)
    (ms : list (double * double)) : list bool :=
  match ms with
  | prev :: (cur :: _) as tl =>
      metrics_converged criteria prev cur :: conv_flags criteria tl
  | _ => []
  end.

(** The index can be used: the distance is not positive, so that it is
    never asked, or it is set. *)
Definition index_ready (target : PointCloud)
    (max_correspondence_distance : double) : bool :=
  dle max_correspondence_distance (DFin 0)
  || HybridIndex (GetPoints target) max_correspondence_distance.

(** The estimation returns a transformation on clouds that pass its own
    checks. *)
Definition estimation_total (target : PointCloud) : Prop :=
  forall s c, estimation_ok s target = true ->
              exists u, ComputeTransformation s target c = ([], Ok u).

(** The loop states that the bodies run from a state lead to, with the
    updates that the estimation returned on the way. *)
Inductive icp_chain (target : PointCloud)
    (max_correspondence_distance : double)
  : LoopState -> list Mat4 -> LoopState -> Prop :=
| chain_nil (st : LoopState) :
    icp_chain target max_correspondence_distance st [] st
| chain_cons (st st' st'' : LoopState) (i : nat) (u : Mat4)
    (us : list Mat4) (evs : list Event) :
    ComputeTransformation (source_transformed st) target (corres st)
    = ([], Ok u) ->
    icp_body target (mkNNS (GetPoints target)) max_correspondence_distance
      i st = (evs, Ok st') ->
    icp_chain target max_correspondence_distance st' us st'' ->
    icp_chain target max_correspondence_distance st (u :: us) st''.

(** [update_n ... update_1 init]: every update multiplies on the left. *)
Definition cumulative (updates : list Mat4) (init : Mat4) : Mat4 :=
  fold_left (fun t u => Matmul u t) updates init.

Lemma converged_metrics (criteria : ICPConvergenceCriteria)
    (prev cur : RegistrationResult) :
  converged criteria (fitness_ prev) (inlier_rmse_ prev) cur
  = metrics_converged criteria (metrics prev) (metrics cur).
Proof.
  unfold converged, metrics_converged, metrics; simpl.
  now rewrite (dabs_dsub_sym (fitness_ prev)),
    (dabs_dsub_sym (inlier_rmse_ prev)).
Qed.

Lemma iteration_metrics_app (a b : list Event) :
  iteration_metrics (a ++ b) = iteration_metrics a ++ iteration_metrics b.
Proof.
  induction a as [|[r|q r|i f r] a IH]; simpl; auto. now rewrite IH.
Qed.

Lemma shape_eqb_refl (l : list nat) : shape_eqb l l = true.
Proof. unfold shape_eqb. destruct (list_eq_dec Nat.eq_dec l l); congruence. Qed.

Lemma entry_ok_estimation_ok (s t : PointCloud) (T : Tensor) :
  entry_ok s t T = true -> estimation_ok s t = true.
Proof.
  unfold entry_ok, estimation_ok. intros H.
  repeat (apply andb_prop in H; destruct H as [H ?]).
  repeat (apply andb_true_intro; split); assumption.
Qed.

Lemma entry_ok_step (s t : PointCloud) (T : Tensor) (u : Mat4) :
  entry_ok s t T = true ->
  entry_ok (Transform u s) t (tensor_Matmul u T) = true.
Proof.
  unfold entry_ok. intros H.
  repeat (apply andb_prop in H; destruct H as [H ?]).
  cbn [Transform points_dtype GetDevice tensor_Matmul tensor44 GetShape
       GetDtype]. rewrite shape_eqb_refl.
  repeat (apply andb_true_intro; split); auto.
Qed.

(** The computation returns a result as soon as the checks pass and the
    index is ready; the result carries the transformation handed in. *)
Lemma GetRegistrationResultAndCorrespondences_total
    (s t : PointCloud) (max_correspondence_distance : double) (T : Tensor) :
  entry_ok s t T = true ->
  index_ready t max_correspondence_distance = true ->
  exists evs r,
    GetRegistrationResultAndCorrespondences s t (mkNNS (GetPoints t))
      max_correspondence_distance T = (evs, Ok r)
    /\ transformation_ r = T /\ iteration_metrics evs = [].
Proof.
  intros Hok Hidx. unfold index_ready in Hidx.
  destruct (dle max_correspondence_distance (DFin 0)) eqn:Hmax.
  - do 2 eexists. split.
    + now apply GetRegistrationResultAndCorrespondences_short.
    + split; reflexivity.
  - simpl in Hidx. do 2 eexists. split.
    + now apply GetRegistrationResultAndCorrespondences_search.
    + split; reflexivity.
Qed.

(** A result that is returned carries the transformation handed in. *)
Lemma GetRegistrationResultAndCorrespondences_transformation
    (s t : PointCloud) (nns : NearestNeighborSearch)
    (max_correspondence_distance : double) (T : Tensor)
    (evs : list Event) (r : RegistrationResult) :
  GetRegistrationResultAndCorrespondences s t nns
    max_correspondence_distance T = (evs, Ok r) ->
  transformation_ r = T.
Proof.
  destruct (entry_ok s t T) eqn:Hok.
  - destruct (dle max_correspondence_distance (DFin 0)) eqn:Hmax.
    + rewrite GetRegistrationResultAndCorrespondences_short by assumption.
      intros H; injection H as _ <-. reflexivity.
    + destruct (HybridIndex (dataset_points nns)
                  max_correspondence_distance) eqn:Hidx.
      * rewrite GetRegistrationResultAndCorrespondences_search by assumption.
        intros H; injection H as _ <-. reflexivity.
      * unfold GetRegistrationResultAndCorrespondences.
        rewrite (entry_checks_ok _ _ _ Hok), Hmax.
        cbn [bind emit ret app]. rewrite Hidx. discriminate.
  - destruct (entry_checks_come_first s t nns max_correspondence_distance T
                Hok) as [msg ->]. discriminate.
Qed.

Lemma Transform_Matmul (a b : Mat4) (pc : PointCloud) :
  homogeneous b ->
  Transform a (Transform b pc) = Transform (Matmul a b) pc.
Proof.
  intros Hb. unfold Transform. cbn [GetDevice points_dtype GetPoints
                                     point_normals].
  destruct a as [a0 a1 a2 a3], b as [b0 b1 b2 b3].
  unfold homogeneous in Hb; simpl in Hb; subst b3.
  destruct a0, a1, a2, b0, b1, b2.
  f_equal.
  - rewrite map_map. apply map_ext. intros [x y z].
    cbv [Matmul vrow_mul4 dot4 col4_0 col4_1 col4_2 col4_3 rotation_of
         translation_of head3 mvec3 dot3 vadd3 r0 r1 r2 r3 w0 w1 w2 w3
         row0 row1 row2 vx vy vz].
    f_equal; ring.
  - destruct (point_normals pc) as [ns|]; [|reflexivity].
    f_equal. rewrite map_map. apply map_ext. intros [x y z].
    cbv [Matmul vrow_mul4 dot4 col4_0 col4_1 col4_2 col4_3 rotation_of
         head3 mvec3 dot3 r0 r1 r2 r3 w0 w1 w2 w3 row0 row1 row2 vx vy vz].
    f_equal; ring.
Qed.

Section Loop.

Variable target : PointCloud.
Variable max_correspondence_distance : double.
Variable criteria : ICPConvergenceCriteria.

Let target_nns : NearestNeighborSearch := mkNNS (GetPoints target).

Definition state_ok (st : LoopState) : Prop :=
  entry_ok (source_transformed st) target (transformation_device st) = true.

(** What a body that returns has done. *)
Lemma icp_body_inv (i : nat) (st st' : LoopState) (u : Mat4)
    (evs : list Event) :
  ComputeTransformation (source_transformed st) target (corres st)
  = ([], Ok u) ->
  icp_body target target_nns max_correspondence_distance i st
  = (evs, Ok st') ->
  transformation_device st' = tensor_Matmul u (transformation_device st)
  /\ source_transformed st' = Transform u (source_transformed st)
  /\ transformation_ (result st') = transformation_device st'
  /\ corres st' = correspondence_set (result st')
  /\ iterations st' = S (iterations st).
Proof.
  intros Hu. unfold icp_body. cbn [bind emit]. rewrite Hu. cbn [bind].
  destruct (GetRegistrationResultAndCorrespondences
              (Transform u (source_transformed st)) target target_nns
              max_correspondence_distance
              (tensor_Matmul u (transformation_device st)))
    as [evs2 [r|msg]] eqn:E; cbn [bind ret app]; [|discriminate].
  intros H. injection H as _ <-. cbn.
  repeat split.
  eapply GetRegistrationResultAndCorrespondences_transformation. exact E.
Qed.

(** Under the entry conditions a body returns, and logs one iteration. *)
Lemma icp_body_total (i : nat) (st : LoopState) :
  index_ready target max_correspondence_distance = true ->
  estimation_total target ->
  state_ok st ->
  exists u evs st',
    ComputeTransformation (source_transformed st) target (corres st)
    = ([], Ok u)
    /\ icp_body target target_nns max_correspondence_distance i st
       = (EvIteration i (fitness_ (result st)) (inlier_rmse_ (result st))
            :: evs, Ok st')
    /\ iteration_metrics evs = []
    /\ state_ok st'.
Proof.
  intros Hidx Hest Hst.
  destruct (Hest (source_transformed st) (corres st)
              (entry_ok_estimation_ok _ _ _ Hst)) as [u Hu].
  destruct (GetRegistrationResultAndCorrespondences_total
              (Transform u (source_transformed st)) target
              max_correspondence_distance
              (tensor_Matmul u (transformation_device st))
              (entry_ok_step _ _ _ u Hst) Hidx)
    as (evs2 & r & Hr & _ & Hm).
  exists u, evs2. eexists. split; [exact Hu|].
  unfold icp_body. cbn [bind emit]. rewrite Hu. cbn [bind].
  fold target_nns in Hr. rewrite Hr. cbn [bind ret app].
  rewrite app_nil_r. split; [reflexivity|]. split; [exact Hm|].
  unfold state_ok. cbn. now apply entry_ok_step.
Qed.

Lemma conv_flags_cons (p q : double * double) (l : list (double * double)) :
  conv_flags criteria (p :: q :: l)
  = metrics_converged criteria p q :: conv_flags criteria (q :: l).
Proof. reflexivity. Qed.

Lemma removelast_false_cons (l : list bool) :
  Forall (eq false) (removelast l) ->
  Forall (eq false) (removelast (false :: l)).
Proof.
  destruct l as [|b l]; intros H; [constructor|].
  change (removelast (false :: b :: l)) with (false :: removelast (b :: l)).
  now constructor.
Qed.

(** The loop returns; its log and its final state tell how it went. *)
Lemma icp_loop_spec (remaining i : nat) (st : LoopState) :
  index_ready target max_correspondence_distance = true ->
  estimation_total target ->
  state_ok st ->
  exists evs st' us,
    icp_loop target target_nns max_correspondence_distance criteria
      remaining i st = (evs, Ok st')
    /\ icp_chain target max_correspondence_distance st us st'
    /\ let ms := iteration_metrics evs ++ [metrics (result st')] in
       let flags := conv_flags criteria ms in
       hd_error ms = Some (metrics (result st))
       /\ length us = length flags
       /\ iterations st' = (iterations st + length flags)%nat
       /\ (length flags <= remaining)%nat
       /\ Forall (eq false) (removelast flags)
       /\ ((length flags < remaining)%nat -> last flags false = true).
Proof.
  intros Hidx Hest. revert i st.
  induction remaining as [|remaining IH]; intros i st Hst.
  - exists [], st, []. split; [reflexivity|]. split; [constructor|].
    cbn. repeat split; auto; lia.
  - destruct (icp_body_total i st Hidx Hest Hst)
      as (u & evs1 & st1 & Hu & Hbody & Hm1 & Hst1).
    cbn [icp_loop]. rewrite Hbody. cbn [bind].
    rewrite converged_metrics.
    destruct (metrics_converged criteria (metrics (result st))
                (metrics (result st1))) eqn:Hconv.
    + exists (EvIteration i (fitness_ (result st)) (inlier_rmse_ (result st))
              :: evs1), st1, [u].
      cbn [ret]. rewrite app_nil_r. split; [reflexivity|].
      split; [econstructor; [exact Hu | exact Hbody | constructor]|].
      cbn [iteration_metrics]. rewrite Hm1. cbn [app conv_flags].
      fold (metrics (result st)). rewrite Hconv.
      destruct (icp_body_inv i st st1 u _ Hu Hbody) as (_ & _ & _ & _ & Hit).
      cbn. repeat split; auto; lia.
    + destruct (IH (S i) st1 Hst1) as (evs2 & st2 & us & Hloop & Hchain & HP).
      exists ((EvIteration i (fitness_ (result st)) (inlier_rmse_ (result st))
               :: evs1) ++ evs2), st2, (u :: us).
      rewrite Hloop. split; [reflexivity|].
      split; [econstructor; [exact Hu | exact Hbody | exact Hchain]|].
      cbn zeta in HP. destruct HP as (Hhd & Hlen & Hit & Hle & Hrm & Hlast).
      cbn [app iteration_metrics]. rewrite iteration_metrics_app, Hm1.
      cbn [app].
      destruct (iteration_metrics evs2 ++ [metrics (result st2)])
        as [|m ms] eqn:Ems; [discriminate|].
      cbn in Hhd. injection Hhd as ->.
      rewrite conv_flags_cons. cbn [hd_error]. fold (metrics (result st)).
      rewrite Hconv.
      set (flags := conv_flags criteria (metrics (result st1) :: ms)) in *.
      destruct (icp_body_inv i st st1 u _ Hu Hbody) as (_ & _ & _ & _ & Hit1).
      cbn [length].
      split; [reflexivity|]. split; [lia|]. split; [lia|]. split; [lia|].
      split; [now apply removelast_false_cons|].
      intros Hlt. assert (Hlt' : (length flags < remaining)%nat) by lia.
      specialize (Hlast Hlt'). destruct flags as [|b l]; [discriminate|].
      exact Hlast.
Qed.

Lemma conv_flags_length (ms : list (double * double)) :
  length (conv_flags criteria ms) = pred (length ms).
Proof.
  induction ms as [|p [|q l] IH]; try reflexivity.
  rewrite conv_flags_cons. cbn [length pred] in *. now rewrite IH.
Qed.


End Loop.




Lemma entry_ok_Transform (s t : PointCloud) (T : Tensor) (u : Mat4) :
  entry_ok (Transform u s) t T = entry_ok s t T.
Proof. reflexivity. Qed.

(** Under the entry conditions the loop is entered. *)
Lemma icp_init_total (source target : PointCloud)
    (max_correspondence_distance : double) (init : Tensor) :
  entry_ok source target init = true ->
  index_ready target max_correspondence_distance = true ->
  exists evs0 st0,
    icp_init source target max_correspondence_distance init = (evs0, Ok st0)
    /\ iteration_metrics evs0 = []
    /\ state_ok target st0
    /\ transformation_device st0 = init
    /\ source_transformed st0 = Transform (entries init) source
    /\ transformation_ (result st0) = init
    /\ iterations st0 = O.
Proof.
  intros Hok Hidx.
  destruct (GetRegistrationResultAndCorrespondences_total
              (Transform (entries init) source) target
              max_correspondence_distance init Hok Hidx)
    as (evs0 & r0 & Hr & HT & Hm).
  exists evs0. eexists. unfold icp_init.
  rewrite (entry_checks_ok _ _ _ Hok). cbn [bind]. rewrite Hr.
  cbn [bind ret app]. rewrite app_nil_r.
  split; [reflexivity|]. cbn. repeat split; auto.
Qed.

(** The estimation returns rigid transformations. *)
Definition estimation_rigid (target : PointCloud) : Prop :=
  forall s c u, ComputeTransformation s target c = ([], Ok u) -> homogeneous u.

Lemma icp_chain_invariant (source target : PointCloud)
    (max_correspondence_distance : double) (st st' : LoopState)
    (us : list Mat4) :
  estimation_rigid target ->
  icp_chain target max_correspondence_distance st us st' ->
  homogeneous (entries (transformation_device st)) ->
  source_transformed st
  = Transform (entries (transformation_device st)) source ->
  transformation_ (result st) = transformation_device st ->
  entries (transformation_device st')
  = cumulative us (entries (transformation_device st))
  /\ homogeneous (entries (transformation_device st'))
  /\ source_transformed st'
     = Transform (entries (transformation_device st')) source
  /\ transformation_ (result st') = transformation_device st'.
Proof.
  intros Hrigid Hchain.
  induction Hchain as [st|st st1 st2 i u us evs Hu Hbody Hchain IH];
    intros Hh Hsrc Hres.
  - repeat split; auto.
  - destruct (icp_body_inv target max_correspondence_distance i st st1 u evs
                Hu Hbody) as (HT & HS & HR & _ & _).
    assert (Hh1 : homogeneous (entries (transformation_device st1))).
    { rewrite HT. cbn. apply homogeneous_Matmul; [|exact Hh].
      eapply Hrigid; exact Hu. }
    destruct IH as (H1 & H2 & H3 & H4); auto.
    { rewrite HS, HT, Hsrc. cbn. now apply Transform_Matmul. }
    repeat split; auto.
    rewrite H1, HT. reflexivity.
Qed.

(** The run of [RegistrationICP] under the entry conditions. *)
Lemma RegistrationICP_run_spec (source target : PointCloud)
    (max_correspondence_distance : double) (init : Tensor)
    (criteria : ICPConvergenceCriteria) :
  entry_ok source target init = true ->
  index_ready target max_correspondence_distance = true ->
  estimation_total target ->
  exists evs0 st0 evs st us,
    icp_init source target max_correspondence_distance init = (evs0, Ok st0)
    /\ iteration_metrics evs0 = []
    /\ transformation_device st0 = init
    /\ source_transformed st0 = Transform (entries init) source
    /\ transformation_ (result st0) = init
    /\ iterations st0 = O
    /\ RegistrationICP_run source target max_correspondence_distance init
         criteria = (evs0 ++ evs, Ok st)
    /\ RegistrationICP source target max_correspondence_distance init
         criteria = (evs0 ++ evs, Ok (result st))
    /\ icp_chain target max_correspondence_distance st0 us st
    /\ let ms := iteration_metrics evs ++ [metrics (result st)] in
       let flags := conv_flags criteria ms in
       hd_error ms = Some (metrics (result st0))
       /\ length us = length flags
       /\ iterations st = length flags
       /\ (length flags <= Z.to_nat (max_iteration_ criteria))%nat
       /\ Forall (eq false) (removelast flags)
       /\ ((length flags < Z.to_nat (max_iteration_ criteria))%nat ->
           last flags false = true).
Proof.
  intros Hok Hidx Hest.
  destruct (icp_init_total source target max_correspondence_distance init
              Hok Hidx) as (evs0 & st0 & Hinit & Hm0 & Hst0 & HT0 & HS0 & HR0
                            & Hit0).
  destruct (icp_loop_spec target max_correspondence_distance criteria
              (Z.to_nat (max_iteration_ criteria)) O st0 Hidx Hest Hst0)
    as (evs & st & us & Hloop & Hchain & HP).
  exists evs0, st0, evs, st, us.
  assert (Hrun : RegistrationICP_run source target
                   max_correspondence_distance init criteria
                 = (evs0 ++ evs, Ok st)).
  { unfold RegistrationICP_run. rewrite Hinit. cbn [bind]. now rewrite Hloop. }
  repeat (split; [assumption|]).
  split.
  { unfold RegistrationICP. rewrite Hrun. cbn [bind ret].
    now rewrite app_nil_r. }
  split; [exact Hchain|].
  cbn zeta in *. rewrite Hit0 in HP. exact HP.
Qed.


(** A state that the loop is entered with, or that a body leaves, holds
    the result of the correspondence search on its own cloud and
    transformation. *)
Definition result_is_current (target : PointCloud)
    (max_correspondence_distance : double) (st : LoopState) : Prop :=
  exists evs,
    GetRegistrationResultAndCorrespondences (source_transformed st) target
      (mkNNS (GetPoints target)) max_correspondence_distance
      (transformation_device st) = (evs, Ok (result st)).

Lemma icp_init_result (source target : PointCloud)
    (max_correspondence_distance : double) (init : Tensor)
    (evs : list Event) (st : LoopState) :
  icp_init source target max_correspondence_distance init = (evs, Ok st) ->
  result_is_current target max_correspondence_distance st.
Proof.
  unfold icp_init, result_is_current.
  destruct (entry_checks source target init) as [ev [[]|msg]];
    cbn [bind]; [|discriminate].
  destruct (GetRegistrationResultAndCorrespondences
              (Transform (entries init) source) target
              (mkNNS (GetPoints target)) max_correspondence_distance init)
    as [ev2 [r|msg]] eqn:E; cbn [bind ret app]; [|discriminate].
  intros H. injection H as _ <-. cbn. now exists ev2.
Qed.

Lemma icp_body_result (target : PointCloud)
    (max_correspondence_distance : double) (i : nat) (st st' : LoopState)
    (evs : list Event) :
  icp_body target (mkNNS (GetPoints target)) max_correspondence_distance i st
  = (evs, Ok st') ->
  result_is_current target max_correspondence_distance st'.
Proof.
  unfold icp_body, result_is_current. cbn [bind emit].
  destruct (ComputeTransformation (source_transformed st) target (corres st))
    as [ev1 [u|msg]]; cbn [bind]; [|discriminate].
  destruct (GetRegistrationResultAndCorrespondences
              (Transform u (source_transformed st)) target
              (mkNNS (GetPoints target)) max_correspondence_distance
              (tensor_Matmul u (transformation_device st)))
    as [ev2 [r|msg]] eqn:E; cbn [bind ret app]; [|discriminate].
  intros H. injection H as _ <-. cbn. now exists ev2.
Qed.

Lemma icp_chain_result (target : PointCloud)
    (max_correspondence_distance : double) (st st' : LoopState)
    (us : list Mat4) :
  icp_chain target max_correspondence_distance st us st' ->
  result_is_current target max_correspondence_distance st ->
  result_is_current target max_correspondence_distance st'.
Proof.
  induction 1 as [st|st st1 st2 i u us evs Hu Hbody Hchain IH]; intros H.
  - exact H.
  - apply IH. eapply icp_body_result. exact Hbody.
Qed.

Lemma icp_init_corres (source target : PointCloud)
    (max_correspondence_distance : double) (init : Tensor)
    (evs : list Event) (st : LoopState) :
  icp_init source target max_correspondence_distance init = (evs, Ok st) ->
  corres st = correspondence_set (result st).
Proof.
  unfold icp_init.
  destruct (entry_checks source target init) as [ev [[]|msg]];
    cbn [bind]; [|discriminate].
  destruct (GetRegistrationResultAndCorrespondences
              (Transform (entries init) source) target
              (mkNNS (GetPoints target)) max_correspondence_distance init)
    as [ev2 [r|msg]]; cbn [bind ret app]; [|discriminate].
  intros H. injection H as _ <-. reflexivity.
Qed.

(** A chain of bodies can be cut after any number of them: the next
    update is what the estimation returns on the state reached there. *)
Lemma icp_chain_prefix (target : PointCloud)
    (max_correspondence_distance : double) (st st' : LoopState)
    (us : list Mat4) :
  icp_chain target max_correspondence_distance st us st' ->
  corres st = correspondence_set (result st) ->
  forall k u, nth_error us k = Some u ->
    exists st_k,
      icp_chain target max_correspondence_distance st (firstn k us) st_k
      /\ iterations st_k = (iterations st + k)%nat
      /\ ComputeTransformation (source_transformed st_k) target
           (correspondence_set (result st_k)) = ([], Ok u).
Proof.
  induction 1 as [st|st st1 st2 i u0 us evs Hu Hbody Hchain IH];
    intros Hcor k u Hk.
  - destruct k; discriminate.
  - destruct k as [|k].
    + cbn in Hk. injection Hk as <-. exists st. cbn [firstn].
      split; [constructor|]. split; [lia|]. now rewrite <- Hcor.
    + cbn [nth_error] in Hk.
      destruct (icp_body_inv target max_correspondence_distance i st st1 u0
                  evs Hu Hbody) as (_ & _ & _ & Hcor1 & Hit1).
      destruct (IH Hcor1 k u Hk) as (st_k & Hc & Hit & Hest).
      exists st_k. cbn [firstn].
      split; [econstructor; eassumption|]. split; [lia | exact Hest].
Qed.

(** C6, as the code has it.  Under the entry conditions, with a rigid
    initial transformation (bottom row [0 0 0 1]) and an estimation that
    returns rigid transformations, the run of [RegistrationICP] applies
    one update per logged iteration, at least one when [max_iteration] is
    positive.  Update [k + 1] is what the estimation returns on the
    original source transformed by [update_k ... update_1 init], with the
    correspondences that were searched for under that transformation.
    After every iteration the cumulative transformation is
    [update_i ... update_1 init], every update having been multiplied on
    the left, and the working source cloud is the original source
    transformed by it; the [RegistrationResult] that is returned carries
    this cumulative transformation. *)
Theorem icp_cumulative_transformation (source target : PointCloud)
    (max_correspondence_distance : double) (init : Tensor)
    (criteria : ICPConvergenceCriteria) :
  entry_ok source target init = true ->
  index_ready target max_correspondence_distance = true ->
  estimation_total target ->
  estimation_rigid target ->
  homogeneous (entries init) ->
  exists evs0 st0 evs st updates,
    icp_init source target max_correspondence_distance init = (evs0, Ok st0)
    /\ RegistrationICP_run source target max_correspondence_distance init
         criteria = (evs, Ok st)
    /\ RegistrationICP source target max_correspondence_distance init
         criteria = (evs, Ok (result st))
    /\ icp_chain target max_correspondence_distance st0 updates st
    /\ length updates = iterations st
    /\ length updates = length (iteration_metrics evs)
    /\ ((1 <= max_iteration_ criteria)%Z -> (1 <= length updates)%nat)
    /\ (forall k u, nth_error updates k = Some u ->
          let T_k := cumulative (firstn k updates) (entries init) in
          exists st_k evs_k,
            icp_chain target max_correspondence_distance st0
              (firstn k updates) st_k
            /\ iterations st_k = k
            /\ entries (transformation_device st_k) = T_k
            /\ source_transformed st_k = Transform T_k source
            /\ GetRegistrationResultAndCorrespondences
                 (Transform T_k source) target (mkNNS (GetPoints target))
                 max_correspondence_distance (transformation_device st_k)
               = (evs_k, Ok (result st_k))
            /\ ComputeTransformation (Transform T_k source) target
                 (correspondence_set (result st_k)) = ([], Ok u))
    /\ (forall us' st',
          icp_chain target max_correspondence_distance st0 us' st' ->
          entries (transformation_device st') = cumulative us' (entries init)
          /\ source_transformed st'
             = Transform (entries (transformation_device st')) source
          /\ transformation_ (result st') = transformation_device st')
    /\ source_transformed st
       = Transform (cumulative updates (entries init)) source
    /\ entries (transformation_ (result st))
       = cumulative updates (entries init).
Proof.
  intros Hok Hidx Hest Hrigid Hinit.
  destruct (RegistrationICP_run_spec source target
              max_correspondence_distance init criteria Hok Hidx Hest)
    as (evs0 & st0 & evs & st & us & Hi & Hm0 & HT0 & HS0 & HR0 & Hit0 & Hrun
        & Hreg & Hchain & HP).
  exists evs0, st0, (evs0 ++ evs), st, us.
  cbn zeta in HP. destruct HP as (_ & Hlen & Hit & _ & _ & Hlast).
  assert (Hinv : forall us' st',
             icp_chain target max_correspondence_distance st0 us' st' ->
             entries (transformation_device st') = cumulative us' (entries init)
             /\ source_transformed st'
                = Transform (entries (transformation_device st')) source
             /\ transformation_ (result st') = transformation_device st').
  { intros us' st' Hc.
    destruct (icp_chain_invariant source target max_correspondence_distance
                st0 st' us' Hrigid Hc) as (H1 & _ & H3 & H4).
    - now rewrite HT0.
    - now rewrite HT0.
    - now rewrite HT0.
    - rewrite HT0 in H1. auto. }
  assert (Hlog : length us = length (iteration_metrics (evs0 ++ evs))).
  { rewrite Hlen, conv_flags_length, iteration_metrics_app, Hm0, !length_app.
    cbn [length app]. lia. }
  repeat (split; [assumption|]).
  split; [congruence|]. split; [exact Hlog|].
  split.
  { intros Hmax. rewrite Hlen.
    destruct (conv_flags criteria
                (iteration_metrics evs ++ [metrics (result st)]))
      as [|b flags]; [|cbn [length]; lia].
    assert (Hcontra : false = true) by (apply Hlast; cbn [length]; lia).
    discriminate. }
  split.
  { intros k u Hk T_k.
    destruct (icp_chain_prefix target max_correspondence_distance st0 st us
                Hchain (icp_init_corres _ _ _ _ _ _ Hi) k u Hk)
      as (st_k & Hck & Hitk & Hu).
    destruct (Hinv _ _ Hck) as (HTk & HSk & _).
    destruct (icp_chain_result target max_correspondence_distance st0 st_k
                _ Hck (icp_init_result _ _ _ _ _ _ Hi)) as [evs_k Hcur].
    exists st_k, evs_k. fold T_k in HTk. rewrite HTk in HSk.
    split; [exact Hck|]. split; [lia|]. split; [exact HTk|].
    split; [exact HSk|]. rewrite <- HSk. split; assumption. }
  split; [exact Hinv|].
  destruct (Hinv us st Hchain) as (H1 & H2 & H3).
  split; [now rewrite <- H1 | now rewrite H3].
Qed.

(** *** Entry points against each other *)

(** The loop of [RegistrationICP] is not entered when [max_iteration] is
    not positive: what is left of the function is line for line
    [EvaluateRegistration], errors and calls on the index included. *)
Theorem icp_without_iterations_is_evaluation (source target : PointCloud)
    (max_correspondence_distance : double) (init : Tensor)
    (criteria : ICPConvergenceCriteria) :
  (max_iteration_ criteria <= 0)%Z ->
  RegistrationICP source target max_correspondence_distance init criteria
  = EvaluateRegistration source target max_correspondence_distance init.
Proof.
  intros Hmax.
  unfold RegistrationICP, RegistrationICP_run, icp_init, EvaluateRegistration.
  replace (Z.to_nat (max_iteration_ criteria)) with O by lia.
  destruct (entry_checks source target init) as [ev [[]|msg]];
    cbn [bind]; [|reflexivity].
  destruct (GetRegistrationResultAndCorrespondences
              (Transform (entries init) source) target
              (mkNNS (GetPoints target)) max_correspondence_distance init)
    as [ev2 [r|msg]]; cbn [bind ret icp_loop app result];
    rewrite ?app_nil_r; reflexivity.
Qed.

(** A computation that returns has passed the entry checks. *)
Lemma returned_entry_ok (s t : PointCloud) (nns : NearestNeighborSearch)
    (max_correspondence_distance : double) (T : Tensor) (evs : list Event)
    (r : RegistrationResult) :
  GetRegistrationResultAndCorrespondences s t nns max_correspondence_distance T
  = (evs, Ok r) ->
  entry_ok s t T = true.
Proof.
  intros H. destruct (entry_ok s t T) eqn:Hok; [reflexivity|].
  destruct (entry_checks_come_first s t nns max_correspondence_distance T Hok)
    as [msg Hmsg].
  rewrite Hmsg in H. discriminate.
Qed.

(** The result that [RegistrationICP] returns is consistent with the
    transformation it carries: its correspondences, fitness and RMSE are
    those that [EvaluateRegistration] computes for the original source
    cloud under that transformation. *)
Theorem icp_result_is_evaluation_of_its_transformation
    (source target : PointCloud) (max_correspondence_distance : double)
    (init : Tensor) (criteria : ICPConvergenceCriteria) :
  entry_ok source target init = true ->
  index_ready target max_correspondence_distance = true ->
  estimation_total target ->
  estimation_rigid target ->
  homogeneous (entries init) ->
  exists evs r evs',
    RegistrationICP source target max_correspondence_distance init criteria
    = (evs, Ok r)
    /\ EvaluateRegistration source target max_correspondence_distance
         (transformation_ r) = (evs', Ok r).
Proof.
  intros Hok Hidx Hest Hrigid Hinit.
  destruct (RegistrationICP_run_spec source target
              max_correspondence_distance init criteria Hok Hidx Hest)
    as (evs0 & st0 & evs & st & us & Hi & _ & HT0 & HS0 & HR0 & _ & _
        & Hreg & Hchain & _).
  destruct (icp_chain_invariant source target max_correspondence_distance
              st0 st us Hrigid Hchain) as (_ & _ & Hsrc & Hres).
  { now rewrite HT0. }
  { now rewrite HT0. }
  { now rewrite HT0. }
  destruct (icp_chain_result target max_correspondence_distance st0 st us
              Hchain (icp_init_result _ _ _ _ _ _ Hi)) as [evs' Hcur].
  exists (evs0 ++ evs), (result st), evs'. split; [exact Hreg|].
  pose proof (returned_entry_ok _ _ _ _ _ _ _ Hcur) as Hok'.
  rewrite Hsrc, entry_ok_Transform in Hok'.
  unfold EvaluateRegistration. rewrite Hres.
  rewrite (entry_checks_ok _ _ _ Hok'). cbn [bind].
  rewrite <- Hsrc, Hcur. reflexivity.
Qed.

(** *** Errors on entry *)

(** A check that fails is raised before anything else is done. *)
Theorem failed_entry_check_stops_before_any_work
    (source target : PointCloud) (max_correspondence_distance : double)
    (init : Tensor) (criteria : ICPConvergenceCriteria) :
  entry_ok source target init = false ->
  exists msg,
    EvaluateRegistration source target max_correspondence_distance init
    = ([], Error msg)
    /\ RegistrationICP source target max_correspondence_distance init criteria
       = ([], Error msg).
Proof.
  intros H. destruct (entry_checks_fail _ _ _ H) as [msg Hmsg].
  exists msg. split.
  - unfold EvaluateRegistration. now rewrite Hmsg.
  - unfold RegistrationICP, RegistrationICP_run, icp_init. now rewrite Hmsg.
Qed.

Lemma GetRegistrationResultAndCorrespondences_unset
    (s t : PointCloud) (nns : NearestNeighborSearch)
    (max_correspondence_distance : double) (T : Tensor) :
  entry_ok s t T = true ->
  dle max_correspondence_distance (DFin 0) = false ->
  HybridIndex (dataset_points nns) max_correspondence_distance = false ->
  GetRegistrationResultAndCorrespondences s t nns max_correspondence_distance T
  = ([EvHybridIndex max_correspondence_distance], Error "Index is not set.").
Proof.
  intros Hok Hmax Hidx. unfold GetRegistrationResultAndCorrespondences.
  rewrite (entry_checks_ok _ _ _ Hok), Hmax.
  cbn [bind emit ret app]. rewrite Hidx. reflexivity.
Qed.

(** An index that is not set after [HybridIndex] is fatal: with a positive
    distance both entry points stop on the first call, before any search,
    any iteration and any estimation. *)
Theorem unset_index_is_fatal
    (source target : PointCloud) (max_correspondence_distance : double)
    (init : Tensor) (criteria : ICPConvergenceCriteria) :
  entry_ok source target init = true ->
  dle max_correspondence_distance (DFin 0) = false ->
  HybridIndex (GetPoints target) max_correspondence_distance = false ->
  EvaluateRegistration source target max_correspondence_distance init
  = ([EvHybridIndex max_correspondence_distance], Error "Index is not set.")
  /\ RegistrationICP source target max_correspondence_distance init criteria
     = ([EvHybridIndex max_correspondence_distance],
        Error "Index is not set.").
Proof.
  intros Hok Hmax Hidx.
  assert (Hg : GetRegistrationResultAndCorrespondences
                 (Transform (entries init) source) target
                 (mkNNS (GetPoints target)) max_correspondence_distance init
               = ([EvHybridIndex max_correspondence_distance],
                  Error "Index is not set."))
    by now apply GetRegistrationResultAndCorrespondences_unset.
  split.
  - unfold EvaluateRegistration.
    now rewrite (entry_checks_ok _ _ _ Hok), Hg.
  - unfold RegistrationICP, RegistrationICP_run, icp_init.
    now rewrite (entry_checks_ok _ _ _ Hok), Hg.
Qed.

(** *** Calls on the index *)

(** The numbers of [HybridIndex] and of [SqueezedHybridSearch] calls in a
    log. *)
Fixpoint index_calls (evs : list Event) : nat :=
  match evs with
  | [] => O
  | EvHybridIndex _ :: evs' => S (index_calls evs')
  | _ :: evs' => index_calls evs'
  end.

Fixpoint search_calls (evs : list Event) : nat :=
  match evs with
  | [] => O
  | EvHybridSearch _ _ :: evs' => S (search_calls evs')
  | _ :: evs' => search_calls evs'
  end.

Lemma index_calls_app (a b : list Event) :
  index_calls (a ++ b) = (index_calls a + index_calls b)%nat.
Proof.
  induction a as [|[r|q r|i f r] a IH]; simpl; auto.
Qed.

Lemma search_calls_app (a b : list Event) :
  search_calls (a ++ b) = (search_calls a + search_calls b)%nat.
Proof.
  induction a as [|[r|q r|i f r] a IH]; simpl; auto.
Qed.

(** One body under a positive distance: one build of the index, one
    search. *)
Lemma icp_body_searches (target : PointCloud)
    (max_correspondence_distance : double) (i : nat) (st : LoopState) :
  dle max_correspondence_distance (DFin 0) = false ->
  HybridIndex (GetPoints target) max_correspondence_distance = true ->
  estimation_total target ->
  state_ok target st ->
  exists evs st',
    icp_body target (mkNNS (GetPoints target)) max_correspondence_distance
      i st = (evs, Ok st')
    /\ state_ok target st'
    /\ iterations st' = S (iterations st)
    /\ length (iteration_metrics evs) = 1%nat
    /\ index_calls evs = 1%nat
    /\ search_calls evs = 1%nat.
Proof.
  intros Hmax Hidx Hest Hst.
  destruct (Hest (source_transformed st) (corres st)
              (entry_ok_estimation_ok _ _ _ Hst)) as [u Hu].
  do 2 eexists. split.
  - unfold icp_body. cbn [bind emit]. rewrite Hu. cbn [bind].
    rewrite GetRegistrationResultAndCorrespondences_search;
      [|now apply entry_ok_step | exact Hmax | exact Hidx].
    cbn [bind ret app]. reflexivity.
  - cbn. split; [now apply entry_ok_step|]. repeat split.
Qed.

Lemma icp_loop_searches (target : PointCloud)
    (max_correspondence_distance : double) (criteria : ICPConvergenceCriteria)
    (remaining i : nat) (st : LoopState) :
  dle max_correspondence_distance (DFin 0) = false ->
  HybridIndex (GetPoints target) max_correspondence_distance = true ->
  estimation_total target ->
  state_ok target st ->
  exists evs st',
    icp_loop target (mkNNS (GetPoints target)) max_correspondence_distance
      criteria remaining i st = (evs, Ok st')
    /\ (iterations st' = iterations st + length (iteration_metrics evs))%nat
    /\ index_calls evs = length (iteration_metrics evs)
    /\ search_calls evs = length (iteration_metrics evs).
Proof.
  intros Hmax Hidx Hest. revert i st.
  induction remaining as [|remaining IH]; intros i st Hst.
  - exists [], st. cbn. repeat split; lia.
  - destruct (icp_body_searches target max_correspondence_distance i st
                Hmax Hidx Hest Hst)
      as (evs1 & st1 & Hbody & Hst1 & Hit & Hlog & Hic & Hsc).
    cbn [icp_loop]. rewrite Hbody. cbn [bind].
    destruct (converged criteria (fitness_ (result st))
                (inlier_rmse_ (result st)) (result st1)).
    + exists (evs1 ++ []), st1. split; [reflexivity|].
      rewrite app_nil_r. repeat split; lia.
    + destruct (IH (S i) st1 Hst1) as (evs2 & st2 & Hloop & Hit2 & Hic2 & Hsc2).
      exists (evs1 ++ evs2), st2. rewrite Hloop. split; [reflexivity|].
      rewrite iteration_metrics_app, length_app, index_calls_app,
        search_calls_app.
      repeat split; lia.
Qed.

(** With a positive distance [RegistrationICP] builds the index anew
    before every search: once on entry and once in every iteration, so
    that a run of [k] iterations makes [k + 1] calls of [HybridIndex] and
    [k + 1] searches. *)
Theorem icp_builds_the_index_for_every_search
    (source target : PointCloud) (max_correspondence_distance : double)
    (init : Tensor) (criteria : ICPConvergenceCriteria) :
  entry_ok source target init = true ->
  dle max_correspondence_distance (DFin 0) = false ->
  HybridIndex (GetPoints target) max_correspondence_distance = true ->
  estimation_total target ->
  exists evs r,
    RegistrationICP source target max_correspondence_distance init criteria
    = (evs, Ok r)
    /\ index_calls evs = S (length (iteration_metrics evs))
    /\ search_calls evs = S (length (iteration_metrics evs)).
Proof.
  intros Hok Hmax Hidx Hest.
  assert (Hready : index_ready target max_correspondence_distance = true).
  { unfold index_ready. rewrite Hidx. apply orb_true_r. }
  destruct (icp_init_total source target max_correspondence_distance init
              Hok Hready) as (evs0 & st0 & Hinit & _ & Hst0 & _).
  assert (Hev0 : evs0 = [EvHybridIndex max_correspondence_distance;
                         EvHybridSearch
                           (GetPoints (Transform (entries init) source))
                           max_correspondence_distance]).
  { revert Hinit. unfold icp_init.
    rewrite (entry_checks_ok _ _ _ Hok). cbn [bind].
    rewrite GetRegistrationResultAndCorrespondences_search;
      [|exact Hok | exact Hmax | exact Hidx].
    cbn [bind ret app]. intros H. now injection H as <- _. }
  destruct (icp_loop_searches target max_correspondence_distance criteria
              (Z.to_nat (max_iteration_ criteria)) O st0 Hmax Hidx Hest Hst0)
    as (evs & st & Hloop & _ & Hic & Hsc).
  exists (evs0 ++ evs), (result st). split.
  - unfold RegistrationICP, RegistrationICP_run.
    rewrite Hinit. cbn [bind]. rewrite Hloop. cbn [bind ret].
    now rewrite app_nil_r.
  - rewrite iteration_metrics_app, length_app, index_calls_app,
      search_calls_app, Hev0, Hic, Hsc.
    split; reflexivity.
Qed.

(** *** A distance that is not positive, through the loop *)





End NearestNeighborSearch.

(** *** Instances to run the definitions with *)

(** The point-to-point estimation as a [TransformationEstimation]. *)
#[export] Instance PointToPoint_estimation (SVD : Mat3 -> Mat3 * Vec3 * Mat3)
  : TransformationEstimation := {
  ComputeRMSE := PointToPoint.ComputeRMSE;
  ComputeTransformation := PointToPoint.ComputeTransformation SVD
}.

Lemma PointToPoint_total (SVD : Mat3 -> Mat3 * Vec3 * Mat3)
    (target : PointCloud) :
  estimation_total (estimation := PointToPoint_estimation SVD) target.
Proof.
  intros s c Hok. cbn [ComputeTransformation PointToPoint_estimation].
  unfold PointToPoint.ComputeTransformation, estimation_checks.
  unfold estimation_ok in Hok.
  apply andb_prop in Hok as [Hok H3]. apply andb_prop in Hok as [H1 H2].
  rewrite H1, H2, H3. cbn [assert_that bind ret app].
  destruct (SVD _) as [[U D] VT]. eexists. reflexivity.
Qed.

Lemma PointToPoint_rigid (SVD : Mat3 -> Mat3 * Vec3 * Mat3)
    (target : PointCloud) :
  estimation_rigid (estimation := PointToPoint_estimation SVD) target.
Proof.
  intros s c u. cbn [ComputeTransformation PointToPoint_estimation].
  unfold PointToPoint.ComputeTransformation, estimation_checks.
  destruct (Dtype_eqb (points_dtype s) Float32); [|discriminate].
  destruct (Dtype_eqb (points_dtype target) Float32); [|discriminate].
  destruct (Device_eqb (GetDevice target) (GetDevice s)); [|discriminate].
  cbn [assert_that bind ret app].
  destruct (SVD _) as [[U D] VT]. intros H. injection H as <-.
  apply homogeneous_RtToTransformation.
Qed.

(** An index that is always set. *)
Definition ex_HybridIndex (dataset : list Vec3) (radius : double) : bool :=
  true.

Definition sqdist (p q : Vec3) : R := dot3 (vsub3 p q) (vsub3 p q).

(** A linear scan for the nearest data point. *)
Fixpoint nearest (dataset : list Vec3) (q : Vec3) (idx : nat)
    (best : option (nat * R)) : option (nat * R) :=
  match dataset with
  | [] => best
  | p :: dataset' =>
      let d := sqdist p q in
      let best' :=
        match best with
        | None => Some (idx, d)
        | Some (j, dj) => if Rltb d dj then Some (idx, d) else best
        end in
      nearest dataset' q (S idx) best'
  end.

(** The nearest data point if it lies within the radius, with its squared
    distance. *)
Definition ex_HybridSearch1 (dataset : list Vec3) (radius : double)
    (q : Vec3) : option (nat * R) :=
  let within (d : R) :=
    match radius with
    | DFin r => Rleb d (r * r)
    | DInf neg => negb neg
    | DNaN => false
    end in
  match nearest dataset q O None with
  | Some (j, d) => if within d then Some (j, d) else None
  | None => None
  end.

(** A cloud on another device, an empty cloud, and a cloud far away. *)
Definition ex_cuda_cloud : PointCloud :=
  mkPointCloud (CUDA 0) Float32 [mkVec3 0 0 0] None.

Definition ex_empty_cloud : PointCloud := mkPointCloud (CPU 0) Float32 [] None.

Definition ex_far_cloud : PointCloud :=
  mkPointCloud (CPU 0) Float32 [mkVec3 10 0 0] None.

Definition ex_origin_cloud : PointCloud :=
  mkPointCloud (CPU 0) Float32 [mkVec3 0 0 0] None.

Definition ex_criteria : ICPConvergenceCriteria :=
  mkICPConvergenceCriteria (DFin (1 / 1000000)) (DFin (1 / 1000000)) 30.

Lemma dle_0_0 : dle (DFin 0) (DFin 0) = true.
Proof. apply Rleb_true. lra. Qed.

Lemma dle_1_0 : dle (DFin 1) (DFin 0) = false.
Proof. apply Rleb_false. lra. Qed.

Lemma dlt_0_1 : dlt (DFin 0) (DFin 1) = true.
Proof. apply Rltb_true. lra. Qed.

(** Nothing within distance 1 of the far point. *)
Lemma ex_far_search :
  SqueezedHybridSearch ex_HybridSearch1 (GetPoints ex_origin_cloud)
    (GetPoints ex_far_cloud) (DFin 1) = ([], []).
Proof.
  unfold SqueezedHybridSearch, ex_HybridSearch1.
  cbn [GetPoints ex_far_cloud ex_origin_cloud length seq combine flat_map
       nearest snd fst app].
  replace (Rleb _ _) with false; [reflexivity|].
  symmetry. apply Rleb_false.
  cbv [sqdist dot3 vsub3 vx vy vz]. lra.
Qed.


Lemma nonpositive_distance_short_circuits_witness :
  entry_ok PointToPoint.ex_cloud PointToPoint.ex_cloud (tensor44 Eye4) = true
  /\ dle (DFin 0) (DFin 0) = true
  /\ exists r,
       GetRegistrationResultAndCorrespondences ex_HybridIndex
         ex_HybridSearch1 PointToPoint.ex_cloud PointToPoint.ex_cloud
         (mkNNS (GetPoints PointToPoint.ex_cloud)) (DFin 0) (tensor44 Eye4)
       = ([], Ok r)
       /\ correspondence_set r = []
       /\ fitness_ r = DFin 0
       /\ inlier_rmse_ r = DFin 0
       /\ transformation_ r = tensor44 Eye4.
Proof.
  split; [reflexivity|]. split; [exact dle_0_0|].
  exact (nonpositive_distance_short_circuits ex_HybridIndex ex_HybridSearch1
           PointToPoint.ex_cloud PointToPoint.ex_cloud
           (mkNNS (GetPoints PointToPoint.ex_cloud)) (DFin 0) (tensor44 Eye4)
           eq_refl dle_0_0).
Defined.

(** C8 does not hold for every input: with the target on another device
    the distance 0 does not lead to the short circuit but to the fatal
    error of the device check. *)
Lemma nonpositive_distance_device_mismatch :
  dle (DFin 0) (DFin 0) = true
  /\ exists msg,
       GetRegistrationResultAndCorrespondences ex_HybridIndex
         ex_HybridSearch1 PointToPoint.ex_cloud ex_cuda_cloud
         (mkNNS (GetPoints ex_cuda_cloud)) (DFin 0) (tensor44 Eye4)
       = ([], Error msg).
Proof.
  split; [exact dle_0_0|]. eexists. reflexivity.
Qed.

Lemma no_correspondence_gives_nan_rmse_witness :
  entry_ok ex_far_cloud ex_origin_cloud (tensor44 Eye4) = true
  /\ dlt (DFin 0) (DFin 1) = true
  /\ fst (SqueezedHybridSearch ex_HybridSearch1 (GetPoints ex_origin_cloud)
            (GetPoints ex_far_cloud) (DFin 1)) = []
  /\ exists r,
       GetRegistrationResultAndCorrespondences ex_HybridIndex
         ex_HybridSearch1 ex_far_cloud ex_origin_cloud
         (mkNNS (GetPoints ex_origin_cloud)) (DFin 1) (tensor44 Eye4)
       = ([EvHybridIndex (DFin 1);
           EvHybridSearch (GetPoints ex_far_cloud) (DFin 1)], Ok r)
       /\ inlier_rmse_ r = DNaN /\ fitness_ r = DFin 0.
Proof.
  assert (Hs : fst (SqueezedHybridSearch ex_HybridSearch1
                      (GetPoints ex_origin_cloud) (GetPoints ex_far_cloud)
                      (DFin 1)) = [])
    by now rewrite ex_far_search.
  split; [reflexivity|]. split; [exact dlt_0_1|]. split; [exact Hs|].
  destruct (no_correspondence_gives_nan_rmse ex_HybridIndex ex_HybridSearch1
              ex_far_cloud ex_origin_cloud (mkNNS (GetPoints ex_origin_cloud))
              (DFin 1) (tensor44 Eye4) eq_refl dlt_0_1 eq_refl Hs)
    as (r & Hr & _ & _ & Hnan & Hfit & _).
  exists r. split; [exact Hr|]. split; [exact Hnan|].
  apply Hfit. simpl. lia.
Defined.

(** C10 does not hold for every source cloud: for an empty one the search
    returns no pair and the fitness is the NaN of [0/0], not 0. *)
Lemma empty_source_fitness_is_nan :
  dlt (DFin 0) (DFin 1) = true
  /\ exists r,
       GetRegistrationResultAndCorrespondences ex_HybridIndex
         ex_HybridSearch1 ex_empty_cloud ex_origin_cloud
         (mkNNS (GetPoints ex_origin_cloud)) (DFin 1) (tensor44 Eye4)
       = ([EvHybridIndex (DFin 1);
           EvHybridSearch (GetPoints ex_empty_cloud) (DFin 1)], Ok r)
       /\ correspondence_set r = []
       /\ fitness_ r = DNaN
       /\ fitness_ r <> DFin 0.
Proof.
  split; [exact dlt_0_1|]. eexists. split.
  - apply GetRegistrationResultAndCorrespondences_search;
      [reflexivity | exact dle_1_0 | reflexivity].
  - cbn [correspondence_set fitness_ SqueezedHybridSearch GetPoints
         ex_empty_cloud length seq combine flat_map map fst].
    rewrite ddiv_0_0. repeat split. discriminate.
Qed.

(** An estimation that always returns the identity. *)
Definition identity_estimation : TransformationEstimation := {|
  ComputeRMSE := fun _ _ _ => ret (DFin 0);
  ComputeTransformation := fun _ _ _ => ret Eye4
|}.

Lemma dlt_zero_delta (threshold : R) :
  dlt (dabs (dsub (DFin 0) (DFin 0))) (DFin threshold) = Rltb 0 threshold.
Proof.
  cbn [dsub dabs dlt]. replace (Rabs (0 - 0)) with 0; [reflexivity|].
  rewrite Rminus_diag. symmetry. apply Rabs_R0.
Qed.

(** With a distance of 0 every result is the short circuit, fitness and
    RMSE stay at zero: positive thresholds stop the loop after one
    iteration. *)
Example ex_icp_converges :
  exists evs st,
    RegistrationICP_run ex_HybridIndex ex_HybridSearch1
      (estimation := identity_estimation)
      ex_origin_cloud ex_origin_cloud (DFin 0) (tensor44 Eye4) ex_criteria
    = (evs, Ok st)
    /\ evs = [EvIteration 0 (DFin 0) (DFin 0)]
    /\ iterations st = 1%nat.
Proof.
  do 2 eexists. split; [|split].
  - unfold RegistrationICP_run, icp_init.
    rewrite entry_checks_ok by reflexivity.
    rewrite GetRegistrationResultAndCorrespondences_short
      by (reflexivity || exact dle_0_0).
    cbn [bind ret app]. change (Z.to_nat (max_iteration_ ex_criteria))
      with 30%nat.
    cbn [icp_loop icp_body bind emit ret app ComputeTransformation
         identity_estimation source_transformed transformation_device
         result corres iterations].
    rewrite GetRegistrationResultAndCorrespondences_short
      by (reflexivity || exact dle_0_0).
    cbn [bind ret app result fitness_ inlier_rmse_].
    unfold converged. cbn [fitness_ inlier_rmse_ relative_fitness_
                             relative_rmse_ ex_criteria].
    rewrite !dlt_zero_delta.
    replace (Rltb 0 (1 / 1000000)) with true
      by (symmetry; apply Rltb_true; lra).
    cbn [andb ret]. reflexivity.
  - reflexivity.
  - reflexivity.
Qed.

(** With thresholds of zero the test never holds: the loop runs the three
    iterations it is allowed. *)
Example ex_icp_cap :
  exists evs st,
    RegistrationICP_run ex_HybridIndex ex_HybridSearch1
      (estimation := identity_estimation)
      ex_origin_cloud ex_origin_cloud (DFin 0) (tensor44 Eye4)
      (mkICPConvergenceCriteria (DFin 0) (DFin 0) 3)
    = (evs, Ok st)
    /\ evs = [EvIteration 0 (DFin 0) (DFin 0);
              EvIteration 1 (DFin 0) (DFin 0);
              EvIteration 2 (DFin 0) (DFin 0)]
    /\ iterations st = 3%nat.
Proof.
  do 2 eexists. split; [|split].
  - unfold RegistrationICP_run, icp_init.
    rewrite entry_checks_ok by reflexivity.
    rewrite GetRegistrationResultAndCorrespondences_short
      by (reflexivity || exact dle_0_0).
    cbn [bind ret app]. change (Z.to_nat _) with 3%nat.
    do 3 (cbn [icp_loop icp_body bind emit ret app ComputeTransformation
               identity_estimation source_transformed transformation_device
               result corres iterations];
          rewrite GetRegistrationResultAndCorrespondences_short
            by (reflexivity || exact dle_0_0);
          cbn [bind ret app result fitness_ inlier_rmse_];
          unfold converged;
          cbn [fitness_ inlier_rmse_ relative_fitness_ relative_rmse_];
          rewrite !dlt_zero_delta;
          replace (Rltb 0 0) with false by (symmetry; apply Rltb_false; lra);
          cbn [andb]).
    cbn [icp_loop ret app]. reflexivity.
  - reflexivity.
  - reflexivity.
Qed.


Lemma estimation_checks_ok (source target : PointCloud) :
  estimation_ok source target = true ->
  estimation_checks source target = ([], Ok tt).
Proof.
  unfold estimation_ok, estimation_checks. intros H.
  apply andb_prop in H as [H H3]. apply andb_prop in H as [H1 H2].
  now rewrite H1, H2, H3.
Qed.

(** *** One point a step away from its target

    The source has one point at the origin, the target one point at
    (1, 0, 0): the point-to-point update is the translation by (1, 0, 0). *)

Definition ex_step_cloud : PointCloud :=
  mkPointCloud (CPU 0) Float32 [mkVec3 1 0 0] None.

(** A {4,4} Float32 tensor that passes the entry checks and is not a
    rigid transformation: its last row is [0 0 0 2]. *)
Definition ex_nonrigid_init : Tensor :=
  tensor44 (mkMat4 (mkVec4 1 0 0 0) (mkVec4 0 1 0 0) (mkVec4 0 0 1 0)
                   (mkVec4 0 0 0 2)).

Definition ex_step_update : Mat4 :=
  RtToTransformation Eye3 (vsub3 (mkVec3 1 0 0) (mkVec3 0 0 0)).

Lemma dle_2_0 : dle (DFin 2) (DFin 0) = false.
Proof. apply Rleb_false. lra. Qed.

(** One data point within the radius of one query. *)
Lemma single_search (p q : Vec3) (r : R) :
  sqdist p q <= r * r ->
  SqueezedHybridSearch ex_HybridSearch1 [p] [q] (DFin r)
  = ([(O, O)], [sqdist p q]).
Proof.
  intros H. unfold SqueezedHybridSearch, ex_HybridSearch1.
  cbn [length seq combine flat_map nearest snd fst app].
  replace (Rleb (sqdist p q) (r * r)) with true
    by (symmetry; now apply Rleb_true).
  reflexivity.
Qed.

Lemma correction_Eye3 : PointToPoint.correction Eye3 Eye3 = Eye3.
Proof.
  unfold PointToPoint.correction.
  replace (Rltb (det3 Eye3 * det3 (mtrans3 Eye3)) 0) with false;
    [reflexivity|].
  symmetry. apply Rltb_false. rewrite det3_mtrans3, det3_Eye3. lra.
Qed.

Lemma Mean0_single (p : Vec3) : Mean0 [p] = p.
Proof.
  destruct p as [x y z].
  cbv [Mean0 length INR vsum_list fold_right vadd3 vscale3 vzero3 vx vy vz].
  f_equal; field.
Qed.

(** The update estimated from one pair is the translation that carries
    the source point onto the target point. *)
Lemma single_pair_update (s t : PointCloud) (p q : Vec3) :
  GetPoints s = [p] -> GetPoints t = [q] ->
  estimation_ok s t = true ->
  PointToPoint.ComputeTransformation PointToPoint.diag_svd s t [(O, O)]
  = ([], Ok (RtToTransformation Eye3 (vsub3 q p))).
Proof.
  intros Hs Ht Hok. unfold PointToPoint.ComputeTransformation.
  rewrite (estimation_checks_ok _ _ Hok). cbn [bind ret app].
  rewrite Hs, Ht.
  cbn [IndexGet first second map fst snd nth].
  unfold PointToPoint.diag_svd.
  rewrite correction_Eye3, !mmul3_Eye3_l, !Mean0_single.
  replace (mvec3 Eye3 p) with p; [reflexivity|].
  destruct p as [a b c].
  cbv [mvec3 dot3 Eye3 diag3 row0 row1 row2 vx vy vz].
  f_equal; ring.
Qed.

Lemma Transform_identity_origin :
  Transform (entries (tensor44 Eye4)) ex_origin_cloud = ex_origin_cloud.
Proof.
  unfold Transform, ex_origin_cloud. cbn [GetDevice points_dtype GetPoints
                                          point_normals map entries tensor44].
  do 2 f_equal.
  cbv [Eye4 rotation_of translation_of head3 mvec3 dot3 vadd3 r0 r1 r2 r3
       w0 w1 w2 w3 row0 row1 row2 vx vy vz].
  f_equal; ring.
Qed.

Lemma Transform_nonrigid_origin :
  Transform (entries ex_nonrigid_init) ex_origin_cloud = ex_origin_cloud.
Proof.
  unfold Transform, ex_origin_cloud. cbn [GetDevice points_dtype GetPoints
                                          point_normals map entries tensor44
                                          ex_nonrigid_init].
  do 2 f_equal.
  cbv [rotation_of translation_of head3 mvec3 dot3 vadd3 r0 r1 r2 r3
       w0 w1 w2 w3 row0 row1 row2 vx vy vz].
  f_equal; ring.
Qed.

Lemma Transform_step_origin :
  Transform ex_step_update ex_origin_cloud = ex_step_cloud.
Proof.
  unfold Transform, ex_origin_cloud, ex_step_cloud, ex_step_update.
  cbn [GetDevice points_dtype GetPoints point_normals map].
  rewrite rotation_of_RtToTransformation, translation_of_RtToTransformation.
  do 2 f_equal.
  cbv [Eye3 diag3 mvec3 dot3 vadd3 vsub3 row0 row1 row2 vx vy vz].
  f_equal; ring.
Qed.

(** The search on entry finds the one pair, a step apart. *)
Lemma ex_step_entry_result (T : Tensor) :
  entry_ok ex_origin_cloud ex_step_cloud T = true ->
  GetRegistrationResultAndCorrespondences ex_HybridIndex ex_HybridSearch1
    ex_origin_cloud ex_step_cloud (mkNNS (GetPoints ex_step_cloud)) (DFin 2) T
  = ([EvHybridIndex (DFin 2);
      EvHybridSearch (GetPoints ex_origin_cloud) (DFin 2)],
     Ok (mkRegistrationResult T [(O, O)]
           (dsqrt (ddiv (DFin (Rsum [sqdist (mkVec3 1 0 0) (mkVec3 0 0 0)]))
                        (of_nat 1)))
           (ddiv (of_nat 1) (of_nat 1)))).
Proof.
  intros Hok.
  rewrite GetRegistrationResultAndCorrespondences_search;
    [|exact Hok | exact dle_2_0 | reflexivity].
  cbn [dataset_points GetPoints ex_step_cloud ex_origin_cloud].
  rewrite single_search; [reflexivity|].
  cbv [sqdist dot3 vsub3 vx vy vz]. lra.
Qed.

(** The search after the update finds the pair again, now at distance 0. *)
Lemma ex_step_next_result (T : Tensor) :
  entry_ok ex_step_cloud ex_step_cloud T = true ->
  GetRegistrationResultAndCorrespondences ex_HybridIndex ex_HybridSearch1
    ex_step_cloud ex_step_cloud (mkNNS (GetPoints ex_step_cloud)) (DFin 2) T
  = ([EvHybridIndex (DFin 2);
      EvHybridSearch (GetPoints ex_step_cloud) (DFin 2)],
     Ok (mkRegistrationResult T [(O, O)]
           (dsqrt (ddiv (DFin (Rsum [sqdist (mkVec3 1 0 0) (mkVec3 1 0 0)]))
                        (of_nat 1)))
           (ddiv (of_nat 1) (of_nat 1)))).
Proof.
  intros Hok.
  rewrite GetRegistrationResultAndCorrespondences_search;
    [|exact Hok | exact dle_2_0 | reflexivity].
  cbn [dataset_points GetPoints ex_step_cloud].
  rewrite single_search; [reflexivity|].
  cbv [sqdist dot3 vsub3 vx vy vz]. lra.
Qed.

(** C6 does not hold for every transformation that [RegistrationICP]
    accepts as [init].  The tensor with last row [0 0 0 2] passes the
    checks; the one iteration that is allowed applies the translation by
    (1, 0, 0), and the cumulative transformation is [update_1 init].  But
    the working cloud holds the point (1, 0, 0), while the original source
    transformed by the cumulative transformation holds (2, 0, 0). *)
Lemma nonrigid_init_breaks_the_working_cloud :
  entry_ok ex_origin_cloud ex_step_cloud ex_nonrigid_init = true
  /\ ~ homogeneous (entries ex_nonrigid_init)
  /\ exists evs st,
       RegistrationICP_run ex_HybridIndex ex_HybridSearch1
         (estimation := PointToPoint_estimation PointToPoint.diag_svd)
         ex_origin_cloud ex_step_cloud (DFin 2) ex_nonrigid_init
         (mkICPConvergenceCriteria (DFin 0) (DFin 0) 1)
       = (evs, Ok st)
       /\ iterations st = 1%nat
       /\ entries (transformation_device st)
          = Matmul ex_step_update (entries ex_nonrigid_init)
       /\ source_transformed st = ex_step_cloud
       /\ GetPoints (Transform (entries (transformation_device st))
                       ex_origin_cloud)
          = [mkVec3 2 0 0]
       /\ source_transformed st
          <> Transform (entries (transformation_device st)) ex_origin_cloud.
Proof.
  split; [reflexivity|]. split.
  { unfold homogeneous. cbn. intros H. injection H. lra. }
  assert (Hu : PointToPoint.ComputeTransformation PointToPoint.diag_svd
                 ex_origin_cloud ex_step_cloud [(O, O)]
               = ([], Ok ex_step_update)).
  { apply single_pair_update; reflexivity. }
  assert (Hpts : GetPoints (Transform (Matmul ex_step_update
                                         (entries ex_nonrigid_init))
                              ex_origin_cloud) = [mkVec3 2 0 0]).
  { unfold Transform, ex_origin_cloud, ex_step_update, ex_nonrigid_init.
    cbn [GetPoints map entries tensor44].
    f_equal.
    cbv [RtToTransformation snoc3 Eye3 diag3 Matmul vrow_mul4 dot4 col4_0
         col4_1 col4_2 col4_3 rotation_of translation_of head3 mvec3 dot3
         vadd3 vsub3 r0 r1 r2 r3 w0 w1 w2 w3 row0 row1 row2 vx vy vz].
    f_equal; ring. }
  do 2 eexists. split.
  { unfold RegistrationICP_run, icp_init.
    rewrite entry_checks_ok by reflexivity. cbn [bind].
    rewrite Transform_nonrigid_origin.
    rewrite ex_step_entry_result by reflexivity.
    cbn [bind ret app]. change (Z.to_nat _) with 1%nat.
    cbn [icp_loop icp_body bind emit ret app ComputeTransformation
         PointToPoint_estimation source_transformed transformation_device
         result corres iterations correspondence_set].
    rewrite Hu. cbn [bind app]. rewrite Transform_step_origin.
    rewrite ex_step_next_result by reflexivity.
    cbn [bind ret app].
    match goal with
    | |- context [if ?c then _ else _] => destruct c
    end; reflexivity. }
  cbn [iterations transformation_device source_transformed entries
       tensor_Matmul tensor44].
  split; [reflexivity|]. split; [reflexivity|]. split; [reflexivity|].
  split; [exact Hpts|].
  intros H. apply (f_equal GetPoints) in H. rewrite Hpts in H.
  cbn [GetPoints ex_step_cloud] in H. injection H. lra.
Qed.

Lemma icp_cumulative_transformation_witness :
  entry_ok ex_origin_cloud ex_step_cloud (tensor44 Eye4) = true
  /\ index_ready ex_HybridIndex ex_step_cloud (DFin 2) = true
  /\ homogeneous (entries (tensor44 Eye4))
  /\ exists evs st updates rest,
       RegistrationICP ex_HybridIndex ex_HybridSearch1
         (estimation := PointToPoint_estimation PointToPoint.diag_svd)
         ex_origin_cloud ex_step_cloud (DFin 2) (tensor44 Eye4) ex_criteria
       = (evs, Ok (result st))
       /\ updates = ex_step_update :: rest
       /\ length updates = length (iteration_metrics evs)
       /\ entries (transformation_ (result st)) = cumulative updates Eye4
       /\ source_transformed st
          = Transform (cumulative updates Eye4) ex_origin_cloud.
Proof.
  assert (Hidx : index_ready ex_HybridIndex ex_step_cloud (DFin 2) = true)
    by apply orb_true_r.
  split; [reflexivity|]. split; [exact Hidx|]. split; [reflexivity|].
  destruct (icp_cumulative_transformation ex_HybridIndex ex_HybridSearch1
              (estimation := PointToPoint_estimation PointToPoint.diag_svd)
              ex_origin_cloud ex_step_cloud (DFin 2) (tensor44 Eye4)
              ex_criteria eq_refl Hidx
              (PointToPoint_total _ _) (PointToPoint_rigid _ _) eq_refl)
    as (evs0 & st0 & evs & st & us & _ & _ & Hreg & _ & _ & Hlog & Hpos
        & Hstep & _ & Hsrc & Hres).
  destruct us as [|u rest].
  { assert (H : (1 <= 0)%nat) by (apply Hpos; cbn; lia). inversion H. }
  destruct (Hstep O u eq_refl) as (st_k & evs_k & _ & _ & _ & _ & Hcur & Hu).
  cbn [firstn cumulative fold_left] in Hcur, Hu.
  rewrite Transform_identity_origin in Hcur, Hu.
  rewrite (ex_step_entry_result _ (returned_entry_ok _ _ _ _ _ _ _ _ _ Hcur))
    in Hcur.
  assert (Hc : correspondence_set (result st_k) = [(O, O)]).
  { injection Hcur as _ <-. reflexivity. }
  rewrite Hc in Hu.
  cbn [ComputeTransformation PointToPoint_estimation] in Hu.
  rewrite (single_pair_update ex_origin_cloud ex_step_cloud _ _ eq_refl
             eq_refl eq_refl) in Hu.
  assert (Hu' : u = ex_step_update) by (injection Hu as <-; reflexivity).
  exists evs, st, (u :: rest), rest.
  split; [exact Hreg|]. split; [now rewrite Hu'|].
  split; [exact Hlog|]. split; [exact Hres | exact Hsrc].
Defined.

(** *** The two RMSE metrics *)

(** The squared distance between the two points of a pair. *)
Definition pair_sqdist (source target : PointCloud) (c : nat * nat) : R :=
  sqdist (nth (fst c) (GetPoints source) vzero3)
         (nth (snd c) (GetPoints target) vzero3).

(** What the tensor expression of the point-to-point RMSE comes to. *)
Lemma PointToPoint_ComputeRMSE_unfold (source target : PointCloud)
    (corres : CorrespondenceSet) :
  estimation_ok source target = true ->
  PointToPoint.ComputeRMSE source target corres
  = ([], Ok (dsqrt (ddiv (DFin (Rsum (map (pair_sqdist source target) corres)))
                         (of_nat (length corres))))).
Proof.
  intros Hok. unfold PointToPoint.ComputeRMSE.
  rewrite (estimation_checks_ok _ _ Hok). cbn [bind ret app].
  replace (length (second corres)) with (length corres)
    by (unfold second; now rewrite length_map).
  do 6 f_equal.
  unfold IndexGet, first, second.
  induction corres as [|c l IH]; [reflexivity|].
  cbn [map zip_with]. now rewrite IH.
Qed.

Lemma sqr_nonneg (x : R) : 0 <= x * x.
Proof. apply Rle_0_sqr. Qed.

Lemma sqdist_nonneg (p q : Vec3) : 0 <= sqdist p q.
Proof.
  destruct p as [a b c], q as [x y z]. cbv [sqdist dot3 vsub3 vx vy vz].
  pose proof (sqr_nonneg (a - x)). pose proof (sqr_nonneg (b - y)).
  pose proof (sqr_nonneg (c - z)). lra.
Qed.

Lemma sqdist_zero (p q : Vec3) : sqdist p q = 0 <-> p = q.
Proof.
  destruct p as [a b c], q as [x y z]. cbv [sqdist dot3 vsub3 vx vy vz].
  split.
  - intros H.
    pose proof (sqr_nonneg (a - x)). pose proof (sqr_nonneg (b - y)).
    pose proof (sqr_nonneg (c - z)).
    assert (Ha : (a - x) * (a - x) = 0) by lra.
    assert (Hb : (b - y) * (b - y) = 0) by lra.
    assert (Hc : (c - z) * (c - z) = 0) by lra.
    apply Rmult_integral in Ha, Hb, Hc.
    f_equal; lra.
  - intros H. injection H as -> -> ->. ring.
Qed.

Lemma Rsum_nonneg (l : list R) : Forall (fun x => 0 <= x) l -> 0 <= Rsum l.
Proof. induction 1; simpl; lra. Qed.

Lemma Rsum_zero_iff (l : list R) :
  Forall (fun x => 0 <= x) l -> (Rsum l = 0 <-> Forall (fun x => x = 0) l).
Proof.
  induction 1 as [|x l Hx Hl IH]; simpl.
  - split; [constructor | reflexivity].
  - pose proof (Rsum_nonneg l Hl) as Hs. split.
    + intros H. constructor; [lra|]. apply IH. lra.
    + intros H. inversion H as [|? ? H1 H2]; subst.
      apply IH in H2. lra.
Qed.

Lemma Rsum_le (l1 l2 : list R) :
  Forall2 Rle l1 l2 -> Rsum l1 <= Rsum l2.
Proof. induction 1; simpl; lra. Qed.

(** The point-to-point RMSE is NaN, without error, on an empty
    correspondence set; on [C >= 1] pairs it is the root of the mean of
    the squared Euclidean distances of the pairs, a number that is never
    negative and that is zero exactly when the two points of every pair
    are equal. *)
Theorem point_to_point_rmse_zero_iff_aligned (source target : PointCloud)
    (corres : CorrespondenceSet) :
  estimation_ok source target = true ->
  PointToPoint.ComputeRMSE source target [] = ([], Ok DNaN)
  /\ ((1 <= length corres)%nat ->
      exists e,
        PointToPoint.ComputeRMSE source target corres = ([], Ok (DFin e))
        /\ e = sqrt (Rsum (map (pair_sqdist source target) corres)
                     / INR (length corres))
        /\ 0 <= e
        /\ (e = 0 <->
            forall c, In c corres ->
              nth (fst c) (GetPoints source) vzero3
              = nth (snd c) (GetPoints target) vzero3)).
Proof.
  intros Hok. split.
  { rewrite PointToPoint_ComputeRMSE_unfold by exact Hok.
    cbn [map Rsum fold_right length].
    change (DFin 0) with (of_nat 0). now rewrite ddiv_0_0. }
  intros HC.
  assert (HCpos : 0 < INR (length corres)) by (apply lt_0_INR; lia).
  assert (Hterms : Forall (fun x => 0 <= x)
                     (map (pair_sqdist source target) corres)).
  { apply Forall_map, Forall_forall. intros c _. apply sqdist_nonneg. }
  pose proof (Rsum_nonneg _ Hterms) as Hsum.
  assert (Hmean : 0 <= Rsum (map (pair_sqdist source target) corres)
                       / INR (length corres)).
  { apply Rmult_le_pos; [exact Hsum|]. left. now apply Rinv_0_lt_compat. }
  eexists. split.
  { rewrite PointToPoint_ComputeRMSE_unfold by exact Hok.
    unfold of_nat. rewrite ddiv_fin by lra. now rewrite dsqrt_fin. }
  split; [reflexivity|]. split; [apply sqrt_pos|].
  split.
  - intros H0 c Hc. apply sqrt_eq_0 in H0; [|exact Hmean].
    assert (Hs0 : Rsum (map (pair_sqdist source target) corres) = 0).
    { apply (Rmult_eq_reg_r (/ INR (length corres)));
        [|apply Rinv_neq_0_compat; lra].
      rewrite Rmult_0_l. exact H0. }
    apply (Rsum_zero_iff _ Hterms) in Hs0.
    rewrite Forall_map, Forall_forall in Hs0.
    apply sqdist_zero. exact (Hs0 c Hc).
  - intros Hall.
    assert (Hs0 : Rsum (map (pair_sqdist source target) corres) = 0).
    { apply (Rsum_zero_iff _ Hterms).
      rewrite Forall_map, Forall_forall. intros c Hc.
      apply sqdist_zero. now apply Hall. }
    rewrite Hs0. unfold Rdiv. rewrite Rmult_0_l. apply sqrt_0.
Qed.

(** The point-to-plane RMSE of the code never exceeds the point-to-point
    RMSE of the same pairs when no component of a matched normal is
    larger than 1 in absolute value, as for normals of unit length. *)
Theorem point_to_plane_rmse_at_most_point_to_point
    (source target : PointCloud) (corres : CorrespondenceSet) :
  estimation_ok source target = true ->
  HasPointNormals target = true ->
  (1 <= length corres)%nat ->
  (forall c, In c corres ->
     let n := nth (snd c) (GetPointNormals target) vzero3 in
     -1 <= vx n <= 1 /\ -1 <= vy n <= 1 /\ -1 <= vz n <= 1) ->
  exists a b,
    PointToPlane.ComputeRMSE source target corres = ([], Ok (DFin a))
    /\ PointToPoint.ComputeRMSE source target corres = ([], Ok (DFin b))
    /\ 0 <= a <= b.
Proof.
  intros Hok Hn HC Hunit.
  assert (HCpos : 0 < INR (length corres)) by (apply lt_0_INR; lia).
  set (plane := map (fun c : nat * nat =>
                       let d := vsub3 (nth (fst c) (GetPoints source) vzero3)
                                      (nth (snd c) (GetPoints target) vzero3) in
                       let e := vmul3 d (nth (snd c)
                                           (GetPointNormals target) vzero3) in
                       vsum3 (vmul3 e e)) corres).
  set (point := map (pair_sqdist source target) corres).
  assert (Hplane : Forall (fun x => 0 <= x) plane).
  { apply Forall_map, Forall_forall. intros c _.
    destruct (nth (fst c) (GetPoints source) vzero3) as [sx sy sz],
             (nth (snd c) (GetPoints target) vzero3) as [tx ty tz],
             (nth (snd c) (GetPointNormals target) vzero3) as [nx ny nz].
    cbv [vsum3 vmul3 vsub3 vx vy vz].
    pose proof (sqr_nonneg ((sx - tx) * nx)).
    pose proof (sqr_nonneg ((sy - ty) * ny)).
    pose proof (sqr_nonneg ((sz - tz) * nz)). lra. }
  assert (Hle : Forall2 Rle plane point).
  { unfold plane, point. clear -Hunit.
    induction corres as [|c l IH]; [constructor|].
    cbn [map]. constructor.
    - specialize (Hunit c (or_introl eq_refl)). cbv zeta in Hunit.
      unfold pair_sqdist.
      destruct (nth (fst c) (GetPoints source) vzero3) as [sx sy sz],
               (nth (snd c) (GetPoints target) vzero3) as [tx ty tz],
               (nth (snd c) (GetPointNormals target) vzero3) as [nx ny nz].
      cbv [vx vy vz] in Hunit. destruct Hunit as (H1 & H2 & H3).
      cbv [vsum3 vmul3 vsub3 sqdist dot3 vx vy vz].
      assert (Hsq : forall d n, -1 <= n <= 1 ->
                      (d * n) * (d * n) <= d * d).
      { intros d n Hn. pose proof (sqr_nonneg d).
        assert (n * n <= 1) by nra.
        replace (d * n * (d * n)) with ((d * d) * (n * n)) by ring. nra. }
      pose proof (Hsq (sx - tx) nx H1). pose proof (Hsq (sy - ty) ny H2).
      pose proof (Hsq (sz - tz) nz H3). lra.
    - apply IH. intros c' Hc'. apply Hunit. now right. }
  pose proof (Rsum_nonneg _ Hplane) as Hp0.
  pose proof (Rsum_le _ _ Hle) as Hpq.
  assert (Hinv : 0 < / INR (length corres)) by now apply Rinv_0_lt_compat.
  do 2 eexists. split; [|split].
  - rewrite PointToPlane.ComputeRMSE_unfold by assumption. fold plane.
    unfold of_nat. rewrite ddiv_fin by lra.
    rewrite dsqrt_fin; [reflexivity|].
    apply Rmult_le_pos; lra.
  - rewrite PointToPoint_ComputeRMSE_unfold by assumption. fold point.
    unfold of_nat. rewrite ddiv_fin by lra.
    rewrite dsqrt_fin; [reflexivity|].
    apply Rmult_le_pos; lra.
  - split; [apply sqrt_pos|]. apply sqrt_le_1_alt.
    unfold Rdiv. apply Rmult_le_compat_r; lra.
Qed.

(** *** The point-to-point update and the centroids *)

(** A transformation applied to one point, as [PointCloud::Transform]
    applies it to every point. *)
Definition transform_point (t : Mat4) (p : Vec3) : Vec3 :=
  vadd3 (mvec3 (rotation_of t) p) (translation_of t).

Lemma vsum_list_affine (Rm : Mat3) (t : Vec3) (l : list Vec3) :
  vsum_list (map (fun p => vadd3 (mvec3 Rm p) t) l)
  = vadd3 (mvec3 Rm (vsum_list l)) (vscale3 (INR (length l)) t).
Proof.
  induction l as [|p l IH].
  - destruct Rm as [[a b c] [d e f] [g h i]], t as [x y z].
    cbv [map vsum_list fold_right length INR vadd3 mvec3 vscale3 dot3 vzero3
         row0 row1 row2 vx vy vz].
    f_equal; ring.
  - cbn [map vsum_list fold_right length]. fold (vsum_list l).
    fold (vsum_list (map (fun p => vadd3 (mvec3 Rm p) t) l)).
    rewrite IH, S_INR.
    destruct Rm as [[a b c] [d e f] [g h i]], t as [x y z], p as [px py pz],
             (vsum_list l) as [sx sy sz].
    cbv [vadd3 mvec3 vscale3 dot3 row0 row1 row2 vx vy vz].
    f_equal; ring.
Qed.

Lemma Mean0_affine (Rm : Mat3) (t : Vec3) (l : list Vec3) :
  (1 <= length l)%nat ->
  Mean0 (map (fun p => vadd3 (mvec3 Rm p) t) l)
  = vadd3 (mvec3 Rm (Mean0 l)) t.
Proof.
  intros Hl. unfold Mean0. rewrite length_map, vsum_list_affine.
  assert (Hn : INR (length l) <> 0) by (apply not_0_INR; lia).
  destruct Rm as [[a b c] [d e f] [g h i]], t as [x y z],
           (vsum_list l) as [sx sy sz].
  cbv [vadd3 mvec3 vscale3 dot3 row0 row1 row2 vx vy vz].
  f_equal; field; exact Hn.
Qed.

(** Whatever the factors that the SVD returns, the transformation
    estimated from [C >= 1] pairs carries the centroid of the matched
    source points onto the centroid of the matched target points: after
    the update the matched sets have the same mean. *)
Theorem point_to_point_update_aligns_centroids
    (SVD : Mat3 -> Mat3 * Vec3 * Mat3) (source target : PointCloud)
    (corres : CorrespondenceSet) :
  estimation_ok source target = true ->
  (1 <= length corres)%nat ->
  let source_select := IndexGet (GetPoints source) (first corres) in
  let target_select := IndexGet (GetPoints target) (second corres) in
  exists T,
    PointToPoint.ComputeTransformation SVD source target corres = ([], Ok T)
    /\ transform_point T (Mean0 source_select) = Mean0 target_select
    /\ Mean0 (map (transform_point T) source_select) = Mean0 target_select.
Proof.
  intros Hok HC source_select target_select.
  unfold PointToPoint.ComputeTransformation.
  rewrite (estimation_checks_ok _ _ Hok). cbn [bind ret app].
  fold source_select target_select.
  destruct (SVD (PointToPoint.Sxy_of source_select target_select))
    as [[U D] VT].
  eexists. split; [reflexivity|].
  set (Rm := mmul3 U (mmul3 (PointToPoint.correction U VT) VT)).
  assert (Hmean : transform_point
                    (RtToTransformation Rm
                       (vsub3 (Mean0 target_select)
                              (mvec3 Rm (Mean0 source_select))))
                    (Mean0 source_select) = Mean0 target_select).
  { unfold transform_point.
    rewrite rotation_of_RtToTransformation, translation_of_RtToTransformation.
    destruct (Mean0 target_select) as [x y z],
             (mvec3 Rm (Mean0 source_select)) as [a b c].
    cbv [vadd3 vsub3 vx vy vz]. f_equal; ring. }
  split; [exact Hmean|].
  rewrite <- Hmean at 2. unfold transform_point.
  apply Mean0_affine.
  unfold source_select, IndexGet, first. now rewrite !length_map.
Qed.

(** *** The properties above on the examples *)

(** An index that is never set. *)
Definition unset_HybridIndex (dataset : list Vec3) (radius : double) : bool :=
  false.


Lemma icp_without_iterations_is_evaluation_witness :
  (max_iteration_ (mkICPConvergenceCriteria (DFin 0) (DFin 0) 0) <= 0)%Z
  /\ RegistrationICP ex_HybridIndex ex_HybridSearch1
       (estimation := identity_estimation)
       ex_far_cloud ex_origin_cloud (DFin 1) (tensor44 Eye4)
       (mkICPConvergenceCriteria (DFin 0) (DFin 0) 0)
     = EvaluateRegistration ex_HybridIndex ex_HybridSearch1
         ex_far_cloud ex_origin_cloud (DFin 1) (tensor44 Eye4).
Proof.
  split; [simpl; lia|].
  apply (icp_without_iterations_is_evaluation ex_HybridIndex ex_HybridSearch1
           (estimation := identity_estimation)).
  simpl; lia.
Defined.

Lemma icp_result_is_evaluation_of_its_transformation_witness :
  entry_ok PointToPoint.ex_cloud PointToPoint.ex_cloud (tensor44 Eye4) = true
  /\ index_ready ex_HybridIndex PointToPoint.ex_cloud (DFin 1) = true
  /\ homogeneous (entries (tensor44 Eye4))
  /\ exists evs r evs',
       RegistrationICP ex_HybridIndex ex_HybridSearch1
         (estimation := PointToPoint_estimation PointToPoint.diag_svd)
         PointToPoint.ex_cloud PointToPoint.ex_cloud (DFin 1) (tensor44 Eye4)
         ex_criteria = (evs, Ok r)
       /\ EvaluateRegistration ex_HybridIndex ex_HybridSearch1
            PointToPoint.ex_cloud PointToPoint.ex_cloud (DFin 1)
            (transformation_ r) = (evs', Ok r).
Proof.
  assert (Hidx : index_ready ex_HybridIndex PointToPoint.ex_cloud (DFin 1)
                 = true) by apply orb_true_r.
  split; [reflexivity|]. split; [exact Hidx|]. split; [reflexivity|].
  exact (icp_result_is_evaluation_of_its_transformation
           ex_HybridIndex ex_HybridSearch1
           (estimation := PointToPoint_estimation PointToPoint.diag_svd)
           PointToPoint.ex_cloud PointToPoint.ex_cloud (DFin 1)
           (tensor44 Eye4) ex_criteria eq_refl Hidx
           (PointToPoint_total _ _) (PointToPoint_rigid _ _) eq_refl).
Defined.

Lemma failed_entry_check_stops_before_any_work_witness :
  entry_ok PointToPoint.ex_cloud ex_cuda_cloud (tensor44 Eye4) = false
  /\ exists msg,
       EvaluateRegistration ex_HybridIndex ex_HybridSearch1
         PointToPoint.ex_cloud ex_cuda_cloud (DFin 1) (tensor44 Eye4)
       = ([], Error msg)
       /\ RegistrationICP ex_HybridIndex ex_HybridSearch1
            (estimation := identity_estimation)
            PointToPoint.ex_cloud ex_cuda_cloud (DFin 1) (tensor44 Eye4)
            ex_criteria = ([], Error msg).
Proof.
  split; [reflexivity|].
  exact (failed_entry_check_stops_before_any_work
           ex_HybridIndex ex_HybridSearch1 (estimation := identity_estimation)
           PointToPoint.ex_cloud ex_cuda_cloud (DFin 1) (tensor44 Eye4)
           ex_criteria eq_refl).
Defined.

Lemma unset_index_is_fatal_witness :
  entry_ok ex_far_cloud ex_origin_cloud (tensor44 Eye4) = true
  /\ dle (DFin 1) (DFin 0) = false
  /\ unset_HybridIndex (GetPoints ex_origin_cloud) (DFin 1) = false
  /\ RegistrationICP unset_HybridIndex ex_HybridSearch1
       (estimation := identity_estimation)
       ex_far_cloud ex_origin_cloud (DFin 1) (tensor44 Eye4) ex_criteria
     = ([EvHybridIndex (DFin 1)], Error "Index is not set.").
Proof.
  split; [reflexivity|]. split; [exact dle_1_0|]. split; [reflexivity|].
  exact (proj2 (unset_index_is_fatal unset_HybridIndex ex_HybridSearch1
                  (estimation := identity_estimation)
                  ex_far_cloud ex_origin_cloud (DFin 1) (tensor44 Eye4)
                  ex_criteria eq_refl dle_1_0 eq_refl)).
Defined.

Lemma icp_builds_the_index_for_every_search_witness :
  entry_ok PointToPoint.ex_cloud PointToPoint.ex_cloud (tensor44 Eye4) = true
  /\ dle (DFin 1) (DFin 0) = false
  /\ ex_HybridIndex (GetPoints PointToPoint.ex_cloud) (DFin 1) = true
  /\ exists evs r,
       RegistrationICP ex_HybridIndex ex_HybridSearch1
         (estimation := PointToPoint_estimation PointToPoint.diag_svd)
         PointToPoint.ex_cloud PointToPoint.ex_cloud (DFin 1) (tensor44 Eye4)
         ex_criteria = (evs, Ok r)
       /\ index_calls evs = S (length (iteration_metrics evs))
       /\ search_calls evs = S (length (iteration_metrics evs)).
Proof.
  split; [reflexivity|]. split; [exact dle_1_0|]. split; [reflexivity|].
  exact (icp_builds_the_index_for_every_search
           ex_HybridIndex ex_HybridSearch1
           (estimation := PointToPoint_estimation PointToPoint.diag_svd)
           PointToPoint.ex_cloud PointToPoint.ex_cloud (DFin 1)
           (tensor44 Eye4) ex_criteria eq_refl dle_1_0 eq_refl
           (PointToPoint_total _ _)).
Defined.


Lemma point_to_point_rmse_zero_iff_aligned_witness :
  estimation_ok PointToPoint.ex_cloud PointToPoint.ex_cloud = true
  /\ (1 <= length PointToPoint.ex_corres)%nat
  /\ PointToPoint.ComputeRMSE PointToPoint.ex_cloud PointToPoint.ex_cloud
       PointToPoint.ex_corres = ([], Ok (DFin 0)).
Proof.
  split; [reflexivity|]. split; [simpl; lia|].
  destruct (point_to_point_rmse_zero_iff_aligned PointToPoint.ex_cloud
              PointToPoint.ex_cloud PointToPoint.ex_corres eq_refl)
    as [_ H].
  destruct (H ltac:(simpl; lia)) as (e & He & _ & _ & Hz).
  rewrite He. do 3 f_equal. apply Hz.
  intros c Hc. simpl in Hc.
  repeat (destruct Hc as [<- | Hc]; [reflexivity|]). contradiction.
Defined.

Lemma point_to_plane_rmse_at_most_point_to_point_witness :
  estimation_ok PointToPlane.ex_source PointToPlane.ex_target = true
  /\ HasPointNormals PointToPlane.ex_target = true
  /\ exists a b,
       PointToPlane.ComputeRMSE PointToPlane.ex_source PointToPlane.ex_target
         [(O, O)] = ([], Ok (DFin a))
       /\ PointToPoint.ComputeRMSE PointToPlane.ex_source
            PointToPlane.ex_target [(O, O)] = ([], Ok (DFin b))
       /\ 0 <= a <= b.
Proof.
  split; [reflexivity|]. split; [reflexivity|].
  apply (point_to_plane_rmse_at_most_point_to_point PointToPlane.ex_source
           PointToPlane.ex_target [(O, O)] eq_refl eq_refl).
  - simpl; lia.
  - intros c [<- | []]. cbv [snd nth GetPointNormals point_normals
                             PointToPlane.ex_target vx vy vz].
    lra.
Defined.

Lemma point_to_point_update_aligns_centroids_witness :
  estimation_ok PointToPoint.ex_cloud PointToPoint.ex_cloud = true
  /\ (1 <= length PointToPoint.ex_corres)%nat
  /\ exists T,
       PointToPoint.ComputeTransformation PointToPoint.diag_svd
         PointToPoint.ex_cloud PointToPoint.ex_cloud PointToPoint.ex_corres
       = ([], Ok T)
       /\ Mean0 (map (transform_point T)
                   (IndexGet (GetPoints PointToPoint.ex_cloud)
                      (first PointToPoint.ex_corres)))
          = Mean0 (IndexGet (GetPoints PointToPoint.ex_cloud)
                     (second PointToPoint.ex_corres)).
Proof.
  split; [reflexivity|]. split; [simpl; lia|].
  destruct (point_to_point_update_aligns_centroids PointToPoint.diag_svd
              PointToPoint.ex_cloud PointToPoint.ex_cloud
              PointToPoint.ex_corres eq_refl ltac:(simpl; lia))
    as (T & HT & _ & Hm).
  exists T. split; [exact HT | exact Hm].
Defined.

End Registration.


(** ** The multiscale configuration of the demo (DemoTICPOdom.cpp) *)

Module Demo.

Import Registration.
Open Scope string_scope.

(** [isspace] in the C locale. *)
Definition isspace (c : ascii) : bool :=
  let n := nat_of_ascii c in
  Nat.eqb n 32 || (Nat.leb 9 n && Nat.leb n 13).

(** [line.erase(std::remove_if(line.begin(), line.end(), isspace),
    line.end())]. *)
Fixpoint erase_spaces (line : string) : string :=
  match line with
  | EmptyString => EmptyString
  | String c rest =>
      if isspace c then erase_spaces rest else String c (erase_spaces rest)
  end.

(** [line.find("=")]; [None] is [npos]. *)
Fixpoint find_eq (line : string) : option nat :=
  match line with
  | EmptyString => None
  | String c rest =>
      if Ascii.eqb c "="%char then Some O
      else match find_eq rest with Some p => Some (S p) | None => None end
  end.

Fixpoint string_take (n : nat) (s : string) : string :=
  match n, s with
  | S m, String c rest => String c (string_take m rest)
  | _, _ => EmptyString
  end.

Fixpoint string_drop (n : nat) (s : string) : string :=
  match n, s with
  | S m, String _ rest => string_drop m rest
  | _, _ => s
  end.

(** [line.substr(0, delimiterPos)] and [line.substr(delimiterPos + 1)];
    with [npos] the first is the whole line and, [npos + 1] being 0, so is
    the second. *)
Definition split_line (line : string) : string * string :=
  match find_eq line with
  | Some p => (string_take p line, string_drop (S p) line)
  | None => (line, line)
  end.

(** The members and locals that [ReadConfigFile] fills. *)
Record ConfigState : Type := mkConfigState {
  path_dataset : string;
  visualize : string;
  end_range_ : Z;
  registration_method_ : string;
  relative_fitness : list double;
  relative_rmse : list double;
  max_iterations : list Z;
  voxel_sizes_ : list double;
  search_radius_ : list double;
  verb : string;
  gt_tx_ : double;
  gt_ty_ : double
}.

Definition initial_state : ConfigState :=
  mkConfigState "" "" 0 "" [] [] [] [] [] "" (DFin 0) (DFin 0).

Inductive EstimationKind : Type :=
| UsePointToPoint
| UsePointToPlane.

(** What the constructor keeps of the file. *)
Record Config : Type := mkConfig {
  cfg_voxel_sizes : list double;
  cfg_search_radius : list double;
  icp_scale_levels_ : nat;
  criterias_ : list ICPConvergenceCriteria;
  estimation_ : EstimationKind
}.

Definition length_error : string :=
  " Length of vector: voxel_sizes, search_sizes, max_iterations, relative_fitness, relative_rmse must be same.".

Section ReadConfig.

(** [std::stod] and [std::stoi] of the C++ library; [None] stands for the
    exception they throw on a value they cannot convert. *)
Variable stod : string -> option double.
Variable stoi : string -> option Z.

Definition with_stod (value : string) (k : double -> ConfigState)
  : Result ConfigState :=
  match stod value with
  | Some d => Ok (k d)
  | None => Error "std::invalid_argument"
  end.

Definition with_stoi (value : string) (k : Z -> ConfigState)
  : Result ConfigState :=
  match stoi value with
  | Some n => Ok (k n)
  | None => Error "std::invalid_argument"
  end.

(** One turn of the [while (getline(cFile, line))] loop. *)
Definition read_line (st : ConfigState) (line : string)
  : Result ConfigState :=
  let line := erase_spaces line in
  match line with
  | EmptyString => Ok st
  | String "#" _ => Ok st
  | _ =>
    let '(name, value) := split_line line in
    let '(mkConfigState pd vis er rm rf rr mi vs sr vb tx ty) := st in
    if String.eqb name "dataset_path" then
      Ok (mkConfigState value vis er rm rf rr mi vs sr vb tx ty)
    else if String.eqb name "visualization" then
      Ok (mkConfigState pd value er rm rf rr mi vs sr vb tx ty)
    else if String.eqb name "end_range" then
      with_stoi value
        (fun n => mkConfigState pd vis n rm rf rr mi vs sr vb tx ty)
    else if String.eqb name "registration_method" then
      Ok (mkConfigState pd vis er value rf rr mi vs sr vb tx ty)
    else if String.eqb name "criteria.relative_fitness" then
      with_stod value
        (fun d => mkConfigState pd vis er rm (rf ++ [d]) rr mi vs sr vb tx ty)
    else if String.eqb name "criteria.relative_rmse" then
      with_stod value
        (fun d => mkConfigState pd vis er rm rf (rr ++ [d]) mi vs sr vb tx ty)
    else if String.eqb name "criteria.max_iterations" then
      with_stoi value
        (fun n => mkConfigState pd vis er rm rf rr (mi ++ [n]) vs sr vb tx ty)
    else if String.eqb name "voxel_size" then
      with_stod value
        (fun d => mkConfigState pd vis er rm rf rr mi (vs ++ [d]) sr vb tx ty)
    else if String.eqb name "search_radii" then
      with_stod value
        (fun d => mkConfigState pd vis er rm rf rr mi vs (sr ++ [d]) vb tx ty)
    else if String.eqb name "verbosity" then
      Ok (mkConfigState pd vis er rm rf rr mi vs sr value tx ty)
    else if String.eqb name "ground_truth_tx" then
      with_stod value
        (fun d => mkConfigState pd vis er rm rf rr mi vs sr vb d ty)
    else if String.eqb name "ground_truth_ty" then
      with_stod value
        (fun d => mkConfigState pd vis er rm rf rr mi vs sr vb tx d)
    else Ok st
  end.

(** The whole loop; [None] is a file that cannot be opened, which only
    prints a message. *)
Fixpoint read_lines (st : ConfigState) (lines : list string)
  : Result ConfigState :=
  match lines with
  | [] => Ok st
  | line :: rest =>
      match read_line st line with
      | Ok st' => read_lines st' rest
      | Error msg => Error msg
      end
  end.

Definition read_file (cFile : option (list string)) : Result ConfigState :=
  match cFile with
  | Some lines => read_lines initial_state lines
  | None => Ok initial_state
  end.

(** The test on the sizes of the five vectors. *)
Definition sizes_differ (st : ConfigState) : bool :=
  let icp_scale_levels_ := length (voxel_sizes_ st) in
  negb (Nat.eqb (length (search_radius_ st)) icp_scale_levels_)
  || negb (Nat.eqb (length (max_iterations st)) icp_scale_levels_)
  || negb (Nat.eqb (length (relative_fitness st)) icp_scale_levels_)
  || negb (Nat.eqb (length (relative_rmse st)) icp_scale_levels_).

(** The loop that builds [criterias_]; the lists have been checked to be
    as long as the number of levels. *)
Definition build_criterias (st : ConfigState) (levels : nat)
  : list ICPConvergenceCriteria :=
  map (fun i => mkICPConvergenceCriteria
                  (nth i (relative_fitness st) DNaN)
                  (nth i (relative_rmse st) DNaN)
                  (nth i (max_iterations st) 0%Z))
      (seq 0 levels).

(** [ExampleWindow::ReadConfigFile]. *)
Definition ReadConfigFile (cFile : option (list string)) : Result Config :=
  match read_file cFile with
  | Error msg => Error msg
  | Ok st =>
      let icp_scale_levels_ := length (voxel_sizes_ st) in
      if sizes_differ st then Error length_error
      else
        let criterias_ := build_criterias st icp_scale_levels_ in
        if String.eqb (registration_method_ st) "PointToPoint" then
          Ok (mkConfig (voxel_sizes_ st) (search_radius_ st)
                icp_scale_levels_ criterias_ UsePointToPoint)
        else if String.eqb (registration_method_ st) "PointToPlane" then
          Ok (mkConfig (voxel_sizes_ st) (search_radius_ st)
                icp_scale_levels_ criterias_ UsePointToPlane)
        else Error " Registration method {}, not implemented."
  end.

(** What the constructor does after the file is read. *)
Inductive Work : Type :=
| LoadTensorPointClouds
| RegistrationMultiScaleICP.

(** The constructor of [ExampleWindow]: the configuration is read first;
    the clouds are loaded and the thread that registers them is started
    only when that returns. *)
Definition ExampleWindow (cFile : option (list string))
  : list Work * Result Config :=
  match ReadConfigFile cFile with
  | Error msg => ([], Error msg)
  | Ok cfg => ([LoadTensorPointClouds; RegistrationMultiScaleICP], Ok cfg)
  end.

(** The five lists have one and the same length. *)
Definition same_lengths (st : ConfigState) : Prop :=
  length (search_radius_ st) = length (voxel_sizes_ st)
  /\ length (max_iterations st) = length (voxel_sizes_ st)
  /\ length (relative_fitness st) = length (voxel_sizes_ st)
  /\ length (relative_rmse st) = length (voxel_sizes_ st).

Lemma sizes_differ_spec (st : ConfigState) :
  sizes_differ st = false <-> same_lengths st.
Proof.
  unfold sizes_differ, same_lengths. split.
  - intros H.
    repeat (apply orb_false_elim in H; destruct H as [H ?]).
    repeat match goal with
           | E : negb _ = false |- _ =>
               apply negb_false_iff, Nat.eqb_eq in E
           end.
    auto.
  - intros (H1 & H2 & H3 & H4). rewrite H1, H2, H3, H4, Nat.eqb_refl.
    reflexivity.
Qed.

(** C9.  For every configuration file that is read to the end and leaves
    lists of voxel sizes, search radii, maximal iterations, relative
    fitnesses and relative RMSEs that do not all have the same length,
    [ReadConfigFile] raises the fatal error on the lengths; the
    constructor stops there, before the clouds are loaded and the
    registration is started, and keeps no configuration. *)
Theorem mismatched_lengths_are_fatal (cFile : option (list string))
    (st : ConfigState) :
  read_file cFile = Ok st ->
  ~ same_lengths st ->
  ReadConfigFile cFile = Error length_error
  /\ ExampleWindow cFile = ([], Error length_error).
Proof.
  intros Hread Hdiff.
  assert (Hs : sizes_differ st = true).
  { destruct (sizes_differ st) eqn:E; [reflexivity|].
    apply sizes_differ_spec in E. contradiction. }
  assert (Hr : ReadConfigFile cFile = Error length_error).
  { unfold ReadConfigFile. now rewrite Hread, Hs. }
  split; [exact Hr|]. unfold ExampleWindow. now rewrite Hr.
Qed.

(** A configuration that the constructor keeps has lists of one length,
    and as many criteria as levels. *)
Lemma ReadConfigFile_ok (cFile : option (list string)) (cfg : Config) :
  ReadConfigFile cFile = Ok cfg ->
  exists st, read_file cFile = Ok st /\ same_lengths st
             /\ length (criterias_ cfg) = icp_scale_levels_ cfg
             /\ length (cfg_voxel_sizes cfg) = icp_scale_levels_ cfg
             /\ length (cfg_search_radius cfg) = icp_scale_levels_ cfg.
Proof.
  unfold ReadConfigFile. destruct (read_file cFile) as [st|msg]; [|discriminate].
  destruct (sizes_differ st) eqn:E; [discriminate|].
  apply sizes_differ_spec in E. intros H. exists st.
  split; [reflexivity|]. split; [exact E|].
  destruct E as (E1 & _).
  destruct (String.eqb (registration_method_ st) "PointToPoint");
    [|destruct (String.eqb (registration_method_ st) "PointToPlane");
      [|discriminate]];
    injection H as <-; cbn; unfold build_criterias;
    rewrite length_map, length_seq; auto.
Qed.

(** An error, whichever it is, stops the constructor before any work. *)
Lemma ExampleWindow_error (cFile : option (list string)) (msg : string) :
  ReadConfigFile cFile = Error msg -> ExampleWindow cFile = ([], Error msg).
Proof. intros H. unfold ExampleWindow. now rewrite H. Qed.

(** *** Lines that change nothing *)

(** The names that the loop knows. *)
Definition known_names : list string :=
  ["dataset_path"; "visualization"; "end_range"; "registration_method";
   "criteria.relative_fitness"; "criteria.relative_rmse";
   "criteria.max_iterations"; "voxel_size"; "search_radii"; "verbosity";
   "ground_truth_tx"; "ground_truth_ty"].

(** A line that is blank or a comment once its white space is erased, or
    whose name is none of the known ones. *)
Definition skipped (line : string) : Prop :=
  erase_spaces line = ""
  \/ (exists rest, erase_spaces line = String "#" rest)
  \/ ~ In (fst (split_line (erase_spaces line))) known_names.

Lemma read_line_skipped (st : ConfigState) (line : string) :
  skipped line -> read_line st line = Ok st.
Proof.
  unfold read_line. intros [H | [[rest H] | H]].
  - now rewrite H.
  - now rewrite H.
  - destruct (erase_spaces line) as [|c rest]; [reflexivity|].
    destruct (split_line (String c rest)) as [name value].
    cbn [fst] in H.
    assert (Hneq : forall k, In k known_names -> String.eqb name k = false).
    { intros k Hk. apply String.eqb_neq. intros ->. contradiction. }
    destruct st.
    rewrite !Hneq by (unfold known_names; simpl; tauto).
    now destruct c as [[] [] [] [] [] [] [] []].
Qed.

Lemma read_lines_app (st : ConfigState) (l1 l2 : list string) :
  read_lines st (l1 ++ l2)%list
  = match read_lines st l1 with
    | Ok st' => read_lines st' l2
    | Error msg => Error msg
    end.
Proof.
  revert st; induction l1 as [|l l1 IH]; intros st; [reflexivity|].
  cbn [app read_lines]. destruct (read_line st l); [apply IH | reflexivity].
Qed.

(** Blank lines, comment lines and lines with an unknown name can stand
    anywhere in the file: the outcome of [ReadConfigFile], error or
    configuration, is that of the file without them. *)
Theorem skipped_lines_do_not_change_the_outcome
    (before after : list string) (line : string) :
  skipped line ->
  ReadConfigFile (Some (before ++ line :: after)%list)
  = ReadConfigFile (Some (before ++ after)%list).
Proof.
  intros Hskip. unfold ReadConfigFile, read_file.
  rewrite !read_lines_app.
  destruct (read_lines initial_state before) as [st|msg]; [|reflexivity].
  cbn [read_lines]. now rewrite (read_line_skipped st line Hskip).
Qed.

(** *** Files that are accepted *)

(** The criteria of the levels, entry by entry. *)
Definition zip_criterias (rf rr : list double) (mi : list Z)
  : list ICPConvergenceCriteria :=
  map (fun x => mkICPConvergenceCriteria (fst (fst x)) (snd (fst x)) (snd x))
      (combine (combine rf rr) mi).

Lemma map_nth_zip (rf rr : list double) (mi : list Z) :
  length rr = length rf -> length mi = length rf ->
  map (fun i => mkICPConvergenceCriteria (nth i rf DNaN) (nth i rr DNaN)
                  (nth i mi 0%Z)) (seq 0 (length rf))
  = zip_criterias rf rr mi.
Proof.
  revert rr mi; induction rf as [|f rf IH]; intros [|r rr] [|m mi] H1 H2;
    try discriminate; [reflexivity|].
  cbn [length seq map nth]. rewrite <- seq_shift, map_map.
  cbn [nth]. unfold zip_criterias. cbn [combine map fst snd]. f_equal.
  apply IH; simpl in *; lia.
Qed.

Lemma build_criterias_zip (st : ConfigState) :
  same_lengths st ->
  build_criterias st (length (voxel_sizes_ st))
  = zip_criterias (relative_fitness st) (relative_rmse st) (max_iterations st).
Proof.
  intros (_ & H2 & H3 & H4). unfold build_criterias.
  rewrite <- H3. apply map_nth_zip; congruence.
Qed.

(** The configurations that [ReadConfigFile] returns are exactly those of
    the files that are read to the end, leave five lists of one length
    and name one of the two registration methods; the criteria of level
    [i] are the [i]-th relative fitness, relative RMSE and number of
    iterations of the file, so that the loop which builds them reads no
    vector out of its bounds. *)
Theorem accepted_configurations (cFile : option (list string)) (cfg : Config) :
  ReadConfigFile cFile = Ok cfg
  <-> exists st,
        read_file cFile = Ok st
        /\ same_lengths st
        /\ (registration_method_ st = "PointToPoint"
               /\ estimation_ cfg = UsePointToPoint
            \/ registration_method_ st = "PointToPlane"
               /\ estimation_ cfg = UsePointToPlane)
        /\ cfg_voxel_sizes cfg = voxel_sizes_ st
        /\ cfg_search_radius cfg = search_radius_ st
        /\ icp_scale_levels_ cfg = length (voxel_sizes_ st)
        /\ criterias_ cfg
           = zip_criterias (relative_fitness st) (relative_rmse st)
               (max_iterations st).
Proof.
  unfold ReadConfigFile. split.
  - destruct (read_file cFile) as [st|msg]; [|discriminate].
    destruct (sizes_differ st) eqn:E; [discriminate|].
    apply sizes_differ_spec in E. rewrite (build_criterias_zip st E).
    intros H. exists st. split; [reflexivity|]. split; [exact E|].
    destruct (String.eqb (registration_method_ st) "PointToPoint") eqn:E1.
    + apply String.eqb_eq in E1. injection H as <-. cbn. auto 10.
    + destruct (String.eqb (registration_method_ st) "PointToPlane") eqn:E2;
        [|discriminate].
      apply String.eqb_eq in E2. injection H as <-. cbn. auto 10.
  - intros (st & Hread & Hlen & Hm & Hv & Hs & Hl & Hc).
    rewrite Hread.
    replace (sizes_differ st) with false
      by (symmetry; now apply sizes_differ_spec).
    rewrite (build_criterias_zip st Hlen).
    destruct cfg as [vs sr lv cr est]. cbn in *. subst.
    destruct Hm as [[-> ->] | [Hm ->]].
    + reflexivity.
    + rewrite Hm. reflexivity.
Qed.

(** A file that names neither of the two registration methods is refused
    after the lengths have been compared, and the constructor stops
    there.  A file that cannot be opened is such a file: it leaves the
    method empty and five empty lists. *)
Theorem unknown_registration_method_is_fatal (cFile : option (list string))
    (st : ConfigState) :
  read_file cFile = Ok st ->
  same_lengths st ->
  registration_method_ st <> "PointToPoint" ->
  registration_method_ st <> "PointToPlane" ->
  ReadConfigFile cFile = Error " Registration method {}, not implemented."
  /\ ExampleWindow cFile
     = ([], Error " Registration method {}, not implemented.").
Proof.
  intros Hread Hlen H1 H2.
  assert (Hr : ReadConfigFile cFile
               = Error " Registration method {}, not implemented.").
  { unfold ReadConfigFile. rewrite Hread.
    replace (sizes_differ st) with false
      by (symmetry; now apply sizes_differ_spec).
    apply String.eqb_neq in H1, H2. now rewrite H1, H2. }
  split; [exact Hr|]. unfold ExampleWindow. now rewrite Hr.
Qed.

(** *** A file written level by level *)

(** The five values of a level as the file spells them, and as numbers. *)
Record LevelText : Type := mkLevelText {
  text_voxel_size : string;
  text_search_radius : string;
  text_relative_fitness : string;
  text_relative_rmse : string;
  text_max_iterations : string
}.

Record Level : Type := mkLevel {
  level_voxel_size : double;
  level_search_radius : double;
  level_criteria : ICPConvergenceCriteria
}.

(** The lines of a level, with spaces around the sign. *)
Definition level_lines (t : LevelText) : list string :=
  ["voxel_size = " ++ text_voxel_size t;
   "search_radii = " ++ text_search_radius t;
   "criteria.relative_fitness = " ++ text_relative_fitness t;
   "criteria.relative_rmse = " ++ text_relative_rmse t;
   "criteria.max_iterations = " ++ text_max_iterations t].

(** The conversions of the library accept the five values once their
    white space is erased. *)
Definition converts (t : LevelText) (l : Level) : Prop :=
  stod (erase_spaces (text_voxel_size t)) = Some (level_voxel_size l)
  /\ stod (erase_spaces (text_search_radius t)) = Some (level_search_radius l)
  /\ stod (erase_spaces (text_relative_fitness t))
     = Some (relative_fitness_ (level_criteria l))
  /\ stod (erase_spaces (text_relative_rmse t))
     = Some (relative_rmse_ (level_criteria l))
  /\ stoi (erase_spaces (text_max_iterations t))
     = Some (max_iteration_ (level_criteria l)).

(** A state with the values of some levels appended. *)
Definition add_levels (st : ConfigState) (ls : list Level) : ConfigState :=
  mkConfigState (path_dataset st) (visualize st) (end_range_ st)
    (registration_method_ st)
    (relative_fitness st ++ map (fun l => relative_fitness_ (level_criteria l)) ls)
    (relative_rmse st ++ map (fun l => relative_rmse_ (level_criteria l)) ls)
    (max_iterations st ++ map (fun l => max_iteration_ (level_criteria l)) ls)
    (voxel_sizes_ st ++ map level_voxel_size ls)
    (search_radius_ st ++ map level_search_radius ls)
    (verb st) (gt_tx_ st) (gt_ty_ st).

Lemma read_line_voxel_size (pd vis : string) (er : Z) (rm : string)
    (rf rr : list double) (mi : list Z) (vs sr : list double) (vb : string)
    (tx ty : double) (v : string) :
  read_line (mkConfigState pd vis er rm rf rr mi vs sr vb tx ty)
    ("voxel_size = " ++ v)
  = with_stod (erase_spaces v)
      (fun d => mkConfigState pd vis er rm rf rr mi (vs ++ [d])%list sr vb tx ty).
Proof. reflexivity. Qed.

Lemma read_line_search_radii (pd vis : string) (er : Z) (rm : string)
    (rf rr : list double) (mi : list Z) (vs sr : list double) (vb : string)
    (tx ty : double) (v : string) :
  read_line (mkConfigState pd vis er rm rf rr mi vs sr vb tx ty)
    ("search_radii = " ++ v)
  = with_stod (erase_spaces v)
      (fun d => mkConfigState pd vis er rm rf rr mi vs (sr ++ [d])%list vb tx ty).
Proof. reflexivity. Qed.

Lemma read_line_relative_fitness (pd vis : string) (er : Z) (rm : string)
    (rf rr : list double) (mi : list Z) (vs sr : list double) (vb : string)
    (tx ty : double) (v : string) :
  read_line (mkConfigState pd vis er rm rf rr mi vs sr vb tx ty)
    ("criteria.relative_fitness = " ++ v)
  = with_stod (erase_spaces v)
      (fun d => mkConfigState pd vis er rm (rf ++ [d])%list rr mi vs sr vb tx ty).
Proof. reflexivity. Qed.

Lemma read_line_relative_rmse (pd vis : string) (er : Z) (rm : string)
    (rf rr : list double) (mi : list Z) (vs sr : list double) (vb : string)
    (tx ty : double) (v : string) :
  read_line (mkConfigState pd vis er rm rf rr mi vs sr vb tx ty)
    ("criteria.relative_rmse = " ++ v)
  = with_stod (erase_spaces v)
      (fun d => mkConfigState pd vis er rm rf (rr ++ [d])%list mi vs sr vb tx ty).
Proof. reflexivity. Qed.

Lemma read_line_max_iterations (pd vis : string) (er : Z) (rm : string)
    (rf rr : list double) (mi : list Z) (vs sr : list double) (vb : string)
    (tx ty : double) (v : string) :
  read_line (mkConfigState pd vis er rm rf rr mi vs sr vb tx ty)
    ("criteria.max_iterations = " ++ v)
  = with_stoi (erase_spaces v)
      (fun n => mkConfigState pd vis er rm rf rr (mi ++ [n])%list vs sr vb tx ty).
Proof. reflexivity. Qed.

Lemma read_level_lines (st : ConfigState) (t : LevelText) (l : Level) :
  converts t l ->
  read_lines st (level_lines t) = Ok (add_levels st [l]).
Proof.
  intros (H1 & H2 & H3 & H4 & H5).
  destruct st as [pd vis er rm rf rr mi vs sr vb tx ty], t as [tv ts tf tr tm],
           l as [v s [f r m]].
  cbn [text_voxel_size text_search_radius text_relative_fitness
       text_relative_rmse text_max_iterations level_voxel_size
       level_search_radius level_criteria relative_fitness_ relative_rmse_
       max_iteration_] in *.
  unfold level_lines, add_levels.
  cbn [text_voxel_size text_search_radius text_relative_fitness
       text_relative_rmse text_max_iterations read_lines].
  rewrite read_line_voxel_size. unfold with_stod at 1. rewrite H1.
  rewrite read_line_search_radii. unfold with_stod at 1. rewrite H2.
  rewrite read_line_relative_fitness. unfold with_stod at 1. rewrite H3.
  rewrite read_line_relative_rmse. unfold with_stod at 1. rewrite H4.
  rewrite read_line_max_iterations. unfold with_stoi at 1. rewrite H5.
  reflexivity.
Qed.

Lemma add_levels_nil (st : ConfigState) : add_levels st [] = st.
Proof. destruct st. unfold add_levels. cbn. now rewrite !app_nil_r. Qed.

Lemma add_levels_cons (st : ConfigState) (l : Level) (ls : list Level) :
  add_levels (add_levels st [l]) ls = add_levels st (l :: ls).
Proof.
  destruct st. unfold add_levels. cbn. now rewrite <- !app_assoc.
Qed.

Lemma read_levels (st : ConfigState) (ts : list LevelText) (ls : list Level) :
  Forall2 converts ts ls ->
  read_lines st (flat_map level_lines ts) = Ok (add_levels st ls).
Proof.
  intros H. revert st. induction H as [|t l ts ls Hc _ IH]; intros st.
  - now rewrite add_levels_nil.
  - cbn [flat_map]. rewrite read_lines_app, (read_level_lines st t l Hc), IH.
    now rewrite add_levels_cons.
Qed.

Lemma zip_criterias_levels (ls : list Level) :
  zip_criterias (map (fun l => relative_fitness_ (level_criteria l)) ls)
                (map (fun l => relative_rmse_ (level_criteria l)) ls)
                (map (fun l => max_iteration_ (level_criteria l)) ls)
  = map level_criteria ls.
Proof.
  unfold zip_criterias. induction ls as [|[v s [f r m]] ls IH]; [reflexivity|].
  cbn in *. now rewrite IH.
Qed.

(** A file that names the point-to-point method and then lists its levels
    one after the other, five lines a level, is accepted whenever the
    library converts the values: the configuration has as many levels as
    the file, in the order of the file, and the white space within the
    lines plays no part. *)
Theorem levels_are_read_in_file_order (ts : list LevelText)
    (ls : list Level) :
  Forall2 converts ts ls ->
  ReadConfigFile
    (Some ("registration_method = PointToPoint" :: flat_map level_lines ts))
  = Ok (mkConfig (map level_voxel_size ls) (map level_search_radius ls)
          (length ls) (map level_criteria ls) UsePointToPoint).
Proof.
  intros H.
  assert (Hread : read_file
                    (Some ("registration_method = PointToPoint"
                           :: flat_map level_lines ts))
                  = Ok (add_levels
                          (mkConfigState "" "" 0 "PointToPoint" [] [] [] []
                             [] "" (DFin 0) (DFin 0)) ls)).
  { unfold read_file. cbn [read_lines].
    change (read_line initial_state "registration_method = PointToPoint")
      with (Ok (mkConfigState "" "" 0 "PointToPoint" [] [] [] [] [] ""
                  (DFin 0) (DFin 0))).
    now apply read_levels. }
  assert (Hlen : same_lengths
                   (add_levels
                      (mkConfigState "" "" 0 "PointToPoint" [] [] [] [] [] ""
                         (DFin 0) (DFin 0)) ls)).
  { unfold add_levels, same_lengths.
    cbn [voxel_sizes_ search_radius_ max_iterations relative_fitness
         relative_rmse app].
    now rewrite !length_map. }
  unfold ReadConfigFile. rewrite Hread.
  replace (sizes_differ _) with false
    by (symmetry; now apply sizes_differ_spec).
  rewrite (build_criterias_zip _ Hlen).
  unfold add_levels.
  cbn [voxel_sizes_ search_radius_ max_iterations relative_fitness
       relative_rmse registration_method_ app].
  rewrite zip_criterias_levels, length_map. reflexivity.
Qed.

End ReadConfig.

(** *** A file with two voxel sizes and one search radius *)

(** Stand-ins for the conversions: unsigned decimal integers only. *)
Fixpoint digits (s : string) (acc : Z) : option Z :=
  match s with
  | EmptyString => Some acc
  | String c rest =>
      let n := nat_of_ascii c in
      if Nat.leb 48 n && Nat.leb n 57
      then digits rest (10 * acc + Z.of_nat (n - 48))%Z
      else None
  end.

Definition ex_stoi (s : string) : option Z :=
  match s with
  | EmptyString => None
  | _ => digits s 0%Z
  end.

Definition ex_stod (s : string) : option double :=
  match ex_stoi s with
  | Some z => Some (DFin (IZR z))
  | None => None
  end.

Definition ex_lines : list string :=
  ["# multiscale ICP";
   "registration_method = PointToPoint";
   "voxel_size = 2";
   "voxel_size = 1";
   "search_radii = 3";
   "criteria.relative_fitness = 0";
   "criteria.relative_fitness = 0";
   "criteria.relative_rmse = 0";
   "criteria.relative_rmse = 0";
   "criteria.max_iterations = 20";
   "criteria.max_iterations = 30"].

Lemma mismatched_lengths_are_fatal_witness :
  exists st,
    read_file ex_stod ex_stoi (Some ex_lines) = Ok st
    /\ ~ same_lengths st
    /\ ExampleWindow ex_stod ex_stoi (Some ex_lines)
       = ([], Error length_error).
Proof.
  eexists. split; [vm_compute; reflexivity|].
  assert (Hd : ~ same_lengths
                 (mkConfigState "" "" 0 "PointToPoint"
                    [DFin (IZR 0); DFin (IZR 0)] [DFin (IZR 0); DFin (IZR 0)]
                    [20%Z; 30%Z] [DFin (IZR 2); DFin (IZR 1)]
                    [DFin (IZR 3)] "" (DFin 0) (DFin 0))).
  { intros (H & _). discriminate H. }
  split; [exact Hd|].
  apply (mismatched_lengths_are_fatal ex_stod ex_stoi (Some ex_lines) _
           eq_refl Hd).
Defined.

(** With the second search radius the file is accepted. *)
Example ex_accepted :
  exists cfg,
    ExampleWindow ex_stod ex_stoi (Some (ex_lines ++ ["search_radii = 4"])%list)
    = ([LoadTensorPointClouds; RegistrationMultiScaleICP], Ok cfg)
    /\ icp_scale_levels_ cfg = 2%nat
    /\ map max_iteration_ (criterias_ cfg) = [20%Z; 30%Z].
Proof. eexists. split; [vm_compute; reflexivity|]. split; reflexivity. Qed.

(** *** The odometry loop of [UpdateMain] *)

Section UpdateMain.

(** [RegistrationMultiScaleICP] and [Tensor::Inverse] are not part of the
    sources at hand: the first stands for the transformation that the
    registration of the clouds [i] (source) and [i + 1] (target) returns,
    the second is a function on {4,4} tensors. *)
Variable registration : nat -> nat -> Mat4.
Variable Inverse : Mat4 -> Mat4.



Lemma Matmul_Eye4_r (a : Mat4) : Matmul a Eye4 = a.
Proof. crush_mat. f_equal; f_equal; ring. Qed.


End UpdateMain.

(** *** The properties of the configuration on the example file *)

Lemma skipped_lines_do_not_change_the_outcome_witness :
  skipped "  # last radius"
  /\ ReadConfigFile ex_stod ex_stoi
       (Some (ex_lines ++ "  # last radius"
                          :: ["search_radii = 4"])%list)
     = ReadConfigFile ex_stod ex_stoi
         (Some (ex_lines ++ ["search_radii = 4"])%list).
Proof.
  assert (H : skipped "  # last radius").
  { right. left. exists "lastradius". vm_compute. reflexivity. }
  split; [exact H|].
  exact (skipped_lines_do_not_change_the_outcome ex_stod ex_stoi ex_lines
           ["search_radii = 4"] "  # last radius" H).
Defined.

Lemma unknown_registration_method_is_fatal_witness :
  read_file ex_stod ex_stoi None = Ok initial_state
  /\ same_lengths initial_state
  /\ ExampleWindow ex_stod ex_stoi None
     = ([], Error " Registration method {}, not implemented.").
Proof.
  assert (Hlen : same_lengths initial_state) by (repeat split).
  split; [reflexivity|]. split; [exact Hlen|].
  apply (unknown_registration_method_is_fatal ex_stod ex_stoi None
           initial_state eq_refl Hlen); discriminate.
Defined.

Definition ex_levels_text : list LevelText :=
  [mkLevelText "2" "3" "0" "0" "20"; mkLevelText " 1" "4 " "0" "0" "3 0"].

Definition ex_levels : list Level :=
  [mkLevel (DFin 2) (DFin 3) (mkICPConvergenceCriteria (DFin 0) (DFin 0) 20);
   mkLevel (DFin 1) (DFin 4) (mkICPConvergenceCriteria (DFin 0) (DFin 0) 30)].

Lemma levels_are_read_in_file_order_witness :
  Forall2 (converts ex_stod ex_stoi) ex_levels_text ex_levels
  /\ ReadConfigFile ex_stod ex_stoi
       (Some ("registration_method = PointToPoint"
              :: flat_map level_lines ex_levels_text))
     = Ok (mkConfig [DFin 2; DFin 1] [DFin 3; DFin 4] 2
             [mkICPConvergenceCriteria (DFin 0) (DFin 0) 20;
              mkICPConvergenceCriteria (DFin 0) (DFin 0) 30]
             UsePointToPoint).
Proof.
  assert (H : Forall2 (converts ex_stod ex_stoi) ex_levels_text ex_levels).
  { repeat constructor. }
  split; [exact H|].
  exact (levels_are_read_in_file_order ex_stod ex_stoi ex_levels_text
           ex_levels H).
Defined.



End Demo.
